(** * OpenOMF engine: lifecycle controller and frame scheduler

    A shallow embedding of [src/engine.c]: [engine_init], [engine_loop],
    [exit_handler], [engine_close] and the context set-up of [engine_run].

    The build modelled is the one in which the file compiles as written:
    [EMSCRIPTEN] defined ([engine_loop] calls [emscripten_cancel_main_loop]
    unconditionally) and [STANDALONE_SERVER] undefined (video, audio, input
    and screenshots are present).

    Everything [engine.c] calls but does not define (video, audio, console,
    game state, loaders, logging) is an abstract state machine
    ([Externals]); every call made into it is recorded, with its [int]
    result, in a trace.  The SDL event queue and the SDL millisecond clock
    are explicit inputs. *)

From Stdlib Require Import ZArith List String Bool Lia DecimalString.
From Stdlib Require DecimalPos DecimalN.
Import ListNotations.
Local Open Scope Z_scope.

(** ** C integers *)

Module CInt.

(** [Uint32] conversion. *)
Definition uint_of (z : Z) : Z := z mod 2 ^ 32.

(** [int] conversion (two's complement wrap-around). *)
Definition int_of (z : Z) : Z := (z + 2 ^ 31) mod 2 ^ 32 - 2 ^ 31.

(** The values an [int] can hold. *)
Definition int_range (z : Z) : Prop := - 2 ^ 31 <= z < 2 ^ 31.

(** C truth of an [int] used as a condition. *)
Definition nonzero (z : Z) : bool := negb (z =? 0).

(** The C operator [!]. *)
Definition lnot (z : Z) : Z := if z =? 0 then 1 else 0.

End CInt.
Import CInt.

Arguments nonzero : simpl never.

(** ** SDL events (the fields [engine.c] reads) and SDL2's constants *)

Module SDL.

Record SDL_Event : Type := mkEvent {
  ev_type : Z;          (* e.type *)
  key_sym : Z;          (* e.key.keysym.sym *)
  key_scancode : Z;     (* e.key.keysym.scancode *)
  window_event : Z      (* e.window.event *)
}.

Definition SDL_QUIT : Z := 256.
Definition SDL_WINDOWEVENT : Z := 512.
Definition SDL_KEYDOWN : Z := 768.
Definition SDL_MOUSEMOTION : Z := 1024.

Definition SDLK_TAB : Z := 9.
Definition SDLK_ESCAPE : Z := 27.
Definition SDLK_SPACE : Z := 32.
Definition SDLK_BACKQUOTE : Z := 96.
Definition SDLK_F1 : Z := 1073741882.
Definition SDLK_F5 : Z := 1073741886.
Definition SDLK_F6 : Z := 1073741887.

Definition SDL_SCANCODE_GRAVE : Z := 53.

Definition SDL_WINDOWEVENT_SHOWN : Z := 1.
Definition SDL_WINDOWEVENT_HIDDEN : Z := 2.
Definition SDL_WINDOWEVENT_MINIMIZED : Z := 7.
Definition SDL_WINDOWEVENT_MAXIMIZED : Z := 8.
Definition SDL_WINDOWEVENT_RESTORED : Z := 9.

End SDL.
Import SDL.

(** ** Settings read by [engine_init] *)

Record video_settings : Type := mkVideoSettings {
  screen_w : Z;
  screen_h : Z;
  fullscreen : Z;
  vsync : Z;
  scaler : string;
  scale_factor : Z
}.

Record settings : Type := mkSettings {
  video : video_settings;
  sound_sink : option string;   (* setting->sound.sink; [None] is NULL *)
  sound_vol : Z;
  music_vol : Z
}.

(** ** Calls into the collaborators *)

Inductive call : Type :=
  (* subsystem lifecycle *)
  | video_init (v : video_settings)
  | audio_init (sink : option string)
  | sounds_loader_init
  | lang_init
  | fonts_init
  | altpals_init
  | console_init
  | console_close
  | altpals_close
  | fonts_close
  | lang_close
  | sounds_loader_close
  | audio_close
  | video_close
  (* volume; the argument is the setting, passed on as vol/10.0f *)
  | sound_set_volume (vol : Z)
  | music_set_volume (vol : Z)
  (* logging macros, with the formatted message *)
  | INFO (msg : string)
  | DEBUG (msg : string)
  | PERROR (msg : string)
  (* SDL and the host main loop *)
  | SDL_ShowCursor (toggle : Z)
  | SDL_Delay (ms : Z)
  | emscripten_cancel_main_loop
  (* video and images *)
  | video_reinit_renderer
  | video_tick
  | video_render_prepare
  | video_render_finish
  | video_screenshot
  | image_write_png (file : string)
  | image_write_tga (file : string)
  | image_free
  (* audio *)
  | audio_render
  (* console *)
  | console_window_open
  | console_window_close
  | console_event (ev : SDL_Event)
  | console_tick
  | console_render
  (* game state *)
  | game_state_create
  | game_state_free
  | game_state_handle_event (ev : SDL_Event)
  | game_state_tick_controllers
  | game_state_static_tick
  | game_state_dynamic_tick
  | game_state_render
  | game_state_debug.

(** The collaborators as a state machine over an abstract state [X]:
    [exec c] is what call [c] does to them, [ret c] the [int] it returns
    (unused for [void] functions); the remaining fields are the queries
    [engine.c] makes. *)
Record Externals (X : Type) : Type := mkExternals {
  exec : call -> X -> X;
  ret : call -> X -> Z;
  audio_is_sink_available : option string -> X -> Z;
  audio_get_first_sink_name : X -> option string;
  game_state_is_running : X -> Z;
  game_state_ms_per_dyntick : X -> Z;
  console_window_is_open : X -> Z;
  video_get_state_fs : X -> Z;        (* the is-fullscreen out-parameter *)
  image_supports_png : X -> Z
}.

Arguments exec {X} _ _ _.
Arguments ret {X} _ _ _.
Arguments audio_is_sink_available {X} _ _ _.
Arguments audio_get_first_sink_name {X} _ _.
Arguments game_state_is_running {X} _ _.
Arguments game_state_ms_per_dyntick {X} _ _.
Arguments console_window_is_open {X} _ _.
Arguments video_get_state_fs {X} _ _.
Arguments image_supports_png {X} _ _.

(** ** Program state *)

(** [struct _EngineContext] (the [gs] pointer refers into the collaborators'
    state). *)
Record EngineContext : Type := mkCtx {
  e : SDL_Event;
  visual_debugger : Z;
  debugger_proceed : Z;
  debugger_render : Z;
  mouse_visible_ticks : Z;
  frame_start : Z;
  dynamic_wait : Z;
  static_wait : Z
}.

Record World (X : Type) : Type := mkWorld {
  (* file-scope statics of engine.c *)
  run : Z;
  start_timeout : Z;
  take_screenshot : Z;
  enable_screen_updates : Z;
  screenshot_filename : string;
  (* the context of the current run *)
  ctx : EngineContext;
  (* results of the coming SDL_PollEvent calls; [None] is an empty queue *)
  sdl_queue : list (option SDL_Event);
  (* values of the coming SDL_GetTicks calls, and the last one returned *)
  sdl_clock : list Z;
  sdl_now : Z;
  (* whether the host main loop was told to stop calling engine_loop *)
  main_loop_cancelled : bool;
  (* the collaborators, and the calls made so far with their results *)
  ext : X;
  trace : list (call * Z)
}.

Arguments run {X} _.
Arguments start_timeout {X} _.
Arguments take_screenshot {X} _.
Arguments enable_screen_updates {X} _.
Arguments screenshot_filename {X} _.
Arguments ctx {X} _.
Arguments sdl_queue {X} _.
Arguments sdl_clock {X} _.
Arguments sdl_now {X} _.
Arguments main_loop_cancelled {X} _.
Arguments ext {X} _.
Arguments trace {X} _.
Arguments mkWorld {X}.

Section Engine.

Context {X : Type} (E : Externals X).

(** *** Field updates *)

Definition set_run (v : Z) (w : World X) : World X :=
  mkWorld v (start_timeout w) (take_screenshot w) (enable_screen_updates w)
    (screenshot_filename w) (ctx w) (sdl_queue w) (sdl_clock w) (sdl_now w)
    (main_loop_cancelled w) (ext w) (trace w).

Definition set_take_screenshot (v : Z) (w : World X) : World X :=
  mkWorld (run w) (start_timeout w) v (enable_screen_updates w)
    (screenshot_filename w) (ctx w) (sdl_queue w) (sdl_clock w) (sdl_now w)
    (main_loop_cancelled w) (ext w) (trace w).

Definition set_enable_screen_updates (v : Z) (w : World X) : World X :=
  mkWorld (run w) (start_timeout w) (take_screenshot w) v
    (screenshot_filename w) (ctx w) (sdl_queue w) (sdl_clock w) (sdl_now w)
    (main_loop_cancelled w) (ext w) (trace w).

Definition set_screenshot_filename (v : string) (w : World X) : World X :=
  mkWorld (run w) (start_timeout w) (take_screenshot w)
    (enable_screen_updates w) v (ctx w) (sdl_queue w) (sdl_clock w)
    (sdl_now w) (main_loop_cancelled w) (ext w) (trace w).

Definition set_ctx (c : EngineContext) (w : World X) : World X :=
  mkWorld (run w) (start_timeout w) (take_screenshot w)
    (enable_screen_updates w) (screenshot_filename w) c (sdl_queue w)
    (sdl_clock w) (sdl_now w) (main_loop_cancelled w) (ext w) (trace w).

Definition set_sdl_queue (q : list (option SDL_Event)) (w : World X) : World X :=
  mkWorld (run w) (start_timeout w) (take_screenshot w)
    (enable_screen_updates w) (screenshot_filename w) (ctx w) q
    (sdl_clock w) (sdl_now w) (main_loop_cancelled w) (ext w) (trace w).

Definition set_sdl_clock (l : list Z) (now : Z) (w : World X) : World X :=
  mkWorld (run w) (start_timeout w) (take_screenshot w)
    (enable_screen_updates w) (screenshot_filename w) (ctx w) (sdl_queue w)
    l now (main_loop_cancelled w) (ext w) (trace w).

Definition set_main_loop_cancelled (b : bool) (w : World X) : World X :=
  mkWorld (run w) (start_timeout w) (take_screenshot w)
    (enable_screen_updates w) (screenshot_filename w) (ctx w) (sdl_queue w)
    (sdl_clock w) (sdl_now w) b (ext w) (trace w).

Definition set_e (v : SDL_Event) (w : World X) : World X :=
  let c := ctx w in
  set_ctx (mkCtx v (visual_debugger c) (debugger_proceed c)
             (debugger_render c) (mouse_visible_ticks c) (frame_start c)
             (dynamic_wait c) (static_wait c)) w.

Definition set_visual_debugger (v : Z) (w : World X) : World X :=
  let c := ctx w in
  set_ctx (mkCtx (e c) v (debugger_proceed c) (debugger_render c)
             (mouse_visible_ticks c) (frame_start c) (dynamic_wait c)
             (static_wait c)) w.

Definition set_debugger_proceed (v : Z) (w : World X) : World X :=
  let c := ctx w in
  set_ctx (mkCtx (e c) (visual_debugger c) v (debugger_render c)
             (mouse_visible_ticks c) (frame_start c) (dynamic_wait c)
             (static_wait c)) w.

Definition set_debugger_render (v : Z) (w : World X) : World X :=
  let c := ctx w in
  set_ctx (mkCtx (e c) (visual_debugger c) (debugger_proceed c) v
             (mouse_visible_ticks c) (frame_start c) (dynamic_wait c)
             (static_wait c)) w.

Definition set_mouse_visible_ticks (v : Z) (w : World X) : World X :=
  let c := ctx w in
  set_ctx (mkCtx (e c) (visual_debugger c) (debugger_proceed c)
             (debugger_render c) v (frame_start c) (dynamic_wait c)
             (static_wait c)) w.

Definition set_frame_start (v : Z) (w : World X) : World X :=
  let c := ctx w in
  set_ctx (mkCtx (e c) (visual_debugger c) (debugger_proceed c)
             (debugger_render c) (mouse_visible_ticks c) v (dynamic_wait c)
             (static_wait c)) w.

Definition set_dynamic_wait (v : Z) (w : World X) : World X :=
  let c := ctx w in
  set_ctx (mkCtx (e c) (visual_debugger c) (debugger_proceed c)
             (debugger_render c) (mouse_visible_ticks c) (frame_start c) v
             (static_wait c)) w.

Definition set_static_wait (v : Z) (w : World X) : World X :=
  let c := ctx w in
  set_ctx (mkCtx (e c) (visual_debugger c) (debugger_proceed c)
             (debugger_render c) (mouse_visible_ticks c) (frame_start c)
             (dynamic_wait c) v) w.

(** *** Calling out *)

(** A call into the collaborators: they change state and the call is
    recorded with the value it returns. *)
Definition invoke (c : call) (w : World X) : World X :=
  mkWorld (run w) (start_timeout w) (take_screenshot w)
    (enable_screen_updates w) (screenshot_filename w) (ctx w) (sdl_queue w)
    (sdl_clock w) (sdl_now w) (main_loop_cancelled w)
    (exec E c (ext w)) (trace w ++ [(c, ret E c (ext w))]).

(** The same, for a function whose [int] result the caller uses. *)
Definition call_int (c : call) (w : World X) : Z * World X :=
  (ret E c (ext w), invoke c w).

(** [SDL_GetTicks]: the next clock value as a [Uint32]. *)
Definition SDL_GetTicks (w : World X) : Z * World X :=
  match sdl_clock w with
  | t :: l => (uint_of t, set_sdl_clock l (uint_of t) w)
  | [] => (sdl_now w, w)
  end.

(** *** [exit_handler] *)

Definition exit_handler (s : Z) (w : World X) : World X := set_run 0 w.

(** *** [engine_init] *)

(** [printf]'s rendering of a [%s] argument. *)
Definition show_sink (s : option string) : string :=
  match s with
  | Some n => n
  | None => "(null)"
  end.

(** The unwinding labels; each falls through to the next. *)
Definition exit_0 (w : World X) : Z * World X := (1, w).
Definition exit_1 (w : World X) : Z * World X := exit_0 (invoke video_close w).
Definition exit_2 (w : World X) : Z * World X := exit_1 (invoke audio_close w).
Definition exit_3 (w : World X) : Z * World X :=
  exit_2 (invoke sounds_loader_close w).
Definition exit_4 (w : World X) : Z * World X := exit_3 (invoke lang_close w).
Definition exit_5 (w : World X) : Z * World X := exit_4 (invoke fonts_close w).
Definition exit_6 (w : World X) : Z * World X := exit_5 (invoke altpals_close w).

(** Lines 51-59: the sink handed to [audio_init]. *)
Definition resolve_sink (st : settings) (w : World X)
  : option string * World X :=
  let audiosink := sound_sink st in
  if nonzero (audio_is_sink_available E audiosink (ext w)) then
    (audiosink, w)
  else
    let prev_sink := audiosink in
    let audiosink := audio_get_first_sink_name E (ext w) in
    match audiosink with
    | None =>
        (audiosink,
         invoke (INFO ("Could not find requested sink '"
                         ++ show_sink prev_sink
                         ++ "'. No other sinks available; disabling audio.")) w)
    | Some _ =>
        (audiosink,
         invoke (INFO ("Could not find requested sink '"
                         ++ show_sink prev_sink
                         ++ "'. Falling back to '"
                         ++ show_sink audiosink ++ "'.")) w)
    end.

Definition engine_init (st : settings) (w : World X) : Z * World X :=
  let '(r, w) := call_int (video_init (video st)) w in
  if nonzero r then exit_0 w else
  let '(audiosink, w) := resolve_sink st w in
  let '(r, w) := call_int (audio_init audiosink) w in
  if nonzero r then exit_1 w else
  let w := invoke (sound_set_volume (sound_vol st)) w in
  let w := invoke (music_set_volume (music_vol st)) w in
  let '(r, w) := call_int sounds_loader_init w in
  if nonzero r then exit_2 w else
  let '(r, w) := call_int lang_init w in
  if nonzero r then exit_3 w else
  let '(r, w) := call_int fonts_init w in
  if nonzero r then exit_4 w else
  let '(r, w) := call_int altpals_init w in
  if nonzero r then exit_5 w else
  let '(r, w) := call_int console_init w in
  if nonzero r then exit_6 w else
  let w := set_run 1 w in
  (0, invoke (INFO "Engine initialization successful.") w).

(** *** [engine_close] *)

Definition engine_close (w : World X) : World X :=
  let w := invoke console_close w in
  let w := invoke altpals_close w in
  let w := invoke fonts_close w in
  let w := invoke lang_close w in
  let w := invoke sounds_loader_close w in
  let w := invoke audio_close w in
  let w := invoke video_close w in
  invoke (INFO "Engine deinit successful.") w.

(** *** [engine_loop] *)

(** Lines 139-189: the [switch] on the event just polled into [ctx->e]. *)
Definition window_switch (w : World X) : World X :=
  let id := window_event (e (ctx w)) in
  if id =? SDL_WINDOWEVENT_MINIMIZED then
    set_enable_screen_updates 0 (invoke (DEBUG "MINIMIZED") w)
  else if id =? SDL_WINDOWEVENT_HIDDEN then
    set_enable_screen_updates 0 (invoke (DEBUG "HIDDEN") w)
  else if id =? SDL_WINDOWEVENT_MAXIMIZED then
    set_enable_screen_updates 1 (invoke (DEBUG "MAXIMIZED") w)
  else if id =? SDL_WINDOWEVENT_RESTORED then
    let check_fs := video_get_state_fs E (ext w) in
    let w := if nonzero check_fs then invoke video_reinit_renderer w else w in
    set_enable_screen_updates 1 (invoke (DEBUG "RESTORED") w)
  else if id =? SDL_WINDOWEVENT_SHOWN then
    invoke (DEBUG "SHOWN") (set_enable_screen_updates 1 w)
  else w.

Definition keydown_switch (w : World X) : World X :=
  let sym := key_sym (e (ctx w)) in
  let w := if sym =? SDLK_F1 then set_take_screenshot 1 w else w in
  let w := if sym =? SDLK_F5
           then set_visual_debugger (lnot (visual_debugger (ctx w))) w
           else w in
  let w := if sym =? SDLK_SPACE then set_debugger_proceed 1 w else w in
  if sym =? SDLK_F6
  then set_debugger_render (lnot (debugger_render (ctx w))) w
  else w.

Definition event_switch (w : World X) : World X :=
  let ty := ev_type (e (ctx w)) in
  if ty =? SDL_QUIT then set_run 0 w
  else if ty =? SDL_KEYDOWN then keydown_switch w
  else if ty =? SDL_MOUSEMOTION then
    invoke (SDL_ShowCursor 1) (set_mouse_visible_ticks 1000 w)
  else if ty =? SDL_WINDOWEVENT then window_switch w
  else w.

(** The key tests of lines 193-196 and 199-201. *)
Definition console_close_key (ev : SDL_Event) : bool :=
  (key_scancode ev =? SDL_SCANCODE_GRAVE)
  || (key_sym ev =? SDLK_BACKQUOTE)
  || (key_sym ev =? SDLK_TAB)
  || (key_sym ev =? SDLK_ESCAPE).

Definition console_open_key (ev : SDL_Event) : bool :=
  (key_sym ev =? SDLK_TAB)
  || (key_sym ev =? SDLK_BACKQUOTE)
  || (key_scancode ev =? SDL_SCANCODE_GRAVE).

(** Lines 191-213: console toggling ([continue] skips the dispatch), then
    the dispatch to the console or to the game state. *)
Definition event_dispatch (w : World X) : World X :=
  let ev := e (ctx w) in
  if (ev_type ev =? SDL_KEYDOWN)
     && nonzero (console_window_is_open E (ext w))
     && console_close_key ev
  then invoke console_window_close w
  else if (ev_type ev =? SDL_KEYDOWN) && console_open_key ev
  then invoke console_window_open w
  else if nonzero (console_window_is_open E (ext w))
  then invoke (console_event ev) w
  else invoke (game_state_handle_event ev) w.

(** One turn of the [while(SDL_PollEvent(&ctx->e))] body. *)
Definition handle_event (w : World X) : World X :=
  event_dispatch (event_switch w).

(** Lines 137-214: poll until SDL reports no event. *)
Fixpoint poll_events (q : list (option SDL_Event)) (w : World X) : World X :=
  match q with
  | Some ev :: q' => poll_events q' (handle_event (set_e ev (set_sdl_queue q' w)))
  | None :: q' => set_sdl_queue q' w
  | [] => set_sdl_queue [] w
  end.

Definition engine_loop_events (w : World X) : World X :=
  poll_events (sdl_queue w) w.

(** Lines 216-222.  [mouse_visible_ticks -= SDL_GetTicks() - frame_start]:
    the difference is taken in [Uint32], the assignment converts back to
    [int]. *)
Definition engine_loop_mouse (w : World X) : World X :=
  if 0 <? mouse_visible_ticks (ctx w) then
    let '(t, w) := SDL_GetTicks w in
    let w := set_mouse_visible_ticks
               (int_of (mouse_visible_ticks (ctx w)
                        - uint_of (t - frame_start (ctx w)))) w in
    if mouse_visible_ticks (ctx w) <=? 0
    then invoke (SDL_ShowCursor 0) w
    else w
  else w.

(** Lines 228-237: the elapsed time, and what is added to the two
    accumulators. *)
Definition engine_loop_wait (w : World X) : World X :=
  let '(t, w) := SDL_GetTicks w in
  let dt := int_of (uint_of (t - frame_start (ctx w))) in
  let '(t, w) := SDL_GetTicks w in
  let w := set_frame_start (int_of t) w in
  if visual_debugger (ctx w) =? 0 then
    let w := set_dynamic_wait (int_of (dynamic_wait (ctx w) + dt)) w in
    set_static_wait (int_of (static_wait (ctx w) + dt)) w
  else if nonzero (debugger_proceed (ctx w)) then
    let w := set_dynamic_wait (int_of (dynamic_wait (ctx w) + 20)) w in
    let w := set_static_wait (int_of (static_wait (ctx w) + 20)) w in
    set_debugger_proceed 0 w
  else w.

(** Lines 238-249.  [None]: the loop has not finished within [fuel] turns. *)
Fixpoint engine_loop_static (fuel : nat) (w : World X) : option (World X) :=
  if 10 <? static_wait (ctx w) then
    match fuel with
    | O => None
    | S fuel' =>
        let w := invoke game_state_static_tick w in
        let w := invoke console_tick w in
        let w := invoke video_tick w in
        engine_loop_static fuel'
          (set_static_wait (int_of (static_wait (ctx w) - 10)) w)
    end
  else Some w.

(** Lines 250-256; the period is asked again after the tick. *)
Fixpoint engine_loop_dynamic (fuel : nat) (w : World X) : option (World X) :=
  if game_state_ms_per_dyntick E (ext w) <? dynamic_wait (ctx w) then
    match fuel with
    | O => None
    | S fuel' =>
        let w := invoke game_state_dynamic_tick w in
        engine_loop_dynamic fuel'
          (set_dynamic_wait
             (int_of (dynamic_wait (ctx w)
                      - game_state_ms_per_dyntick E (ext w))) w)
    end
  else Some w.

(** The two drain passes, lines 238-256. *)
Definition engine_loop_drain (fuel : nat) (w : World X) : option (World X) :=
  match engine_loop_static fuel w with
  | Some w => engine_loop_dynamic fuel w
  | None => None
  end.

(** [%u] of a tick count. *)
Definition show_ticks (t : Z) : string :=
  NilZero.string_of_uint (N.to_uint (Z.to_N t)).

(** Lines 277-296, entered when a screenshot is requested.  The file names
    are at most 25 characters, within the 128 of the buffer. *)
Definition engine_loop_screenshot (w : World X) : World X :=
  let '(failed_screenshot, w) := call_int video_screenshot w in
  let w :=
    if nonzero failed_screenshot then w
    else
      let '(scr_ret, w) :=
        if nonzero (image_supports_png E (ext w)) then
          let '(t, w) := SDL_GetTicks w in
          let w := set_screenshot_filename
                     ("screenshot_" ++ show_ticks t ++ ".png") w in
          call_int (image_write_png (screenshot_filename w)) w
        else
          let '(t, w) := SDL_GetTicks w in
          let w := set_screenshot_filename
                     ("screenshot_" ++ show_ticks t ++ ".tga") w in
          call_int (image_write_tga (screenshot_filename w)) w in
      if nonzero scr_ret then
        invoke (PERROR ("Screenshot write operation failed ("
                          ++ screenshot_filename w ++ ")")) w
      else
        invoke (DEBUG ("Got a screenshot: " ++ screenshot_filename w)) w in
  let w := invoke image_free w in
  set_take_screenshot 0 w.

(** Lines 259-301. *)
Definition engine_loop_render (w : World X) : World X :=
  let w := if visual_debugger (ctx w) =? 0 then invoke audio_render w else w in
  if nonzero (enable_screen_updates w) then
    let w := invoke video_render_prepare w in
    let w := invoke game_state_render w in
    let w := if nonzero (debugger_render (ctx w))
             then invoke game_state_debug w else w in
    let w := invoke console_render w in
    let w := invoke video_render_finish w in
    if nonzero (take_screenshot w) then engine_loop_screenshot w else w
  else invoke (SDL_Delay 1) w.

(** The test of line 129: true when the iteration returns at once. *)
Definition loop_guard (w : World X) : bool :=
  (run w =? 0) || negb (nonzero (game_state_is_running E (ext w))).

(** Lines 137-225: events, mouse countdown, controller tick. *)
Definition engine_loop_pre (w : World X) : World X :=
  let w := engine_loop_events w in
  let w := engine_loop_mouse w in
  invoke game_state_tick_controllers w.

(** Lines 137-237: everything before the drain passes. *)
Definition engine_loop_front (w : World X) : World X :=
  engine_loop_wait (engine_loop_pre w).

Definition engine_loop (fuel : nat) (w : World X) : option (World X) :=
  if loop_guard w then
    Some (set_main_loop_cancelled true (invoke emscripten_cancel_main_loop w))
  else
    match engine_loop_drain fuel (engine_loop_front w) with
    | Some w => Some (engine_loop_render w)
    | None => None
    end.

(** *** [engine_run]: the context it builds, and the host loop *)

(** Lines 311-320; [t] is the [SDL_GetTicks] value, [ev] whatever the fresh
    allocation holds. *)
Definition engine_run_context (ev : SDL_Event) (t : Z) : EngineContext :=
  mkCtx ev 0 0 0 1000 (int_of t) 0 0.

(** [emscripten_set_main_loop_arg]: the host calls [engine_loop] once per
    frame until it is cancelled.  The result lists the state before each
    of the frames run and the state after the last. *)
Fixpoint main_loop (fuel frames : nat) (w : World X)
  : option (list (World X)) :=
  match frames with
  | O => Some [w]
  | S frames' =>
      if main_loop_cancelled w then Some [w]
      else
        match engine_loop fuel w with
        | Some w' =>
            match main_loop fuel frames' w' with
            | Some ws => Some (w :: ws)
            | None => None
            end
        | None => None
        end
  end.

End Engine.

(** * Observations on traces *)

(** The subsystems [engine_init] brings up, in the order of its calls. *)
Inductive subsystem : Type :=
  | Rendering
  | Audio
  | ResourceLoader
  | Localization
  | FontCache
  | PaletteCache
  | Console.

Definition init_order : list subsystem :=
  [Rendering; Audio; ResourceLoader; Localization; FontCache; PaletteCache;
   Console].

(** What a trace says about subsystem lifecycles: an [init] with the value
    it returned, or a [close]. *)
Inductive lifecycle : Type :=
  | Init (s : subsystem) (result : Z)
  | Close (s : subsystem).

Definition lifecycle_of (en : call * Z) : option lifecycle :=
  match fst en with
  | video_init _ => Some (Init Rendering (snd en))
  | audio_init _ => Some (Init Audio (snd en))
  | sounds_loader_init => Some (Init ResourceLoader (snd en))
  | lang_init => Some (Init Localization (snd en))
  | fonts_init => Some (Init FontCache (snd en))
  | altpals_init => Some (Init PaletteCache (snd en))
  | console_init => Some (Init Console (snd en))
  | video_close => Some (Close Rendering)
  | audio_close => Some (Close Audio)
  | sounds_loader_close => Some (Close ResourceLoader)
  | lang_close => Some (Close Localization)
  | fonts_close => Some (Close FontCache)
  | altpals_close => Some (Close PaletteCache)
  | console_close => Some (Close Console)
  | _ => None
  end.

Fixpoint lifecycle_trace (t : list (call * Z)) : list lifecycle :=
  match t with
  | [] => []
  | en :: t' =>
      match lifecycle_of en with
      | Some l => l :: lifecycle_trace t'
      | None => lifecycle_trace t'
      end
  end.

(** The calls of a trace, without their results. *)
Definition calls (t : list (call * Z)) : list call := map fst t.

(** How many calls of a trace satisfy [p]. *)
Definition count_calls (p : call -> bool) (t : list (call * Z)) : nat :=
  List.length (filter (fun en => p (fst en)) t).

Definition is_static_tick (c : call) : bool :=
  match c with game_state_static_tick => true | _ => false end.

Definition is_console_tick (c : call) : bool :=
  match c with console_tick => true | _ => false end.

Definition is_video_tick (c : call) : bool :=
  match c with video_tick => true | _ => false end.

Definition is_dynamic_tick (c : call) : bool :=
  match c with game_state_dynamic_tick => true | _ => false end.

Definition is_hide_cursor (c : call) : bool :=
  match c with SDL_ShowCursor t => t =? 0 | _ => false end.

Definition is_screenshot (c : call) : bool :=
  match c with video_screenshot => true | _ => false end.

Definition is_image_free (c : call) : bool :=
  match c with image_free => true | _ => false end.

Definition is_log (c : call) : bool :=
  match c with INFO _ | DEBUG _ | PERROR _ => true | _ => false end.

Definition is_console_event (c : call) : bool :=
  match c with console_event _ => true | _ => false end.

Definition is_game_event (c : call) : bool :=
  match c with game_state_handle_event _ => true | _ => false end.

(** What the next [SDL_GetTicks] call returns. *)
Definition next_ticks {X : Type} (w : World X) : Z :=
  match sdl_clock w with
  | t :: _ => uint_of t
  | [] => sdl_now w
  end.

(** [SDL_GetTicks() - ctx->frame_start], a [Uint32], if taken in [w]. *)
Definition ticks_since_frame {X : Type} (w : World X) : Z :=
  uint_of (next_ticks w - frame_start (ctx w)).

(** The [dt] of line 228 when [engine_loop] reaches it in state [w]. *)
Definition elapsed {X : Type} (w : World X) : Z :=
  int_of (ticks_since_frame w).

(** The events the event loop will poll: those before the first empty
    poll. *)
Fixpoint pending (q : list (option SDL_Event)) : list SDL_Event :=
  match q with
  | Some ev :: q' => ev :: pending q'
  | _ => []
  end.

(** A context with both accumulators replaced. *)
Definition with_waits (c : EngineContext) (s d : Z) : EngineContext :=
  mkCtx (e c) (visual_debugger c) (debugger_proceed c) (debugger_render c)
    (mouse_visible_ticks c) (frame_start c) d s.

(** Sum of a list of integers. *)
Definition total (l : list Z) : Z := fold_right Z.add 0 l.

(** The number of turns a drain loop [while (a > p) a -= p] takes on an
    accumulator holding [a]. *)
Definition whole_periods (a p : Z) : Z := Z.max 0 ((a - 1) / p).

(** [w] with its context, collaborators and trace replaced. *)
Definition patch {X : Type} (w : World X) (c : EngineContext) (x : X)
  (t : list (call * Z)) : World X :=
  mkWorld (run w) (start_timeout w) (take_screenshot w)
    (enable_screen_updates w) (screenshot_filename w) c (sdl_queue w)
    (sdl_clock w) (sdl_now w) (main_loop_cancelled w) x t.

(** A context with its static accumulator replaced. *)
Definition with_static_wait (c : EngineContext) (v : Z) : EngineContext :=
  mkCtx (e c) (visual_debugger c) (debugger_proceed c) (debugger_render c)
    (mouse_visible_ticks c) (frame_start c) (dynamic_wait c) v.

(** A context with its dynamic accumulator replaced. *)
Definition with_dynamic_wait (c : EngineContext) (v : Z) : EngineContext :=
  mkCtx (e c) (visual_debugger c) (debugger_proceed c) (debugger_render c)
    (mouse_visible_ticks c) (frame_start c) v (static_wait c).

(** The calls of one turn of the static drain loop. *)
Definition is_static_call (c : call) : bool :=
  match c with
  | game_state_static_tick | console_tick | video_tick => true
  | _ => false
  end.

(** The calls of the drain passes. *)
Definition tick_call (c : call) : bool :=
  is_static_call c || is_dynamic_tick c.

(** The calls the [switch] on an event (lines 139-189) can make. *)
Definition switch_call (c : call) : bool :=
  match c with
  | SDL_ShowCursor t => t =? 1
  | DEBUG _ | video_reinit_renderer => true
  | _ => false
  end.

(** The key-down events that open or close the console instead of being
    dispatched, given whether the console is open. *)
Definition console_toggle (is_open : bool) (ev : SDL_Event) : bool :=
  (ev_type ev =? SDL_KEYDOWN)
  && ((is_open && console_close_key ev) || console_open_key ev).

(** The key-down event that requests a single step. *)
Definition step_key (ev : SDL_Event) : bool :=
  (ev_type ev =? SDL_KEYDOWN) && (key_sym ev =? SDLK_SPACE).

(** The name of the file a screenshot taken at tick count [t] goes to. *)
Definition screenshot_file (png : bool) (t : Z) : string :=
  "screenshot_" ++ show_ticks t ++ (if png then ".png" else ".tga").

(** Some pending event is [SDL_QUIT]. *)
Definition quit_pending (q : list (option SDL_Event)) : bool :=
  existsb (fun ev => ev_type ev =? SDL_QUIT) (pending q).

(** The calls the event loop (lines 137-214) can make. *)
Definition event_call (c : call) : bool :=
  match c with
  | SDL_ShowCursor t => t =? 1
  | DEBUG _ | video_reinit_renderer | console_window_open
  | console_window_close | console_event _ | game_state_handle_event _ => true
  | _ => false
  end.

(** The calls the output phase (lines 259-301) can make. *)
Definition render_call (c : call) : bool :=
  match c with
  | audio_render | video_render_prepare | game_state_render
  | game_state_debug | console_render | video_render_finish
  | video_screenshot | image_write_png _ | image_write_tga _ | PERROR _
  | DEBUG _ | image_free | SDL_Delay _ => true
  | _ => false
  end.

(** [t] extends a trace by calls of kind [k] only. *)
Definition extends_by (k : call -> bool) (t0 t1 : list (call * Z)) : Prop :=
  exists t, t1 = t0 ++ t /\ Forall (fun en => k (fst en) = true) t.

(** What the event loop leaves alone, and the only ways it changes [run]
    and [take_screenshot]. *)
Definition events_frame {X : Type} (w w' : World X) : Prop :=
  start_timeout w' = start_timeout w
  /\ screenshot_filename w' = screenshot_filename w
  /\ sdl_clock w' = sdl_clock w
  /\ sdl_now w' = sdl_now w
  /\ main_loop_cancelled w' = main_loop_cancelled w
  /\ frame_start (ctx w') = frame_start (ctx w)
  /\ dynamic_wait (ctx w') = dynamic_wait (ctx w)
  /\ static_wait (ctx w') = static_wait (ctx w)
  /\ (run w' = run w \/ run w' = 0)
  /\ (take_screenshot w' = take_screenshot w \/ take_screenshot w' = 1)
  /\ extends_by event_call (trace w) (trace w').

(** The statics and the SDL queue are the same in [w] and [w']. *)
Definition same_globals {X : Type} (w w' : World X) : Prop :=
  run w' = run w
  /\ start_timeout w' = start_timeout w
  /\ take_screenshot w' = take_screenshot w
  /\ enable_screen_updates w' = enable_screen_updates w
  /\ screenshot_filename w' = screenshot_filename w
  /\ sdl_queue w' = sdl_queue w
  /\ main_loop_cancelled w' = main_loop_cancelled w.

(** A context with its mouse countdown replaced. *)
Definition with_mouse (c : EngineContext) (v : Z) : EngineContext :=
  mkCtx (e c) (visual_debugger c) (debugger_proceed c) (debugger_render c)
    v (frame_start c) (dynamic_wait c) (static_wait c).

(** No pending event is a mouse motion. *)
Definition no_mouse_motion (q : list (option SDL_Event)) : bool :=
  forallb (fun o => match o with
                    | Some ev => negb (ev_type ev =? SDL_MOUSEMOTION)
                    | None => true
                    end) q.

(** What is left of the queue once the event loop has met an empty poll. *)
Fixpoint after_poll (q : list (option SDL_Event))
  : list (option SDL_Event) :=
  match q with
  | Some _ :: q' => after_poll q'
  | None :: q' => q'
  | [] => []
  end.

Section FrameObservations.

Context {X : Type} (E : Externals X).

(** The visual debugger is on when the frame in [w] reaches line 230. *)
Definition debugger_active (w : World X) : bool :=
  nonzero (visual_debugger (ctx (engine_loop_pre E w))).

(** A single step is requested when the frame in [w] reaches line 233. *)
Definition step_pending (w : World X) : bool :=
  nonzero (debugger_proceed (ctx (engine_loop_pre E w))).

(** What lines 230-237 of the frame in [w] add to the accumulators. *)
Definition static_advance (w : World X) : Z :=
  static_wait (ctx (engine_loop_front E w))
  - static_wait (ctx (engine_loop_pre E w)).

Definition dynamic_advance (w : World X) : Z :=
  dynamic_wait (ctx (engine_loop_front E w))
  - dynamic_wait (ctx (engine_loop_pre E w)).

(** The frames of a run that got past line 129. *)
Definition frames_run (ws : list (World X)) : list (World X) :=
  filter (fun w => negb (loop_guard E w)) (removelast ws).

End FrameObservations.

(** A subsystem [init] that reports success whatever the state. *)
Definition init_succeeds {X : Type} (E : Externals X) (c : call) : Prop :=
  forall x, ret E c x = 0.

(** The subsystems initialised after audio all report success. *)
Definition later_inits_succeed {X : Type} (E : Externals X) : Prop :=
  init_succeeds E sounds_loader_init /\ init_succeeds E lang_init
  /\ init_succeeds E fonts_init /\ init_succeeds E altpals_init
  /\ init_succeeds E console_init.

(** Modelled from the spec: [audio_init] (audio/audio.c, which is not among
    the sources) when it is handed no sink name.  "If none exists, audio is
    disabled for the run rather than treated as a fatal error": the call
    reports success. *)
Definition audio_init_without_sink {X : Type} (E : Externals X) : Prop :=
  forall x, ret E (audio_init None) x = 0.

(** The calls of a successful start-up after the first, given the sink
    message logged and the sink handed to [audio_init]. *)
Definition startup_calls (st : settings) (msg : string)
  (sink : option string) : list call :=
  [INFO msg; audio_init sink; sound_set_volume (sound_vol st);
   music_set_volume (music_vol st); sounds_loader_init; lang_init;
   fonts_init; altpals_init; console_init;
   INFO "Engine initialization successful."].

(** * Further observations *)

(** The calls of one turn of the static drain loop, in order. *)
Definition static_turn : list call :=
  [game_state_static_tick; console_tick; video_tick].

(** The calls by which the event loop disposes of an event: the two
    handlers and the two console toggles. *)
Definition is_routed (c : call) : bool :=
  match c with
  | console_event _ | game_state_handle_event _
  | console_window_open | console_window_close => true
  | _ => false
  end.

(** What a window event says about screen output: [Some 0] off, [Some 1]
    on, [None] nothing. *)
Definition screen_event (ev : SDL_Event) : option Z :=
  if ev_type ev =? SDL_WINDOWEVENT then
    if window_event ev =? SDL_WINDOWEVENT_MINIMIZED then Some 0
    else if window_event ev =? SDL_WINDOWEVENT_HIDDEN then Some 0
    else if window_event ev =? SDL_WINDOWEVENT_MAXIMIZED then Some 1
    else if window_event ev =? SDL_WINDOWEVENT_RESTORED then Some 1
    else if window_event ev =? SDL_WINDOWEVENT_SHOWN then Some 1
    else None
  else None.

(** Screen output after a sequence of events: the last window event that
    says anything decides. *)
Definition screen_after (evs : list SDL_Event) (enable : Z) : Z :=
  fold_left (fun en ev => match screen_event ev with
                          | Some v => v
                          | None => en
                          end) evs enable.

(** The key-down event that requests a screenshot. *)
Definition screenshot_key (ev : SDL_Event) : bool :=
  (ev_type ev =? SDL_KEYDOWN) && (key_sym ev =? SDLK_F1).

Definition is_motion (ev : SDL_Event) : bool :=
  ev_type ev =? SDL_MOUSEMOTION.

Definition is_show_cursor (c : call) : bool :=
  match c with SDL_ShowCursor t => t =? 1 | _ => false end.

(** The calls made while a screenshot is serviced (lines 277-296). *)
Definition screenshot_call (c : call) : bool :=
  match c with
  | video_screenshot | image_write_png _ | image_write_tga _ | PERROR _
  | DEBUG _ | image_free => true
  | _ => false
  end.

Definition is_prepare (c : call) : bool :=
  match c with video_render_prepare => true | _ => false end.

Definition is_finish (c : call) : bool :=
  match c with video_render_finish => true | _ => false end.

Definition is_scene (c : call) : bool :=
  match c with game_state_render => true | _ => false end.

Definition is_overlay (c : call) : bool :=
  match c with game_state_debug => true | _ => false end.

Definition is_console_render (c : call) : bool :=
  match c with console_render => true | _ => false end.

Definition is_delay (c : call) : bool :=
  match c with SDL_Delay _ => true | _ => false end.

Definition is_audio (c : call) : bool :=
  match c with audio_render => true | _ => false end.

Definition is_controllers (c : call) : bool :=
  match c with game_state_tick_controllers => true | _ => false end.

Definition is_cancel (c : call) : bool :=
  match c with emscripten_cancel_main_loop => true | _ => false end.

(** * [engine_run] up to the game loop *)

(** How far [engine_run] gets before the game loop: it has returned, or it
    is about to hand [engine_loop] to the host. *)
Inductive outcome (X : Type) : Type :=
  | Returned (w : World X)
  | Ready (w : World X).

Arguments Returned {X} _.
Arguments Ready {X} _.

Section EngineRun.

Context {X : Type} (E : Externals X).

Definition set_start_timeout (v : Z) (w : World X) : World X :=
  mkWorld (run w) v (take_screenshot w) (enable_screen_updates w)
    (screenshot_filename w) (ctx w) (sdl_queue w) (sdl_clock w) (sdl_now w)
    (main_loop_cancelled w) (ext w) (trace w).

(** Lines 338-342: poll until SDL reports no event; [true] when an
    [SDL_QUIT] was met, on which [engine_run] returns. *)
Fixpoint countdown_poll (q : list (option SDL_Event)) (w : World X)
  : bool * World X :=
  match q with
  | Some ev :: q' =>
      let w := set_e ev (set_sdl_queue q' w) in
      if ev_type ev =? SDL_QUIT then (true, w) else countdown_poll q' w
  | None :: q' => (false, set_sdl_queue q' w)
  | [] => (false, set_sdl_queue [] w)
  end.

(** Lines 336-346: the start countdown.  [None]: not finished within
    [fuel] turns. *)
Fixpoint engine_run_countdown (fuel : nat) (w : World X)
  : option (outcome X) :=
  if 0 <? start_timeout w then
    match fuel with
    | O => None
    | S fuel' =>
        let w := set_start_timeout (int_of (start_timeout w - 1)) w in
        let '(quit, w) := countdown_poll (sdl_queue w) w in
        if quit then Some (Returned w)
        else
          let w := invoke E video_render_prepare w in
          let w := invoke E video_render_finish w in
          engine_run_countdown fuel' w
    end
  else Some (Ready w).

(** Lines 309-356: the context, the start countdown, the volume, the game
    state.  [crossfade_on] is [settings_get()->video.crossfade_on]; the
    event buffer of the fresh context holds whatever it holds. *)
Definition engine_run_setup (fuel : nat) (crossfade_on : Z) (st : settings)
  (w : World X) : option (outcome X) :=
  let '(t, w) := SDL_GetTicks w in
  let w := set_ctx (engine_run_context (e (ctx w)) t) w in
  let w := invoke E (INFO " --- BEGIN GAME LOG ---") w in
  let w := if crossfade_on =? 0 then set_start_timeout 0 w else w in
  match engine_run_countdown fuel w with
  | Some (Ready w) =>
      let w := invoke E (sound_set_volume (sound_vol st)) w in
      let '(r, w) := call_int E game_state_create w in
      if nonzero r then Some (Returned w) else Some (Ready w)
  | other => other
  end.

End EngineRun.

(** No event to come is [SDL_QUIT]. *)
Definition no_quit (q : list (option SDL_Event)) : bool :=
  forallb (fun o => match o with
                    | Some ev => negb (ev_type ev =? SDL_QUIT)
                    | None => true
                    end) q.

(** A context with its event buffer replaced. *)
Definition with_event (c : EngineContext) (ev : SDL_Event) : EngineContext :=
  mkCtx ev (visual_debugger c) (debugger_proceed c) (debugger_render c)
    (mouse_visible_ticks c) (frame_start c) (dynamic_wait c) (static_wait c).

(** The calls of one turn of the start countdown. *)
Definition empty_frame : list call :=
  [video_render_prepare; video_render_finish].

(** The state the outcome carries. *)
Definition outcome_world {X : Type} (o : outcome X) : World X :=
  match o with
  | Returned w => w
  | Ready w => w
  end.

(** Two events with the same fields [engine.c] reads. *)
Definition SDL_Event_eqb (a b : SDL_Event) : bool :=
  (ev_type a =? ev_type b) && (key_sym a =? key_sym b)
  && (key_scancode a =? key_scancode b)
  && (window_event a =? window_event b).

(** Call [c] disposes of event [ev]: a handler called with [ev] itself, or
    a console toggle for a key-down that toggles the console. *)
Definition disposes (c : call) (ev : SDL_Event) : bool :=
  match c with
  | console_event ev' | game_state_handle_event ev' => SDL_Event_eqb ev' ev
  | console_window_close =>
      (ev_type ev =? SDL_KEYDOWN) && console_close_key ev
  | console_window_open =>
      (ev_type ev =? SDL_KEYDOWN) && console_open_key ev
  | _ => false
  end.

(** The routing calls of a trace, in order. *)
Definition routed (t : list (call * Z)) : list call :=
  filter is_routed (calls t).

(** * Concrete collaborators and worlds *)

(** Collaborators without state that always succeed: the game is running,
    the dynamic tick lasts [period] ms, the console is closed, PNG is
    supported; of the sinks only ["alsa"] exists. *)
Definition quiet (period : Z) : Externals unit :=
  mkExternals unit
    (fun _ x => x)
    (fun _ _ => 0)
    (fun s _ => match s with
                | Some n => if String.eqb n "alsa" then 1 else 0
                | None => 0
                end)
    (fun _ => Some "alsa"%string)
    (fun _ => 1)
    (fun _ => period)
    (fun _ => 0)
    (fun _ => 0)
    (fun _ => 1).

(** The same on a machine without any sink. *)
Definition silent : Externals unit :=
  mkExternals unit
    (fun _ x => x)
    (fun _ _ => 0)
    (fun _ _ => 0)
    (fun _ => None)
    (fun _ => 1)
    (fun _ => 16)
    (fun _ => 0)
    (fun _ => 0)
    (fun _ => 1).

Definition no_event : SDL_Event := mkEvent 0 0 0 0.

Definition key_down (sym : Z) : SDL_Event := mkEvent SDL_KEYDOWN sym 0 0.

Definition some_settings : settings :=
  mkSettings (mkVideoSettings 640 400 0 0 "Nearest" 1) (Some "pulse"%string)
    10 10.

(** The state before [engine_init]: the statics as initialised in the
    source, an empty trace. *)
Definition boot : World unit :=
  mkWorld 0 30 0 1 ""%string (engine_run_context no_event 0) [] [] 0 false
    tt [].

(** A running engine at clock [0] with a fresh context, the given pending
    events and the given clock readings to come. *)
Definition running (q : list (option SDL_Event)) (clock : list Z)
  : World unit :=
  mkWorld 1 0 0 1 ""%string (engine_run_context no_event 0) q clock 0 false
    tt [].

(** The same with the visual debugger switched on. *)
Definition debugging (q : list (option SDL_Event)) (clock : list Z)
  : World unit :=
  mkWorld 1 0 0 1 ""%string (mkCtx no_event 1 0 0 1000 0 0 0) q clock 0
    false tt [].

(** The same with accumulators holding [s] (static) and [d] (dynamic). *)
Definition accumulated (s d : Z) : World unit :=
  mkWorld 1 0 0 1 ""%string (mkCtx no_event 0 0 0 1000 0 d s) [] [] 0 false
    tt [].

(** A running engine with a screenshot requested and screen output as
    given. *)
Definition requested (enable : Z) (q : list (option SDL_Event))
  (clock : list Z) : World unit :=
  mkWorld 1 0 1 enable ""%string (engine_run_context no_event 0) q clock 0
    false tt [].

Definition quit_event : SDL_Event := mkEvent SDL_QUIT 0 0 0.

Definition window (id : Z) : SDL_Event := mkEvent SDL_WINDOWEVENT 0 0 id.

(** Collaborators like [quiet 16] whose [video_screenshot] fails. *)
Definition capture_fails : Externals unit :=
  mkExternals unit
    (fun _ x => x)
    (fun c _ => match c with video_screenshot => 1 | _ => 0 end)
    (fun _ _ => 1)
    (fun _ => None)
    (fun _ => 1)
    (fun _ => 16)
    (fun _ => 0)
    (fun _ => 0)
    (fun _ => 1).

(** Collaborators like [quiet 16] whose game state has finished. *)
Definition finished : Externals unit :=
  mkExternals unit
    (fun _ x => x)
    (fun _ _ => 0)
    (fun _ _ => 1)
    (fun _ => None)
    (fun _ => 0)
    (fun _ => 16)
    (fun _ => 0)
    (fun _ => 0)
    (fun _ => 1).

(** What a frame leaves of the static accumulator, and how many static
    ticks, console events and game-state events its trace counts. *)
Definition frame_outcome {X : Type} (w' : World X) : Z * nat * nat * nat :=
  (static_wait (ctx w'), count_calls is_static_tick (trace w'),
   count_calls is_console_event (trace w'),
   count_calls is_game_event (trace w')).

Definition motion_event : SDL_Event := mkEvent SDL_MOUSEMOTION 0 0 0.

(** An initialised engine about to enter [engine_run], with [n] turns of
    start countdown left. *)
Definition waiting (n : Z) (q : list (option SDL_Event)) (clock : list Z)
  : World unit :=
  mkWorld 1 n 0 1 ""%string (mkCtx no_event 7 7 7 7 7 7 7) q clock 0 false
    tt [].

(** * Properties *)

#[local] Arguments Z.add : simpl never.
#[local] Arguments Z.sub : simpl never.
#[local] Arguments Z.mul : simpl never.
#[local] Arguments Z.div : simpl never.
#[local] Arguments Z.modulo : simpl never.
#[local] Arguments Z.pow : simpl never.
#[local] Arguments Z.max : simpl never.
#[local] Arguments Z.of_nat : simpl never.
#[local] Arguments Z.ltb : simpl never.
#[local] Arguments Z.leb : simpl never.
#[local] Arguments Z.eqb : simpl never.
#[local] Arguments count_calls : simpl never.
#[local] Arguments whole_periods : simpl never.
#[local] Arguments total : simpl never.
#[local] Arguments engine_loop_screenshot : simpl never.

Section EngineProperties.

Context {X : Type} (E : Externals X).

(** ** Arithmetic of C integers *)

Lemma nonzero_0 : nonzero 0 = false.
Proof. reflexivity. Qed.

Lemma nonzero_false (z : Z) : nonzero z = false <-> z = 0.
Proof.
  unfold nonzero. rewrite negb_false_iff. apply Z.eqb_eq.
Qed.

Lemma nonzero_true (z : Z) : nonzero z = true <-> z <> 0.
Proof.
  unfold nonzero. rewrite negb_true_iff. apply Z.eqb_neq.
Qed.

Lemma int_of_id (z : Z) : int_range z -> int_of z = z.
Proof.
  unfold int_range, int_of. intros H.
  rewrite Z.mod_small by lia. lia.
Qed.

Lemma int_of_range (z : Z) : int_range (int_of z).
Proof.
  unfold int_range, int_of.
  pose proof (Z.mod_pos_bound (z + 2 ^ 31) (2 ^ 32) ltac:(lia)). lia.
Qed.

(** ** Traces *)

Lemma lifecycle_trace_app (t1 t2 : list (call * Z)) :
  lifecycle_trace (t1 ++ t2) = lifecycle_trace t1 ++ lifecycle_trace t2.
Proof.
  induction t1 as [|en t1 IH]; simpl; [reflexivity|].
  destruct (lifecycle_of en); simpl; rewrite IH; reflexivity.
Qed.

Lemma count_calls_app (p : call -> bool) (t1 t2 : list (call * Z)) :
  count_calls p (t1 ++ t2) = (count_calls p t1 + count_calls p t2)%nat.
Proof.
  unfold count_calls. rewrite filter_app, length_app. reflexivity.
Qed.

Lemma count_calls_one (p : call -> bool) (c : call) (r : Z) :
  count_calls p [(c, r)] = if p c then 1%nat else 0%nat.
Proof. unfold count_calls. cbn. destruct (p c); reflexivity. Qed.

Lemma count_calls_invoke (p : call -> bool) (c : call) (w : World X) :
  count_calls p (trace (invoke E c w))
  = (count_calls p (trace w) + (if p c then 1 else 0))%nat.
Proof.
  cbn. rewrite count_calls_app, count_calls_one. reflexivity.
Qed.

(** ** Initialisation *)

Ltac branch_on_result :=
  match goal with
  | |- context [nonzero ?r] =>
      let H := fresh "Hret" in
      destruct (nonzero r) eqn:H;
      [ apply nonzero_true in H | apply nonzero_false in H ];
      cbn in H
  end.

(** Resolving the sink only logs. *)
Lemma resolve_sink_trace (st : settings) (w : World X) :
  exists l : list (call * Z),
    trace (snd (resolve_sink E st w)) = trace w ++ l
    /\ lifecycle_trace l = []
    /\ run (snd (resolve_sink E st w)) = run w.
Proof.
  unfold resolve_sink.
  destruct (nonzero _).
  - exists []. cbn. rewrite app_nil_r. auto.
  - destruct (audio_get_first_sink_name E (ext w)); cbn;
      eexists; repeat split; reflexivity.
Qed.

Ltac finish_init Ht Hl :=
  cbn; rewrite ?Ht; eexists; split;
  [ rewrite <- ?app_assoc; cbn; reflexivity
  | cbn; rewrite ?lifecycle_trace_app, ?Hl; cbn;
    repeat match goal with
           | H0 : _ = 0 |- _ => rewrite ?H0; clear H0
           end ].

Ltac failed_at n Ht Hl :=
  match goal with
  | H : ?r <> 0 |- _ =>
      finish_init Ht Hl; right; exists n, r; cbn; repeat split; auto; try lia; try reflexivity
  end.

(** C2.  [engine_init] calls the subsystem [init]s in the order rendering,
    audio, resource loader, localisation, font cache, palette cache,
    console.  Either all return 0, nothing is closed, the result is 0 and
    [run] is 1; or the first [n] return 0, the next returns non-zero, no
    further [init] is called, exactly those [n] subsystems are closed in
    reverse order, the result is 1 and [run] is left as it was. *)
Theorem engine_init_unwinds (st : settings) (w : World X) :
  exists t : list (call * Z),
    trace (snd (engine_init E st w)) = trace w ++ t
    /\ ((fst (engine_init E st w) = 0
         /\ run (snd (engine_init E st w)) = 1
         /\ lifecycle_trace t = map (fun s => Init s 0) init_order)
        \/ (exists (n : nat) (code : Z),
              (n < 7)%nat /\ code <> 0
              /\ lifecycle_trace t
                 = map (fun s => Init s 0) (firstn n init_order)
                   ++ Init (nth n init_order Rendering) code
                   :: map Close (rev (firstn n init_order))
              /\ fst (engine_init E st w) = 1
              /\ run (snd (engine_init E st w)) = run w)).
Proof.
  unfold engine_init, call_int.
  assert (Ht0 : trace w = trace w) by reflexivity.
  assert (Hl0 : lifecycle_trace [] = []) by reflexivity.
  branch_on_result; [failed_at 0%nat Ht0 Hl0|].
  destruct (resolve_sink_trace st (invoke E (video_init (video st)) w))
    as (l & Ht & Hl & Hrun).
  destruct (resolve_sink E st _) as [audiosink w0].
  cbn in Ht, Hrun. cbv beta iota.
  branch_on_result; [failed_at 1%nat Ht Hl|].
  branch_on_result; [failed_at 2%nat Ht Hl|].
  branch_on_result; [failed_at 3%nat Ht Hl|].
  branch_on_result; [failed_at 4%nat Ht Hl|].
  branch_on_result; [failed_at 5%nat Ht Hl|].
  branch_on_result; [failed_at 6%nat Ht Hl|].
  finish_init Ht Hl. left. auto.
Qed.

(** [run] after [engine_init]: 1 when it returns 0, which it does only
    after every [init] has returned 0, and untouched otherwise. *)
Lemma engine_init_run (st : settings) (w : World X) :
  (fst (engine_init E st w) = 0
   /\ run (snd (engine_init E st w)) = 1
   /\ exists t, trace (snd (engine_init E st w)) = trace w ++ t
                /\ lifecycle_trace t = map (fun s => Init s 0) init_order)
  \/ (fst (engine_init E st w) = 1
      /\ run (snd (engine_init E st w)) = run w).
Proof.
  unfold engine_init, call_int.
  branch_on_result; [right; split; reflexivity|].
  destruct (resolve_sink_trace st (invoke E (video_init (video st)) w))
    as (l & Ht & Hl & Hrun).
  destruct (resolve_sink E st _) as [audiosink w0].
  cbn in Ht, Hrun. cbv beta iota.
  do 6 (branch_on_result; [right; split; [reflexivity | exact Hrun]|]).
  left. split; [reflexivity|]. split; [reflexivity|].
  finish_init Ht Hl. reflexivity.
Qed.

Lemma calls_app (t1 t2 : list (call * Z)) :
  calls (t1 ++ t2) = calls t1 ++ calls t2.
Proof. apply map_app. Qed.

(** C6.  When the configured sink is not available (rendering being up and
    the later subsystems initialising): if [audio_get_first_sink_name]
    names an alternative, the substitution is logged, [audio_init] is
    called once, with the alternative, and, that call succeeding, start-up
    succeeds with [run] set; if it names none, this is logged, [audio_init]
    is handed no sink, which disables audio, and start-up succeeds all the
    same. *)
Theorem engine_init_sink_fallback (st : settings) (w : World X) :
  ret E (video_init (video st)) (ext w) = 0 ->
  audio_is_sink_available E (sound_sink st)
    (exec E (video_init (video st)) (ext w)) = 0 ->
  later_inits_succeed E ->
  (forall alt : string,
      audio_get_first_sink_name E (exec E (video_init (video st)) (ext w))
      = Some alt ->
      init_succeeds E (audio_init (Some alt)) ->
      fst (engine_init E st w) = 0
      /\ run (snd (engine_init E st w)) = 1
      /\ calls (trace (snd (engine_init E st w)))
         = calls (trace w)
           ++ video_init (video st)
           :: startup_calls st
                ("Could not find requested sink '"
                   ++ show_sink (sound_sink st)
                   ++ "'. Falling back to '" ++ alt ++ "'.")
                (Some alt))
  /\ (audio_get_first_sink_name E (exec E (video_init (video st)) (ext w))
      = None ->
      audio_init_without_sink E ->
      fst (engine_init E st w) = 0
      /\ run (snd (engine_init E st w)) = 1
      /\ calls (trace (snd (engine_init E st w)))
         = calls (trace w)
           ++ video_init (video st)
           :: startup_calls st
                ("Could not find requested sink '"
                   ++ show_sink (sound_sink st)
                   ++ "'. No other sinks available; disabling audio.")
                None).
Proof.
  intros Hvideo Hsink (Hsnd & Hlang & Hfonts & Hpals & Hcon).
  unfold init_succeeds in *.
  split.
  - intros alt Halt Haudio.
    unfold engine_init, call_int, resolve_sink. cbn.
    rewrite Hvideo, Hsink, nonzero_0, Halt. cbn.
    rewrite Haudio, Hsnd, Hlang, Hfonts, Hpals, Hcon, nonzero_0. cbn.
    repeat split.
    rewrite !calls_app, <- !app_assoc. reflexivity.
  - intros Hnone Haudio. unfold audio_init_without_sink in Haudio.
    unfold engine_init, call_int, resolve_sink. cbn.
    rewrite Hvideo, Hsink, nonzero_0, Hnone. cbn.
    rewrite Haudio, Hsnd, Hlang, Hfonts, Hpals, Hcon, nonzero_0. cbn.
    repeat split.
    rewrite !calls_app, <- !app_assoc. reflexivity.
Qed.

(** ** The drain passes *)

Lemma world_eta (w : World X) :
  w = patch w (ctx w) (ext w) (trace w).
Proof. destruct w; reflexivity. Qed.

Lemma ctx_eta_static (c : EngineContext) :
  c = with_static_wait c (static_wait c).
Proof. destruct c; reflexivity. Qed.

Lemma ctx_eta_dynamic (c : EngineContext) :
  c = with_dynamic_wait c (dynamic_wait c).
Proof. destruct c; reflexivity. Qed.

Lemma engine_loop_static_mono (fuel fuel' : nat) (w w' : World X) :
  (fuel <= fuel')%nat ->
  engine_loop_static E fuel w = Some w' ->
  engine_loop_static E fuel' w = Some w'.
Proof.
  revert fuel' w. induction fuel as [|fuel IH]; intros fuel' w Hle.
  - destruct fuel'; cbn; destruct (10 <? static_wait (ctx w));
      congruence.
  - destruct fuel' as [|fuel']; [lia|]. cbn.
    destruct (10 <? static_wait (ctx w)); [|congruence].
    apply IH. lia.
Qed.

Lemma engine_loop_dynamic_mono (fuel fuel' : nat) (w w' : World X) :
  (fuel <= fuel')%nat ->
  engine_loop_dynamic E fuel w = Some w' ->
  engine_loop_dynamic E fuel' w = Some w'.
Proof.
  revert fuel' w. induction fuel as [|fuel IH]; intros fuel' w Hle.
  - destruct fuel'; cbn;
      destruct (game_state_ms_per_dyntick E (ext w) <? dynamic_wait (ctx w));
      congruence.
  - destruct fuel' as [|fuel']; [lia|]. cbn.
    destruct (game_state_ms_per_dyntick E (ext w) <? dynamic_wait (ctx w));
      [|congruence].
    apply IH. lia.
Qed.

(** What the static drain leaves, however long it ran. *)
Lemma engine_loop_static_result (fuel : nat) (w w' : World X) :
  static_wait (ctx w) < 2 ^ 31 ->
  engine_loop_static E fuel w = Some w' ->
  exists (n : nat) (x : X) (t : list (call * Z)),
    w' = patch w (with_static_wait (ctx w)
                    (static_wait (ctx w) - 10 * Z.of_nat n))
           x (trace w ++ t)
    /\ static_wait (ctx w) - 10 * Z.of_nat n <= 10
    /\ (n = 0%nat \/ 0 < static_wait (ctx w) - 10 * Z.of_nat n)
    /\ Forall (fun en => is_static_call (fst en) = true) t
    /\ count_calls is_static_tick t = n
    /\ count_calls is_console_tick t = n
    /\ count_calls is_video_tick t = n.
Proof.
  revert w w'. induction fuel as [|fuel IH]; intros w w' Hlt; cbn;
    destruct (Z.ltb_spec 10 (static_wait (ctx w))) as [Hgt|Hle];
    try discriminate.
  1, 3: intros [= <-]; exists 0%nat, (ext w), [];
    rewrite app_nil_r, Z.sub_0_r, <- ctx_eta_static, <- world_eta;
    repeat split; auto; lia.
  intros Hrun. apply IH in Hrun; cbn in Hrun |- *.
  2: { rewrite int_of_id; unfold int_range; lia. }
  rewrite int_of_id in Hrun by (unfold int_range; lia).
  destruct Hrun as (n & x & t & -> & Hle & Hpos & Hall & Hs & Hc & Hv).
  exists (S n), x.
  eexists. split; [|split; [|split; [|split]]].
  - unfold patch, with_static_wait. cbn. rewrite <- !app_assoc.
    do 2 f_equal. lia.
  - lia.
  - right. destruct Hpos as [-> | Hpos]; lia.
  - cbn. repeat (constructor; [reflexivity|]). exact Hall.
  - cbn. unfold count_calls in *. cbn. rewrite Hs, Hc, Hv. auto.
Qed.

Lemma engine_loop_static_total (fuel : nat) (w : World X) :
  static_wait (ctx w) < 2 ^ 31 ->
  static_wait (ctx w) <= 10 + 10 * Z.of_nat fuel ->
  exists w' : World X, engine_loop_static E fuel w = Some w'.
Proof.
  revert w. induction fuel as [|fuel IH]; intros w Hlt Hfuel; cbn;
    destruct (Z.ltb_spec 10 (static_wait (ctx w))) as [Hgt|Hle];
    try (eexists; reflexivity); [lia|].
  apply IH; cbn; rewrite int_of_id; unfold int_range; lia.
Qed.

(** The turns of [while (a > p) a -= p] from what it leaves. *)
Lemma drain_turns (a p : Z) (n : nat) :
  1 <= p ->
  a - p * Z.of_nat n <= p ->
  n = 0%nat \/ 0 < a - p * Z.of_nat n ->
  Z.of_nat n = whole_periods a p.
Proof.
  intros Hp Hle Hpos. unfold whole_periods.
  destruct Hpos as [-> | Hpos].
  - assert ((a - 1) / p < 1) by (apply Z.div_lt_upper_bound; lia). lia.
  - assert (Hdiv : (a - 1) / p = Z.of_nat n).
    { symmetry. apply (Z.div_unique_pos _ _ _ (a - p * Z.of_nat n - 1)); lia. }
    lia.
Qed.

Lemma count_calls_none (p q : call -> bool) (t : list (call * Z)) :
  (forall c, q c = true -> p c = false) ->
  Forall (fun en => q (fst en) = true) t ->
  count_calls p t = 0%nat.
Proof.
  intros Hpq Hall. unfold count_calls.
  induction Hall as [|en t Hen _ IH]; cbn; [reflexivity|].
  rewrite (Hpq _ Hen). exact IH.
Qed.

(** What the dynamic drain leaves, whatever the periods reported. *)
Lemma engine_loop_dynamic_result (fuel : nat) (w w' : World X) :
  engine_loop_dynamic E fuel w = Some w' ->
  exists (v : Z) (x : X) (t : list (call * Z)),
    w' = patch w (with_dynamic_wait (ctx w) v) x (trace w ++ t)
    /\ v <= game_state_ms_per_dyntick E x
    /\ Forall (fun en => is_dynamic_tick (fst en) = true) t.
Proof.
  revert w w'. induction fuel as [|fuel IH]; intros w w'; cbn;
    destruct (Z.ltb_spec (game_state_ms_per_dyntick E (ext w))
                (dynamic_wait (ctx w))) as [Hgt|Hle];
    try discriminate.
  1, 3: intros [= <-]; exists (dynamic_wait (ctx w)), (ext w), [];
    rewrite app_nil_r, <- ctx_eta_dynamic, <- world_eta; auto.
  intros Hrun. apply IH in Hrun; cbn in Hrun.
  destruct Hrun as (v & x & t & -> & Hle & Hall).
  exists v, x. eexists. split; [|split; [exact Hle|]].
  - unfold patch, with_dynamic_wait. cbn. rewrite <- app_assoc. reflexivity.
  - constructor; [reflexivity | exact Hall].
Qed.

(** The same under a period that never changes. *)
Lemma engine_loop_dynamic_steady (p : Z) (fuel : nat) (w w' : World X) :
  (forall x, game_state_ms_per_dyntick E x = p) ->
  1 <= p ->
  dynamic_wait (ctx w) < 2 ^ 31 ->
  engine_loop_dynamic E fuel w = Some w' ->
  exists n : nat,
    dynamic_wait (ctx w') = dynamic_wait (ctx w) - p * Z.of_nat n
    /\ (n = 0%nat \/ 0 < dynamic_wait (ctx w'))
    /\ count_calls is_dynamic_tick (trace w')
       = (count_calls is_dynamic_tick (trace w) + n)%nat.
Proof.
  intros Hp Hp1. revert w w'.
  induction fuel as [|fuel IH]; intros w w' Hlt; cbn; rewrite !Hp;
    destruct (Z.ltb_spec p (dynamic_wait (ctx w))) as [Hgt|Hle];
    try discriminate.
  1, 3: intros [= <-]; exists 0%nat; repeat split; auto; lia.
  intros Hrun. apply IH in Hrun; cbn in Hrun |- *.
  2: { rewrite int_of_id; unfold int_range; lia. }
  rewrite int_of_id in Hrun by (unfold int_range; lia).
  destruct Hrun as (n & Hv & Hpos & Hcount).
  exists (S n). split; [lia|]. split; [right|].
  - destruct Hpos as [-> | Hpos]; lia.
  - rewrite Hcount, count_calls_app, count_calls_one. cbn. lia.
Qed.

Lemma engine_loop_dynamic_total (fuel : nat) (w : World X) :
  (forall x, 1 <= game_state_ms_per_dyntick E x < 2 ^ 31) ->
  dynamic_wait (ctx w) < 2 ^ 31 ->
  dynamic_wait (ctx w) <= 1 + Z.of_nat fuel ->
  exists w' : World X, engine_loop_dynamic E fuel w = Some w'.
Proof.
  intros Hp. revert w. induction fuel as [|fuel IH]; intros w Hlt Hfuel; cbn;
    destruct (Z.ltb_spec (game_state_ms_per_dyntick E (ext w))
                (dynamic_wait (ctx w))) as [Hgt|Hle];
    try (eexists; reflexivity).
  - pose proof (Hp (ext w)). lia.
  - pose proof (Hp (ext w)).
    pose proof (Hp (exec E game_state_dynamic_tick (ext w))).
    apply IH; cbn; rewrite int_of_id; unfold int_range; lia.
Qed.

(** The two passes together: they end when the period reported is always
    a positive [int]; what they leave and how often they tick. *)
Lemma engine_loop_drain_spec (w : World X) :
  static_wait (ctx w) < 2 ^ 31 ->
  dynamic_wait (ctx w) < 2 ^ 31 ->
  (forall x, 1 <= game_state_ms_per_dyntick E x < 2 ^ 31) ->
  exists w' : World X,
    (forall fuel : nat,
        (Z.to_nat (Z.max (static_wait (ctx w)) (dynamic_wait (ctx w)))
         <= fuel)%nat ->
        engine_loop_drain E fuel w = Some w')
    /\ static_wait (ctx w') <= 10
    /\ dynamic_wait (ctx w') <= game_state_ms_per_dyntick E (ext w')
    /\ static_wait (ctx w')
       = static_wait (ctx w) - 10 * whole_periods (static_wait (ctx w)) 10
    /\ Z.of_nat (count_calls is_static_tick (trace w'))
       = Z.of_nat (count_calls is_static_tick (trace w))
         + whole_periods (static_wait (ctx w)) 10
    /\ Z.of_nat (count_calls is_console_tick (trace w'))
       = Z.of_nat (count_calls is_console_tick (trace w))
         + whole_periods (static_wait (ctx w)) 10
    /\ Z.of_nat (count_calls is_video_tick (trace w'))
       = Z.of_nat (count_calls is_video_tick (trace w))
         + whole_periods (static_wait (ctx w)) 10
    /\ (forall p : Z,
           (forall x, game_state_ms_per_dyntick E x = p) ->
           dynamic_wait (ctx w')
           = dynamic_wait (ctx w) - p * whole_periods (dynamic_wait (ctx w)) p
           /\ Z.of_nat (count_calls is_dynamic_tick (trace w'))
              = Z.of_nat (count_calls is_dynamic_tick (trace w))
                + whole_periods (dynamic_wait (ctx w)) p).
Proof.
  intros Hs Hd Hp.
  set (fuel0 := Z.to_nat (Z.max (static_wait (ctx w)) (dynamic_wait (ctx w)))).
  destruct (engine_loop_static_total fuel0 w Hs ltac:(lia)) as [w1 H1].
  destruct (engine_loop_static_result _ _ _ Hs H1)
    as (n & x1 & t1 & Hw1 & Hle1 & Hpos1 & Hall1 & Hc1 & Hc2 & Hc3).
  assert (Hd1 : dynamic_wait (ctx w1) = dynamic_wait (ctx w))
    by (rewrite Hw1; reflexivity).
  destruct (engine_loop_dynamic_total fuel0 w1 Hp ltac:(lia) ltac:(lia))
    as [w2 H2].
  destruct (engine_loop_dynamic_result _ _ _ H2)
    as (v & x2 & t2 & Hw2 & Hle2 & Hall2).
  pose proof (drain_turns _ 10 n ltac:(lia) Hle1 Hpos1) as Hn.
  assert (Hnone : forall q, (forall c, is_dynamic_tick c = true -> q c = false) ->
                            count_calls q t2 = 0%nat)
    by (intros q Hq; apply (count_calls_none q is_dynamic_tick); auto).
  exists w2. split; [|split; [|split; [|split; [|split; [|split; [|split]]]]]].
  - intros fuel Hfuel. unfold engine_loop_drain.
    rewrite (engine_loop_static_mono _ _ _ _ Hfuel H1).
    apply (engine_loop_dynamic_mono _ _ _ _ Hfuel H2).
  - rewrite Hw2, Hw1. cbn. exact Hle1.
  - rewrite Hw2. cbn. exact Hle2.
  - rewrite Hw2, Hw1. cbn. lia.
  - rewrite Hw2, Hw1. cbn. rewrite !count_calls_app, Hc1, Hnone; [lia|].
    intros c; destruct c; cbn; congruence.
  - rewrite Hw2, Hw1. cbn. rewrite !count_calls_app, Hc2, Hnone; [lia|].
    intros c; destruct c; cbn; congruence.
  - rewrite Hw2, Hw1. cbn. rewrite !count_calls_app, Hc3, Hnone; [lia|].
    intros c; destruct c; cbn; congruence.
  - intros p Hconst.
    assert (Hp1 : 1 <= p) by (rewrite <- (Hconst (ext w)); apply Hp).
    destruct (engine_loop_dynamic_steady p fuel0 w1 w2 Hconst Hp1 ltac:(lia) H2)
      as (m & Hv & Hpos & Hcount).
    assert (Hm : Z.of_nat m = whole_periods (dynamic_wait (ctx w)) p).
    { apply drain_turns; [exact Hp1| |].
      - rewrite <- Hd1, <- Hv, Hw2. cbn. rewrite <- (Hconst x2). exact Hle2.
      - rewrite <- Hd1, <- Hv. exact Hpos. }
    split; [rewrite Hv, Hd1; lia|].
    rewrite Hcount, Hw1. cbn. rewrite count_calls_app.
    rewrite (count_calls_none is_dynamic_tick is_static_call t1); [lia| |exact Hall1].
    intros c; destruct c; cbn; congruence.
Qed.

(** ** The event loop *)

Lemma extends_by_refl (k : call -> bool) (t : list (call * Z)) :
  extends_by k t t.
Proof. exists []. rewrite app_nil_r. auto. Qed.

Lemma extends_by_trans (k : call -> bool) (t0 t1 t2 : list (call * Z)) :
  extends_by k t0 t1 -> extends_by k t1 t2 -> extends_by k t0 t2.
Proof.
  intros (a & -> & Ha) (b & -> & Hb). exists (a ++ b).
  rewrite app_assoc. split; [reflexivity|]. apply Forall_app; auto.
Qed.

Lemma extends_by_invoke (k : call -> bool) (c : call) (w : World X) :
  k c = true -> extends_by k (trace w) (trace (invoke E c w)).
Proof.
  intros Hk. eexists. split; [reflexivity|]. constructor; auto.
Qed.

Lemma extends_by_count (k p : call -> bool) (t0 t1 : list (call * Z)) :
  (forall c, k c = true -> p c = false) ->
  extends_by k t0 t1 ->
  count_calls p t1 = count_calls p t0.
Proof.
  intros Hkp (t & -> & Hall).
  rewrite count_calls_app, (count_calls_none p k t Hkp Hall). lia.
Qed.

Lemma events_frame_refl (w : World X) : events_frame w w.
Proof.
  unfold events_frame. repeat split; auto. apply extends_by_refl.
Qed.

Lemma events_frame_trans (w0 w1 w2 : World X) :
  events_frame w0 w1 -> events_frame w1 w2 -> events_frame w0 w2.
Proof.
  unfold events_frame.
  intros (A1 & A2 & A3 & A4 & A5 & A6 & A7 & A8 & A9 & A10 & A11)
         (B1 & B2 & B3 & B4 & B5 & B6 & B7 & B8 & B9 & B10 & B11).
  repeat split; try congruence.
  - destruct B9 as [B9|B9]; [rewrite B9; exact A9 | auto].
  - destruct B10 as [B10|B10]; [rewrite B10; exact A10 | auto].
  - eapply extends_by_trans; eauto.
Qed.

Ltac split_ifs :=
  repeat match goal with
         | |- context [if ?c then _ else _] => destruct c eqn:?
         end.

Ltac frame_facts :=
  unfold events_frame; cbn; repeat split; auto;
  try (apply extends_by_refl);
  try (eexists; split;
       [ rewrite <- ?app_assoc; reflexivity
       | repeat constructor ]).

Lemma window_switch_frame (w : World X) :
  events_frame w (window_switch E w).
Proof. unfold window_switch. split_ifs; frame_facts. Qed.

Lemma keydown_switch_frame (w : World X) :
  events_frame w (keydown_switch w).
Proof. unfold keydown_switch. split_ifs; frame_facts. Qed.

Lemma event_switch_frame (w : World X) :
  events_frame w (event_switch E w).
Proof.
  unfold event_switch. split_ifs.
  - frame_facts.
  - apply keydown_switch_frame.
  - frame_facts.
  - apply window_switch_frame.
  - apply events_frame_refl.
Qed.

Lemma event_dispatch_frame (w : World X) :
  events_frame w (event_dispatch E w).
Proof. unfold event_dispatch. split_ifs; frame_facts. Qed.

Lemma handle_event_frame (w : World X) :
  events_frame w (handle_event E w).
Proof.
  unfold handle_event.
  eapply events_frame_trans;
    [apply event_switch_frame | apply event_dispatch_frame].
Qed.

Lemma poll_events_frame (q : list (option SDL_Event)) (w : World X) :
  events_frame w (poll_events E q w).
Proof.
  revert w. induction q as [|[ev|] q IH]; intros w; cbn.
  - frame_facts.
  - eapply events_frame_trans; [|apply IH].
    eapply events_frame_trans; [|apply handle_event_frame].
    frame_facts.
  - frame_facts.
Qed.

Lemma poll_events_queue (q : list (option SDL_Event)) (w : World X) :
  sdl_queue (poll_events E q w) = after_poll q.
Proof.
  revert w. induction q as [|[ev|] q IH]; intros w; cbn; auto.
Qed.

Lemma after_poll_no_mouse_motion (q : list (option SDL_Event)) :
  no_mouse_motion q = true -> no_mouse_motion (after_poll q) = true.
Proof.
  unfold no_mouse_motion.
  induction q as [|[ev|] q IH]; cbn; auto.
  - intros H. apply andb_true_iff in H. tauto.
Qed.

(** ** The mouse countdown, lines 216-222 *)

Lemma engine_loop_mouse_spec (w : World X) :
  let m := mouse_visible_ticks (ctx w) in
  let m' := if 0 <? m then int_of (m - ticks_since_frame w) else m in
  same_globals w (engine_loop_mouse E w)
  /\ ctx (engine_loop_mouse E w) = with_mouse (ctx w) m'
  /\ trace (engine_loop_mouse E w)
     = trace w
       ++ (if (0 <? m) && (m' <=? 0)
           then [(SDL_ShowCursor 0, ret E (SDL_ShowCursor 0) (ext w))]
           else []).
Proof.
  unfold engine_loop_mouse, SDL_GetTicks, ticks_since_frame, next_ticks,
    same_globals.
  destruct (0 <? mouse_visible_ticks (ctx w)) eqn:Hm; cbn.
  - destruct (sdl_clock w) as [|t l]; cbn;
      match goal with
      | |- context [int_of ?a <=? 0] => destruct (int_of a <=? 0) eqn:Hle
      end; cbn; rewrite ?Hle, ?app_nil_r; cbn; repeat split; auto.
  - rewrite app_nil_r. destruct (ctx w); repeat split; auto.
Qed.

(** ** The accumulation step, lines 228-237 *)

Lemma engine_loop_wait_spec (w : World X) :
  same_globals w (engine_loop_wait w)
  /\ trace (engine_loop_wait w) = trace w
  /\ ext (engine_loop_wait w) = ext w
  /\ e (ctx (engine_loop_wait w)) = e (ctx w)
  /\ visual_debugger (ctx (engine_loop_wait w)) = visual_debugger (ctx w)
  /\ debugger_render (ctx (engine_loop_wait w)) = debugger_render (ctx w)
  /\ mouse_visible_ticks (ctx (engine_loop_wait w))
     = mouse_visible_ticks (ctx w)
  /\ static_wait (ctx (engine_loop_wait w))
     = (if visual_debugger (ctx w) =? 0
        then int_of (static_wait (ctx w) + elapsed w)
        else if nonzero (debugger_proceed (ctx w))
             then int_of (static_wait (ctx w) + 20)
             else static_wait (ctx w))
  /\ dynamic_wait (ctx (engine_loop_wait w))
     = (if visual_debugger (ctx w) =? 0
        then int_of (dynamic_wait (ctx w) + elapsed w)
        else if nonzero (debugger_proceed (ctx w))
             then int_of (dynamic_wait (ctx w) + 20)
             else dynamic_wait (ctx w))
  /\ debugger_proceed (ctx (engine_loop_wait w))
     = (if visual_debugger (ctx w) =? 0
        then debugger_proceed (ctx w)
        else 0).
Proof.
  unfold engine_loop_wait, SDL_GetTicks, elapsed, ticks_since_frame,
    next_ticks, same_globals.
  destruct (sdl_clock w) as [|t [|t' l]] eqn:Hc; cbn; rewrite ?Hc; cbn;
    destruct (visual_debugger (ctx w) =? 0) eqn:Hv; cbn;
    try (repeat split; reflexivity);
    destruct (nonzero (debugger_proceed (ctx w))) eqn:Hp; cbn;
    repeat split; auto;
    try (apply nonzero_false in Hp; auto).
Qed.

(** ** The drain passes as a whole *)

Lemma engine_loop_static_shape (fuel : nat) (w w' : World X) :
  engine_loop_static E fuel w = Some w' ->
  exists (v : Z) (x : X) (t : list (call * Z)),
    w' = patch w (with_static_wait (ctx w) v) x (trace w ++ t)
    /\ v <= 10
    /\ Forall (fun en => is_static_call (fst en) = true) t.
Proof.
  revert w w'. induction fuel as [|fuel IH]; intros w w'; cbn;
    destruct (Z.ltb_spec 10 (static_wait (ctx w))) as [Hgt|Hle];
    try discriminate.
  1, 3: intros [= <-]; exists (static_wait (ctx w)), (ext w), [];
    rewrite app_nil_r, <- ctx_eta_static, <- world_eta; auto.
  intros Hrun. apply IH in Hrun; cbn in Hrun.
  destruct Hrun as (v & x & t & -> & Hle & Hall).
  exists v, x. eexists. split; [|split; [exact Hle|]].
  - unfold patch, with_static_wait. cbn. rewrite <- !app_assoc. reflexivity.
  - repeat (constructor; [reflexivity|]). exact Hall.
Qed.

Lemma engine_loop_drain_shape (fuel : nat) (w w' : World X) :
  engine_loop_drain E fuel w = Some w' ->
  exists (s d : Z) (x : X) (t : list (call * Z)),
    w' = patch w (with_waits (ctx w) s d) x (trace w ++ t)
    /\ s <= 10
    /\ d <= game_state_ms_per_dyntick E x
    /\ Forall (fun en => tick_call (fst en) = true) t.
Proof.
  unfold engine_loop_drain.
  destruct (engine_loop_static E fuel w) as [w1|] eqn:H1; [|discriminate].
  intros H2.
  apply engine_loop_static_shape in H1.
  destruct H1 as (s & x1 & t1 & -> & Hs & Hall1).
  apply engine_loop_dynamic_result in H2. cbn in H2.
  destruct H2 as (d & x2 & t2 & -> & Hd & Hall2).
  exists s, d, x2, (t1 ++ t2). repeat split; auto.
  - unfold patch. cbn. rewrite app_assoc. reflexivity.
  - apply Forall_app. split.
    + eapply Forall_impl; [|exact Hall1].
      intros en H. unfold tick_call. rewrite H. reflexivity.
    + eapply Forall_impl; [|exact Hall2].
      intros en H. unfold tick_call. rewrite H. apply orb_true_r.
Qed.

(** The dynamic accumulator stays an [int] through the drain passes. *)
Lemma engine_loop_dynamic_range (fuel : nat) (w w' : World X) :
  engine_loop_dynamic E fuel w = Some w' ->
  int_range (dynamic_wait (ctx w)) ->
  int_range (dynamic_wait (ctx w')).
Proof.
  revert w w'. induction fuel as [|fuel IH]; intros w w'; cbn;
    destruct (game_state_ms_per_dyntick E (ext w) <? dynamic_wait (ctx w));
    try discriminate; try (intros [= <-]; auto).
  intros Hrun _. apply (IH _ _ Hrun). cbn. apply int_of_range.
Qed.

Lemma engine_loop_drain_range (fuel : nat) (w w' : World X) :
  engine_loop_drain E fuel w = Some w' ->
  int_range (dynamic_wait (ctx w)) ->
  int_range (dynamic_wait (ctx w')).
Proof.
  unfold engine_loop_drain.
  destruct (engine_loop_static E fuel w) as [w1|] eqn:H1; [|discriminate].
  intros H2 Hr. apply (engine_loop_dynamic_range _ _ _ H2).
  apply engine_loop_static_shape in H1.
  destruct H1 as (v & x & t & -> & _). exact Hr.
Qed.

(** ** The output phase, lines 259-301 *)

Lemma engine_loop_screenshot_frame (w : World X) :
  run (engine_loop_screenshot E w) = run w
  /\ start_timeout (engine_loop_screenshot E w) = start_timeout w
  /\ enable_screen_updates (engine_loop_screenshot E w)
     = enable_screen_updates w
  /\ sdl_queue (engine_loop_screenshot E w) = sdl_queue w
  /\ main_loop_cancelled (engine_loop_screenshot E w)
     = main_loop_cancelled w
  /\ ctx (engine_loop_screenshot E w) = ctx w
  /\ take_screenshot (engine_loop_screenshot E w) = 0
  /\ extends_by render_call (trace w) (trace (engine_loop_screenshot E w))
  /\ count_calls is_screenshot (trace (engine_loop_screenshot E w))
     = S (count_calls is_screenshot (trace w)).
Proof.
  unfold engine_loop_screenshot, call_int, SDL_GetTicks.
  destruct (nonzero (ret E video_screenshot (ext w))); cbn.
  - repeat split; auto.
    + eexists; split; [rewrite <- ?app_assoc; reflexivity|repeat constructor].
    + rewrite !count_calls_app, !count_calls_one. cbn. lia.
  - destruct (nonzero (image_supports_png E _));
      destruct (sdl_clock w) as [|t l]; cbn;
      match goal with
      | |- context [nonzero ?r] => destruct (nonzero r)
      end; cbn; repeat split; auto;
      try (eexists; split;
           [rewrite <- ?app_assoc; reflexivity|repeat constructor]);
      rewrite !count_calls_app, !count_calls_one; cbn; lia.
Qed.

Lemma engine_loop_render_spec (w : World X) :
  let serviced :=
    nonzero (enable_screen_updates w) && nonzero (take_screenshot w) in
  run (engine_loop_render E w) = run w
  /\ start_timeout (engine_loop_render E w) = start_timeout w
  /\ enable_screen_updates (engine_loop_render E w) = enable_screen_updates w
  /\ sdl_queue (engine_loop_render E w) = sdl_queue w
  /\ main_loop_cancelled (engine_loop_render E w) = main_loop_cancelled w
  /\ ctx (engine_loop_render E w) = ctx w
  /\ take_screenshot (engine_loop_render E w)
     = (if serviced then 0 else take_screenshot w)
  /\ extends_by render_call (trace w) (trace (engine_loop_render E w))
  /\ count_calls is_screenshot (trace (engine_loop_render E w))
     = (count_calls is_screenshot (trace w) + if serviced then 1 else 0)%nat.
Proof.
  unfold engine_loop_render.
  destruct (nonzero (enable_screen_updates w)) eqn:Hen;
    destruct (visual_debugger (ctx w) =? 0) eqn:Hvd; cbn;
    rewrite ?Hen; cbn.
  3, 4: repeat split; auto;
    try (eexists; split;
         [rewrite <- ?app_assoc; reflexivity|repeat constructor]);
    rewrite ?count_calls_app, ?count_calls_one; cbn; lia.
  all: destruct (nonzero (debugger_render (ctx w))) eqn:Hdr; cbn;
    destruct (nonzero (take_screenshot w)) eqn:Hts; cbn.
  all: try (repeat split; auto;
    try (eexists; split;
         [rewrite <- ?app_assoc; reflexivity|repeat constructor]);
    rewrite ?count_calls_app, ?count_calls_one; cbn; lia).
  all: match goal with
       | |- context [engine_loop_screenshot E ?w1] =>
           destruct (engine_loop_screenshot_frame w1)
             as (A1 & A2 & A3 & A4 & A5 & A6 & A7 & A8 & A9);
           rewrite ?A1, ?A2, ?A3, ?A4, ?A5, ?A6, ?A7, ?A9; cbn;
           repeat split; auto;
           [ eapply extends_by_trans; [|exact A8]; cbn;
             eexists; split;
             [rewrite <- ?app_assoc; reflexivity|repeat constructor]
           | rewrite ?count_calls_app, ?count_calls_one; cbn; lia ]
       end.
Qed.

(** ** Single events *)

Lemma keydown_switch_same (w : World X) :
  e (ctx (keydown_switch w)) = e (ctx w)
  /\ mouse_visible_ticks (ctx (keydown_switch w)) = mouse_visible_ticks (ctx w)
  /\ ext (keydown_switch w) = ext w
  /\ trace (keydown_switch w) = trace w.
Proof. unfold keydown_switch. split_ifs; cbn; auto. Qed.

Lemma window_switch_same (w : World X) :
  e (ctx (window_switch E w)) = e (ctx w)
  /\ mouse_visible_ticks (ctx (window_switch E w))
     = mouse_visible_ticks (ctx w)
  /\ extends_by switch_call (trace w) (trace (window_switch E w)).
Proof.
  unfold window_switch. split_ifs; cbn; repeat split; auto;
    try apply extends_by_refl;
    (eexists; split; [rewrite <- ?app_assoc; reflexivity|repeat constructor]).
Qed.

Lemma event_switch_same (w : World X) :
  e (ctx (event_switch E w)) = e (ctx w)
  /\ (ev_type (e (ctx w)) <> SDL_MOUSEMOTION ->
      mouse_visible_ticks (ctx (event_switch E w))
      = mouse_visible_ticks (ctx w))
  /\ extends_by switch_call (trace w) (trace (event_switch E w)).
Proof.
  unfold event_switch.
  destruct (ev_type (e (ctx w)) =? SDL_QUIT) eqn:Hq;
    [cbn; repeat split; auto; apply extends_by_refl|].
  destruct (ev_type (e (ctx w)) =? SDL_KEYDOWN) eqn:Hk.
  { destruct (keydown_switch_same w) as (A & B & C & D).
    rewrite A, B, D. repeat split; auto. apply extends_by_refl. }
  destruct (Z.eqb_spec (ev_type (e (ctx w))) SDL_MOUSEMOTION) as [Hm|Hm].
  { cbn. repeat split; [tauto|].
    eexists; split; [reflexivity|repeat constructor]. }
  destruct (ev_type (e (ctx w)) =? SDL_WINDOWEVENT) eqn:Hw.
  { destruct (window_switch_same w) as (A & B & C).
    rewrite A, B. repeat split; auto. }
  repeat split; auto. apply extends_by_refl.
Qed.

Lemma event_dispatch_same (w : World X) :
  ctx (event_dispatch E w) = ctx w /\ run (event_dispatch E w) = run w.
Proof. unfold event_dispatch. split_ifs; cbn; auto. Qed.

(** What one turn of the event loop does with the event in [ctx->e]: the
    single call it ends with. *)
Lemma handle_event_last_call (w : World X) :
  let ev := e (ctx w) in
  let w1 := event_switch E w in
  let is_open := nonzero (console_window_is_open E (ext w1)) in
  trace (handle_event E w)
  = trace w1
    ++ [(if console_toggle is_open ev
         then if is_open && console_close_key ev
              then console_window_close
              else console_window_open
         else if is_open then console_event ev
              else game_state_handle_event ev,
         ret E (if console_toggle is_open ev
                then if is_open && console_close_key ev
                     then console_window_close
                     else console_window_open
                else if is_open then console_event ev
                     else game_state_handle_event ev) (ext w1))].
Proof.
  cbv zeta. unfold handle_event, event_dispatch, console_toggle.
  destruct (event_switch_same w) as (He & _ & _). rewrite He.
  destruct (ev_type (e (ctx w)) =? SDL_KEYDOWN);
    destruct (nonzero (console_window_is_open E (ext (event_switch E w))));
    destruct (console_close_key (e (ctx w)));
    destruct (console_open_key (e (ctx w))); reflexivity.
Qed.

Lemma switch_call_not_dispatch (c : call) :
  switch_call c = true ->
  is_console_event c = false /\ is_game_event c = false.
Proof. destruct c; cbn; auto; discriminate. Qed.

Lemma event_call_not_hide (c : call) :
  event_call c = true -> is_hide_cursor c = false.
Proof.
  destruct c; cbn; auto; try discriminate.
  intros H. apply Z.eqb_eq in H. subst. reflexivity.
Qed.

Lemma event_call_not_tick (c : call) :
  event_call c = true -> tick_call c = false.
Proof. destruct c; cbn; auto; discriminate. Qed.

Lemma event_call_not_screenshot (c : call) :
  event_call c = true -> is_screenshot c = false.
Proof. destruct c; cbn; auto; discriminate. Qed.

Lemma tick_call_not_hide (c : call) :
  tick_call c = true -> is_hide_cursor c = false.
Proof. destruct c; cbn; auto; discriminate. Qed.

Lemma tick_call_not_hide_conv (c : call) :
  is_hide_cursor c = true -> tick_call c = false.
Proof. destruct c; cbn; auto; discriminate. Qed.

Lemma tick_call_not_screenshot (c : call) :
  tick_call c = true -> is_screenshot c = false.
Proof. destruct c; cbn; auto; discriminate. Qed.

Lemma render_call_not_hide (c : call) :
  render_call c = true -> is_hide_cursor c = false.
Proof. destruct c; cbn; auto; discriminate. Qed.

Lemma render_call_not_tick (c : call) :
  render_call c = true -> tick_call c = false.
Proof. destruct c; cbn; auto; discriminate. Qed.

(** C5 (amended).  In one turn of the event loop the event is never handed
    to both handlers.  A key-down that toggles the console (grave,
    backquote or tab; also escape while the console is open) is consumed
    by opening or closing it and reaches neither handler.  Every other
    event reaches exactly one: the console when the console is open once
    the [switch] has handled the event, the game state otherwise. *)
Theorem event_routing (w : World X) :
  let ev := e (ctx w) in
  let is_open :=
    nonzero (console_window_is_open E (ext (event_switch E w))) in
  let toggle := console_toggle is_open ev in
  count_calls is_console_event (trace (handle_event E w))
  = (count_calls is_console_event (trace w)
     + if negb toggle && is_open then 1 else 0)%nat
  /\ count_calls is_game_event (trace (handle_event E w))
     = (count_calls is_game_event (trace w)
        + if negb toggle && negb is_open then 1 else 0)%nat
  /\ calls (trace (handle_event E w))
     = calls (trace (event_switch E w))
       ++ [if toggle
           then if is_open && console_close_key ev
                then console_window_close
                else console_window_open
           else if is_open then console_event ev
                else game_state_handle_event ev].
Proof.
  cbv zeta. rewrite handle_event_last_call.
  destruct (event_switch_same w) as (_ & _ & Hext).
  rewrite !count_calls_app, !count_calls_one, calls_app.
  rewrite (extends_by_count switch_call is_console_event _ _
             (fun c H => proj1 (switch_call_not_dispatch c H)) Hext).
  rewrite (extends_by_count switch_call is_game_event _ _
             (fun c H => proj2 (switch_call_not_dispatch c H)) Hext).
  destruct (console_toggle _ (e (ctx w)));
    destruct (nonzero (console_window_is_open E _));
    destruct (console_close_key (e (ctx w)));
    cbn; repeat split; auto.
Qed.

(** ** The event loop, continued *)

Lemma poll_events_mouse (q : list (option SDL_Event)) (w : World X) :
  no_mouse_motion q = true ->
  mouse_visible_ticks (ctx (poll_events E q w)) = mouse_visible_ticks (ctx w).
Proof.
  unfold no_mouse_motion.
  revert w. induction q as [|[ev|] q IH]; intros w Hq; cbn in *; auto.
  apply andb_true_iff in Hq. destruct Hq as [Hev Hq].
  rewrite (IH _ Hq). unfold handle_event.
  destruct (event_dispatch_same (event_switch E (set_e ev (set_sdl_queue q w))))
    as [-> _].
  destruct (event_switch_same (set_e ev (set_sdl_queue q w))) as (_ & -> & _);
    cbn; auto.
  apply negb_true_iff, Z.eqb_neq in Hev. exact Hev.
Qed.

Lemma poll_events_keeps_stopped (q : list (option SDL_Event)) (w : World X) :
  run w = 0 -> run (poll_events E q w) = 0.
Proof.
  intros Hrun.
  destruct (poll_events_frame q w)
    as (_ & _ & _ & _ & _ & _ & _ & _ & [H|H] & _); congruence.
Qed.

Lemma poll_events_quit (q : list (option SDL_Event)) (w : World X) :
  quit_pending q = true -> run (poll_events E q w) = 0.
Proof.
  unfold quit_pending.
  revert w. induction q as [|[ev|] q IH]; intros w Hq; cbn in *;
    try discriminate.
  apply orb_true_iff in Hq. destruct Hq as [Hev|Hq]; [|apply IH; exact Hq].
  apply poll_events_keeps_stopped. unfold handle_event.
  destruct (event_dispatch_same (event_switch E (set_e ev (set_sdl_queue q w))))
    as [_ ->].
  unfold event_switch. cbn. rewrite Hev. reflexivity.
Qed.

(** ** One frame *)

Lemma engine_loop_skipped (fuel : nat) (w : World X) :
  loop_guard E w = true ->
  engine_loop E fuel w
  = Some (set_main_loop_cancelled true (invoke E emscripten_cancel_main_loop w)).
Proof. intros H. unfold engine_loop. rewrite H. reflexivity. Qed.

Lemma engine_loop_ran (fuel : nat) (w w' : World X) :
  loop_guard E w = false ->
  engine_loop E fuel w = Some w' ->
  exists (s d : Z) (x : X) (t : list (call * Z)),
    w' = engine_loop_render E
           (patch (engine_loop_front E w)
              (with_waits (ctx (engine_loop_front E w)) s d) x
              (trace (engine_loop_front E w) ++ t))
    /\ s <= 10
    /\ d <= game_state_ms_per_dyntick E x
    /\ Forall (fun en => tick_call (fst en) = true) t.
Proof.
  intros Hg. unfold engine_loop. rewrite Hg.
  destruct (engine_loop_drain E fuel (engine_loop_front E w)) as [w2|] eqn:Hd;
    [|discriminate].
  intros [= <-]. apply engine_loop_drain_shape in Hd.
  destruct Hd as (s & d & x & t & -> & Hs & Hdy & Hall).
  exists s, d, x, t. auto.
Qed.

(** The state in which a frame reaches line 228, against the state it
    started in. *)
Lemma engine_loop_pre_spec (w : World X) :
  let w0 := engine_loop_events E w in
  let m := mouse_visible_ticks (ctx w0) in
  let m' := if 0 <? m then int_of (m - ticks_since_frame w) else m in
  events_frame w w0
  /\ same_globals w0 (engine_loop_pre E w)
  /\ ctx (engine_loop_pre E w) = with_mouse (ctx w0) m'
  /\ sdl_queue (engine_loop_pre E w) = after_poll (sdl_queue w)
  /\ count_calls is_hide_cursor (trace (engine_loop_pre E w))
     = (count_calls is_hide_cursor (trace w)
        + if (0 <? m)%Z && (m' <=? 0)%Z then 1 else 0)%nat
  /\ count_calls is_screenshot (trace (engine_loop_pre E w))
     = count_calls is_screenshot (trace w)
  /\ count_calls tick_call (trace (engine_loop_pre E w))
     = count_calls tick_call (trace w).
Proof.
  cbv zeta. unfold engine_loop_pre, engine_loop_events.
  pose proof (poll_events_frame (sdl_queue w) w) as Hf.
  pose proof (poll_events_queue (sdl_queue w) w) as Hq.
  set (w0 := poll_events E (sdl_queue w) w) in *.
  destruct (engine_loop_mouse_spec w0) as (Hg & Hc & Ht).
  assert (Hticks : ticks_since_frame w0 = ticks_since_frame w).
  { unfold events_frame in Hf.
    destruct Hf as (_ & _ & A & B & _ & C & _).
    unfold ticks_since_frame, next_ticks. rewrite A, B, C. reflexivity. }
  rewrite Hticks in Hc, Ht.
  assert (Hext : extends_by event_call (trace w) (trace w0))
    by (unfold events_frame in Hf; tauto).
  split; [exact Hf|]. split; [exact Hg|]. cbn.
  split; [exact Hc|]. split.
  { unfold same_globals in Hg. destruct Hg as (_ & _ & _ & _ & _ & -> & _).
    exact Hq. }
  rewrite Ht, !count_calls_app, !count_calls_one. cbn.
  rewrite (extends_by_count _ _ _ _ event_call_not_hide Hext).
  rewrite (extends_by_count _ _ _ _ event_call_not_screenshot Hext).
  rewrite (extends_by_count _ _ _ _ event_call_not_tick Hext).
  destruct ((0 <? mouse_visible_ticks (ctx w0)) && _);
    unfold count_calls; cbn; rewrite ?Z.eqb_refl; cbn; repeat split; lia.
Qed.

(** A frame that got past line 129, end against start. *)
Lemma engine_loop_frame (fuel : nat) (w w' : World X) :
  loop_guard E w = false ->
  engine_loop E fuel w = Some w' ->
  let w0 := engine_loop_events E w in
  let serviced :=
    nonzero (enable_screen_updates w0) && nonzero (take_screenshot w0) in
  (exists s d : Z,
      ctx w' = with_waits (ctx (engine_loop_front E w)) s d /\ s <= 10)
  /\ run w' = run w0
  /\ enable_screen_updates w' = enable_screen_updates w0
  /\ main_loop_cancelled w' = main_loop_cancelled w
  /\ sdl_queue w' = after_poll (sdl_queue w)
  /\ take_screenshot w' = (if serviced then 0 else take_screenshot w0)
  /\ count_calls is_hide_cursor (trace w')
     = count_calls is_hide_cursor (trace (engine_loop_pre E w))
  /\ count_calls is_screenshot (trace w')
     = (count_calls is_screenshot (trace w)
        + if serviced then 1 else 0)%nat.
Proof.
  intros Hg Hrun. cbv zeta.
  destruct (engine_loop_ran _ _ _ Hg Hrun)
    as (s & d & x & t & -> & Hs & Hd & Hall).
  destruct (engine_loop_pre_spec w)
    as (Hev & Hpre & Hctx & Hq & Hhide & Hshot & Htick).
  unfold engine_loop_front in *.
  destruct (engine_loop_wait_spec (engine_loop_pre E w))
    as (Hw & Htr & _).
  unfold same_globals in Hpre, Hw.
  destruct Hpre as (P1 & P2 & P3 & P4 & P5 & P6 & P7).
  destruct Hw as (W1 & W2 & W3 & W4 & W5 & W6 & W7).
  unfold events_frame in Hev.
  destruct Hev as (_ & _ & _ & _ & V5 & _).
  match goal with
  | |- context [engine_loop_render E ?w2] =>
      destruct (engine_loop_render_spec w2)
        as (R1 & R2 & R3 & R4 & R5 & R6 & R7 & R8 & R9)
  end.
  cbn in R1, R2, R3, R4, R5, R6, R7, R8, R9.
  pose proof (extends_by_count _ _ _ _ render_call_not_hide R8) as R8h.
  rewrite R1, R3, R5, R4, R6, R7, R9, R8h, !count_calls_app.
  rewrite (count_calls_none _ _ _ tick_call_not_hide Hall).
  rewrite (count_calls_none _ _ _ tick_call_not_screenshot Hall).
  rewrite W1, W3, W4, W6, W7, P1, P3, P4, P6, P7, Htr, Hshot.
  split; [exists s, d; auto|]. repeat split; auto; try lia.
  apply poll_events_queue.
Qed.

(** A frame stopped at line 129 changes nothing but the host loop. *)
Lemma engine_loop_skipped_frame (fuel : nat) (w w' : World X) :
  loop_guard E w = true ->
  engine_loop E fuel w = Some w' ->
  ctx w' = ctx w
  /\ same_globals w (set_main_loop_cancelled (main_loop_cancelled w) w')
  /\ main_loop_cancelled w' = true
  /\ calls (trace w') = calls (trace w) ++ [emscripten_cancel_main_loop].
Proof.
  intros Hg Hrun. rewrite (engine_loop_skipped _ _ Hg) in Hrun.
  injection Hrun as <-. unfold same_globals. cbn.
  rewrite calls_app. repeat split; auto.
Qed.

(** ** Runs of frames *)

Lemma main_loop_cases (fuel frames : nat) (w : World X)
  (ws : list (World X)) :
  main_loop E fuel frames w = Some ws ->
  ws = [w]
  \/ exists (frames' : nat) (w1 : World X) (ws' : list (World X)),
      frames = S frames'
      /\ main_loop_cancelled w = false
      /\ engine_loop E fuel w = Some w1
      /\ main_loop E fuel frames' w1 = Some ws'
      /\ ws = w :: ws'.
Proof.
  destruct frames as [|frames']; cbn.
  - intros [= <-]. auto.
  - destruct (main_loop_cancelled w) eqn:Hc; [intros [= <-]; auto|].
    destruct (engine_loop E fuel w) as [w1|] eqn:H1; [|discriminate].
    destruct (main_loop E fuel frames' w1) as [ws'|] eqn:H2; [|discriminate].
    intros [= <-]. right. exists frames', w1, ws'. auto.
Qed.

Lemma main_loop_head (fuel frames : nat) (w : World X)
  (ws : list (World X)) :
  main_loop E fuel frames w = Some ws -> exists ws', ws = w :: ws'.
Proof.
  intros H. apply main_loop_cases in H.
  destruct H as [-> | (f & w1 & ws' & _ & _ & _ & _ & ->)]; eauto.
Qed.

Ltac disjoint_calls :=
  let c := fresh "c" in
  intros c; destruct c; cbn; auto; discriminate.

(** Calls that only the drain passes make are not made before them. *)
Lemma engine_loop_pre_count (p : call -> bool) (w : World X) :
  (forall c, p c = true -> tick_call c = true) ->
  count_calls p (trace (engine_loop_pre E w)) = count_calls p (trace w).
Proof.
  intros Hp.
  assert (Hnot : forall k : call -> bool,
             (forall c, k c = true -> tick_call c = false) ->
             forall c, k c = true -> p c = false).
  { intros k Hk c Hc. destruct (p c) eqn:Hpc; [|reflexivity].
    specialize (Hp c Hpc). rewrite (Hk c Hc) in Hp. discriminate. }
  unfold engine_loop_pre, engine_loop_events.
  pose proof (poll_events_frame (sdl_queue w) w) as Hf.
  set (w0 := poll_events E (sdl_queue w) w) in *.
  destruct (engine_loop_mouse_spec w0) as (_ & _ & Ht).
  assert (Hext : extends_by event_call (trace w) (trace w0))
    by (unfold events_frame in Hf; tauto).
  cbn. rewrite Ht, !count_calls_app, !count_calls_one.
  rewrite (extends_by_count _ _ _ _ (Hnot _ event_call_not_tick) Hext).
  rewrite (Hnot (fun c => match c with
                          | game_state_tick_controllers => true
                          | _ => false
                          end) ltac:(disjoint_calls)
             game_state_tick_controllers eq_refl).
  destruct ((0 <? mouse_visible_ticks (ctx w0)) && _);
    rewrite ?count_calls_one;
    rewrite ?(Hnot is_hide_cursor tick_call_not_hide_conv (SDL_ShowCursor 0)
                eq_refl);
    unfold count_calls; cbn; lia.
Qed.

Lemma engine_loop_render_count (p : call -> bool) (w : World X) :
  (forall c, p c = true -> tick_call c = true) ->
  count_calls p (trace (engine_loop_render E w)) = count_calls p (trace w).
Proof.
  intros Hp.
  destruct (engine_loop_render_spec w) as (_ & _ & _ & _ & _ & _ & _ & R & _).
  apply (extends_by_count render_call); [|exact R].
  intros c Hc. destruct (p c) eqn:Hpc; [|reflexivity].
  specialize (Hp c Hpc). rewrite (render_call_not_tick c Hc) in Hp.
  discriminate.
Qed.

(** The accumulators are untouched before line 230. *)
Lemma engine_loop_pre_waits (w : World X) :
  static_wait (ctx (engine_loop_pre E w)) = static_wait (ctx w)
  /\ dynamic_wait (ctx (engine_loop_pre E w)) = dynamic_wait (ctx w).
Proof.
  destruct (engine_loop_pre_spec w) as (Hev & _ & Hctx & _).
  unfold events_frame in Hev.
  destruct Hev as (_ & _ & _ & _ & _ & _ & Hd & Hs & _).
  rewrite Hctx. cbn. auto.
Qed.

(** * The claims *)

(** C1 (amended).  A frame that starts with both accumulators holding
    [int] values, whatever time it then measures, provided the dynamic
    period reported is always a positive [int]: its drain passes end;
    right after them the static accumulator is at most 10 and the dynamic
    accumulator at most the current dynamic period (not strictly less: the
    loops run while the accumulator exceeds the period); the static-tick
    callouts have each run [whole_periods a 10] times, that is
    [(a - 1) / 10] times for [a >= 1], where [a] is what the accumulator
    held when the passes began, and under a constant dynamic period [p] the
    dynamic tick has run [whole_periods a p] times.  The frame ends with
    both accumulators holding [int] values again, so this holds frame after
    frame. *)
Theorem drain_leaves_at_most_a_period (w : World X) :
  loop_guard E w = false ->
  int_range (static_wait (ctx w)) ->
  int_range (dynamic_wait (ctx w)) ->
  (forall x, 1 <= game_state_ms_per_dyntick E x < 2 ^ 31) ->
  let a_static := static_wait (ctx (engine_loop_front E w)) in
  let a_dynamic := dynamic_wait (ctx (engine_loop_front E w)) in
  exists w' : World X,
    (forall fuel : nat,
        (Z.to_nat (Z.max a_static a_dynamic) <= fuel)%nat ->
        engine_loop_drain E fuel (engine_loop_front E w) = Some w'
        /\ engine_loop E fuel w = Some (engine_loop_render E w'))
    /\ static_wait (ctx w') <= 10
    /\ dynamic_wait (ctx w') <= game_state_ms_per_dyntick E (ext w')
    /\ static_wait (ctx w') = a_static - 10 * whole_periods a_static 10
    /\ Z.of_nat (count_calls is_static_tick (trace w'))
       = Z.of_nat (count_calls is_static_tick (trace w))
         + whole_periods a_static 10
    /\ Z.of_nat (count_calls is_console_tick (trace w'))
       = Z.of_nat (count_calls is_console_tick (trace w))
         + whole_periods a_static 10
    /\ Z.of_nat (count_calls is_video_tick (trace w'))
       = Z.of_nat (count_calls is_video_tick (trace w))
         + whole_periods a_static 10
    /\ (forall p : Z,
           (forall x, game_state_ms_per_dyntick E x = p) ->
           dynamic_wait (ctx w') = a_dynamic - p * whole_periods a_dynamic p
           /\ Z.of_nat (count_calls is_dynamic_tick (trace w'))
              = Z.of_nat (count_calls is_dynamic_tick (trace w))
                + whole_periods a_dynamic p)
    /\ int_range (static_wait (ctx (engine_loop_render E w')))
    /\ int_range (dynamic_wait (ctx (engine_loop_render E w'))).
Proof.
  intros Hg Hs Hd Hp. cbv zeta.
  destruct (engine_loop_pre_waits w) as (Hs1 & Hd1).
  destruct (engine_loop_wait_spec (engine_loop_pre E w))
    as (_ & Htr & _ & _ & _ & _ & _ & Hs2 & Hd2 & _).
  fold (engine_loop_front E w) in Hs2, Hd2, Htr.
  assert (Hrs : int_range (static_wait (ctx (engine_loop_front E w)))).
  { rewrite Hs2, Hs1. split_ifs; auto using int_of_range. }
  assert (Hrd : int_range (dynamic_wait (ctx (engine_loop_front E w)))).
  { rewrite Hd2, Hd1. split_ifs; auto using int_of_range. }
  clear Hs2 Hd2.
  destruct (engine_loop_drain_spec (engine_loop_front E w)
              ltac:(apply Hrs) ltac:(apply Hrd) Hp)
    as (w' & Hrun & Hle & Hdle & Hs3 & Hc1 & Hc2 & Hc3 & Hdyn).
  rewrite Htr in Hc1, Hc2, Hc3.
  rewrite engine_loop_pre_count in Hc1, Hc2, Hc3 by disjoint_calls.
  destruct (engine_loop_render_spec w') as (_ & _ & _ & _ & _ & Hctx & _).
  assert (Hr1 : int_range (static_wait (ctx (engine_loop_render E w')))).
  { rewrite Hctx, Hs3. unfold whole_periods.
    pose proof (Z.mul_div_le
                  (static_wait (ctx (engine_loop_front E w)) - 1) 10
                  ltac:(lia)).
    unfold int_range in *. lia. }
  assert (Hr2 : int_range (dynamic_wait (ctx (engine_loop_render E w')))).
  { rewrite Hctx.
    apply (engine_loop_drain_range _ _ _ (Hrun _ (le_n _)) Hrd). }
  destruct Hr1 as (Hr1 & Hr1'), Hr2 as (Hr2 & Hr2').
  exists w'. repeat split; auto.
  - unfold engine_loop. rewrite Hg, (Hrun fuel H). reflexivity.
  - destruct (Hdyn p H) as (A & _). exact A.
  - destruct (Hdyn p H) as (_ & B).
    rewrite Htr, engine_loop_pre_count in B by disjoint_calls. exact B.
Qed.

(** C3.  A frame that starts with empty accumulators, runs with the visual
    debugger off and measures an elapsed time of 37 ms, under a dynamic
    period of 16 ms: the three static-tick callouts run 3 times each and
    leave 7 ms, the dynamic tick runs twice and leaves 5 ms. *)
Theorem thirty_seven_ms (fuel : nat) (w : World X) :
  loop_guard E w = false ->
  visual_debugger (ctx (engine_loop_pre E w)) = 0 ->
  elapsed (engine_loop_pre E w) = 37 ->
  static_wait (ctx w) = 0 ->
  dynamic_wait (ctx w) = 0 ->
  (forall x, game_state_ms_per_dyntick E x = 16) ->
  (37 <= fuel)%nat ->
  exists w' : World X,
    engine_loop E fuel w = Some w'
    /\ static_wait (ctx w') = 7
    /\ dynamic_wait (ctx w') = 5
    /\ count_calls is_static_tick (trace w')
       = (count_calls is_static_tick (trace w) + 3)%nat
    /\ count_calls is_console_tick (trace w')
       = (count_calls is_console_tick (trace w) + 3)%nat
    /\ count_calls is_video_tick (trace w')
       = (count_calls is_video_tick (trace w) + 3)%nat
    /\ count_calls is_dynamic_tick (trace w')
       = (count_calls is_dynamic_tick (trace w) + 2)%nat.
Proof.
  intros Hg Hvd Hdt Hs Hd Hp Hfuel.
  destruct (engine_loop_pre_waits w) as (Hs1 & Hd1).
  destruct (engine_loop_wait_spec (engine_loop_pre E w))
    as (_ & Htr & _ & _ & _ & _ & _ & Hs2 & Hd2 & _).
  rewrite Hvd, Z.eqb_refl, Hdt, Hs1, Hs in Hs2.
  rewrite Hvd, Z.eqb_refl, Hdt, Hd1, Hd in Hd2.
  change (int_of (0 + 37)) with 37 in Hs2, Hd2.
  fold (engine_loop_front E w) in Hs2, Hd2, Htr.
  destruct (engine_loop_drain_spec (engine_loop_front E w))
    as (w3 & Hrun & _ & _ & Hs3 & Hc1 & Hc2 & Hc3 & Hdyn).
  { rewrite Hs2. reflexivity. }
  { rewrite Hd2. reflexivity. }
  { intros x. rewrite Hp. split; [lia | reflexivity]. }
  destruct (Hdyn 16 Hp) as (Hd3 & Hc4). clear Hdyn.
  rewrite Hs2 in Hs3, Hc1, Hc2, Hc3. rewrite Hd2 in Hd3, Hc4.
  rewrite Hs2, Hd2 in Hrun.
  change (whole_periods 37 10) with 3 in *.
  change (whole_periods 37 16) with 2 in *.
  rewrite Htr in Hc1, Hc2, Hc3, Hc4.
  rewrite engine_loop_pre_count in Hc1, Hc2, Hc3, Hc4 by disjoint_calls.
  exists (engine_loop_render E w3).
  destruct (engine_loop_render_spec w3) as (_ & _ & _ & _ & _ & Hctx & _).
  rewrite Hctx, !engine_loop_render_count by disjoint_calls.
  split.
  - unfold engine_loop. rewrite Hg, (Hrun fuel); [reflexivity|].
    change (Z.to_nat (Z.max 37 37)) with 37%nat. exact Hfuel.
  - repeat split; lia.
Qed.

(** C8 (amended).  Servicing a screenshot request: the loop is not
    stopped; the request is cleared; [image_free] is the last call whether
    or not the capture or the write succeeded.  When the capture succeeds
    the image is written to [screenshot_<ticks>.png] if PNG is supported
    and to [screenshot_<ticks>.tga] otherwise, and the outcome of the write
    is logged ([PERROR] on failure).  When the capture fails nothing is
    written and the scheduler logs nothing. *)
Theorem screenshot_service (w : World X) :
  let failed := nonzero (ret E video_screenshot (ext w)) in
  let x1 := exec E video_screenshot (ext w) in
  let png := nonzero (image_supports_png E x1) in
  let file := screenshot_file png (next_ticks w) in
  let write := if png then image_write_png file else image_write_tga file in
  run (engine_loop_screenshot E w) = run w
  /\ main_loop_cancelled (engine_loop_screenshot E w) = main_loop_cancelled w
  /\ take_screenshot (engine_loop_screenshot E w) = 0
  /\ calls (trace (engine_loop_screenshot E w))
     = calls (trace w)
       ++ (if failed then [video_screenshot; image_free]
           else [video_screenshot; write;
                 if nonzero (ret E write x1)
                 then PERROR ("Screenshot write operation failed ("
                                ++ file ++ ")")
                 else DEBUG ("Got a screenshot: " ++ file);
                 image_free]).
Proof.
  cbv zeta.
  unfold engine_loop_screenshot, call_int, SDL_GetTicks, next_ticks,
    screenshot_file.
  destruct (nonzero (ret E video_screenshot (ext w))); cbn.
  - rewrite !calls_app, <- !app_assoc. auto.
  - destruct (nonzero (image_supports_png E _));
      destruct (sdl_clock w) as [|t l]; cbn;
      match goal with
      | |- context [nonzero ?r] => destruct (nonzero r)
      end; cbn; rewrite !calls_app, <- !app_assoc; auto.
Qed.

(** ** Consecutive frames of a run *)

Lemma main_loop_step (fuel : nat) (i frames : nat) (w wi wi' : World X)
  (ws : list (World X)) :
  main_loop E fuel frames w = Some ws ->
  nth_error ws i = Some wi ->
  nth_error ws (S i) = Some wi' ->
  engine_loop E fuel wi = Some wi'.
Proof.
  revert frames w ws. induction i as [|i IH]; intros frames w ws Hrun Hi Hi'.
  - apply main_loop_cases in Hrun.
    destruct Hrun as [-> | (f & w1 & ws' & _ & _ & H1 & H2 & ->)];
      [discriminate|].
    apply main_loop_head in H2. destruct H2 as [ws'' ->].
    cbn in Hi, Hi'. congruence.
  - apply main_loop_cases in Hrun.
    destruct Hrun as [-> | (f & w1 & ws' & _ & _ & H1 & H2 & ->)].
    + destruct i; discriminate.
    + cbn in Hi, Hi'. exact (IH _ _ _ H2 Hi Hi').
Qed.

Lemma main_loop_first (fuel frames : nat) (w w0 : World X)
  (ws : list (World X)) :
  main_loop E fuel frames w = Some ws ->
  nth_error ws 0 = Some w0 -> w0 = w.
Proof.
  intros H H0. apply main_loop_head in H. destruct H as [ws' ->].
  cbn in H0. congruence.
Qed.

(** A property that every frame preserves holds all along a run. *)
Lemma main_loop_invariant (P : World X -> Prop) (fuel : nat) :
  (forall w w', P w -> engine_loop E fuel w = Some w' -> P w') ->
  forall (frames : nat) (w : World X) (ws : list (World X)),
    main_loop E fuel frames w = Some ws -> P w -> Forall P ws.
Proof.
  intros Hstep. induction frames as [|frames IH]; intros w ws Hrun HP;
    apply main_loop_cases in Hrun;
    destruct Hrun as [-> | (f & w1 & ws' & Hf & _ & H1 & H2 & ->)];
    try discriminate; try (constructor; auto).
  injection Hf as <-. eapply IH; eauto.
Qed.

(** ** [run] *)

Lemma engine_loop_run (fuel : nat) (w w' : World X) :
  engine_loop E fuel w = Some w' ->
  (run w' = run w \/ run w' = 0)
  /\ (loop_guard E w = false -> quit_pending (sdl_queue w) = true ->
      run w' = 0)
  /\ (loop_guard E w = true ->
      run w' = run w /\ main_loop_cancelled w' = true).
Proof.
  intros Hrun. destruct (loop_guard E w) eqn:Hg.
  - destruct (engine_loop_skipped_frame _ _ _ Hg Hrun) as (_ & Hs & Hc & _).
    unfold same_globals in Hs. cbn in Hs. destruct Hs as (Hr & _).
    repeat split; auto; discriminate.
  - destruct (engine_loop_frame _ _ _ Hg Hrun) as (_ & Hr & _).
    rewrite Hr. unfold engine_loop_events.
    split; [|split; [|discriminate]].
    + destruct (poll_events_frame (sdl_queue w) w)
        as (_ & _ & _ & _ & _ & _ & _ & _ & H & _). exact H.
    + intros _ Hq. apply poll_events_quit. exact Hq.
Qed.

(** ** The screenshot request *)

Lemma keydown_switch_globals (w : World X) :
  enable_screen_updates (keydown_switch w) = enable_screen_updates w
  /\ take_screenshot (keydown_switch w)
     = (if key_sym (e (ctx w)) =? SDLK_F1 then 1 else take_screenshot w).
Proof. unfold keydown_switch. split_ifs; cbn; auto. Qed.

Lemma handle_event_screenshot (w : World X) :
  take_screenshot (handle_event E w)
  = if screenshot_key (e (ctx w)) then 1 else take_screenshot w.
Proof.
  unfold handle_event.
  assert (Hd : forall v, take_screenshot (event_dispatch E v)
                         = take_screenshot v)
    by (intros v; unfold event_dispatch; split_ifs; reflexivity).
  rewrite Hd. unfold event_switch, screenshot_key, window_switch.
  destruct (keydown_switch_globals w) as (_ & Hk).
  destruct (Z.eqb_spec (ev_type (e (ctx w))) SDL_QUIT) as [Hq|Hq].
  { rewrite Hq. reflexivity. }
  destruct (ev_type (e (ctx w)) =? SDL_KEYDOWN) eqn:Hkd.
  { rewrite Hk. reflexivity. }
  cbn. split_ifs; reflexivity.
Qed.

Lemma poll_events_screenshot (q : list (option SDL_Event)) (w : World X) :
  take_screenshot (poll_events E q w)
  = if existsb screenshot_key (pending q) then 1 else take_screenshot w.
Proof.
  revert w. induction q as [|[ev|] q IH]; intros w; cbn; auto.
  rewrite IH, handle_event_screenshot. cbn.
  destruct (screenshot_key ev); cbn;
    destruct (existsb screenshot_key (pending q)); reflexivity.
Qed.


(** C9 (amended).  [run] becomes 1 only in [engine_init], and exactly when
    all seven subsystem [init]s have returned 0; otherwise [engine_init]
    leaves it alone.  [exit_handler] sets it to 0, and so does a frame that
    polls an [SDL_QUIT] event.  A frame never makes it non-zero, so once 0
    it is 0 for the rest of the run.  The simulation reporting that it has
    finished stops the host loop but does not change [run]. *)
Theorem run_state_lifecycle :
  (forall (st : settings) (w : World X),
      (fst (engine_init E st w) = 0
       /\ run (snd (engine_init E st w)) = 1
       /\ exists t, trace (snd (engine_init E st w)) = trace w ++ t
                    /\ lifecycle_trace t
                       = map (fun s => Init s 0) init_order)
      \/ (fst (engine_init E st w) = 1
          /\ run (snd (engine_init E st w)) = run w))
  /\ (forall (s : Z) (w : World X), run (exit_handler s w) = 0)
  /\ (forall (fuel : nat) (w w' : World X),
         engine_loop E fuel w = Some w' ->
         (run w' = run w \/ run w' = 0)
         /\ (loop_guard E w = false -> quit_pending (sdl_queue w) = true ->
             run w' = 0)
         /\ (game_state_is_running E (ext w) = 0 ->
             run w' = run w /\ main_loop_cancelled w' = true))
  /\ (forall (fuel frames : nat) (w : World X) (ws : list (World X)),
         main_loop E fuel frames w = Some ws ->
         run w = 0 ->
         Forall (fun wi => run wi = 0) ws).
Proof.
  split; [|split; [|split]].
  - intros st w.
    apply engine_init_run.
  - reflexivity.
  - intros fuel w w' Hrun.
    destruct (engine_loop_run _ _ _ Hrun) as (A & B & C).
    split; [exact A|]. split; [exact B|].
    intros Hfin. apply C. unfold loop_guard.
    rewrite Hfin, nonzero_0. apply orb_true_r.
  - intros fuel frames w ws Hrun H0.
    apply (main_loop_invariant (fun wi => run wi = 0) fuel) in Hrun; auto.
    intros w1 w2 H1 H2.
    destruct (engine_loop_run _ _ _ H2) as ([A|A] & _); congruence.
Qed.



(** ** The mouse countdown over frames *)

Lemma engine_loop_countdown (fuel : nat) (w w' : World X) :
  engine_loop E fuel w = Some w' ->
  no_mouse_motion (sdl_queue w) = true ->
  let m := mouse_visible_ticks (ctx w) in
  let m' := if 0 <? m then int_of (m - ticks_since_frame w) else m in
  no_mouse_motion (sdl_queue w') = true
  /\ (loop_guard E w = true ->
      mouse_visible_ticks (ctx w') = m
      /\ count_calls is_hide_cursor (trace w')
         = count_calls is_hide_cursor (trace w))
  /\ (loop_guard E w = false ->
      mouse_visible_ticks (ctx w') = m'
      /\ count_calls is_hide_cursor (trace w')
         = (count_calls is_hide_cursor (trace w)
            + if (0 <? m)%Z && (m' <=? 0)%Z then 1 else 0)%nat).
Proof.
  intros Hrun Hq. cbv zeta. destruct (loop_guard E w) eqn:Hg.
  - rewrite (engine_loop_skipped _ _ Hg) in Hrun. injection Hrun as <-.
    cbn. rewrite count_calls_app, count_calls_one. cbn.
    repeat split; auto; try discriminate; lia.
  - destruct (engine_loop_frame _ _ _ Hg Hrun)
      as ((s & d & Hctx & _) & _ & _ & _ & Hq' & _ & Hh & _).
    destruct (engine_loop_pre_spec w) as (_ & _ & Hpre & _ & Hh' & _).
    destruct (engine_loop_wait_spec (engine_loop_pre E w))
      as (_ & _ & _ & _ & _ & _ & Hm & _).
    unfold engine_loop_events in Hpre, Hh'.
    rewrite (poll_events_mouse _ _ Hq) in Hpre, Hh'.
    split; [rewrite Hq'; apply after_poll_no_mouse_motion; exact Hq|].
    split; [discriminate|]. intros _. split.
    + rewrite Hctx. cbn. unfold engine_loop_front. rewrite Hm, Hpre.
      reflexivity.
    + rewrite Hh, Hh'. reflexivity.
Qed.

(** Once the countdown is at or below zero the cursor is not hidden
    again. *)
Lemma hidden_stays_hidden (fuel frames : nat) (w : World X)
  (ws : list (World X)) :
  main_loop E fuel frames w = Some ws ->
  mouse_visible_ticks (ctx w) <= 0 ->
  no_mouse_motion (sdl_queue w) = true ->
  Forall (fun wi => count_calls is_hide_cursor (trace wi)
                    = count_calls is_hide_cursor (trace w)) ws.
Proof.
  intros Hrun Hm Hq.
  apply (main_loop_invariant
           (fun wi => mouse_visible_ticks (ctx wi) <= 0
                      /\ no_mouse_motion (sdl_queue wi) = true
                      /\ count_calls is_hide_cursor (trace wi)
                         = count_calls is_hide_cursor (trace w)) fuel)
    in Hrun; auto.
  - eapply Forall_impl; [|exact Hrun]. cbn. tauto.
  - intros w1 w2 (Hm1 & Hq1 & Hc1) Hstep.
    destruct (engine_loop_countdown _ _ _ Hstep Hq1) as (Hq2 & Hs & Hr).
    destruct (Z.ltb_spec 0 (mouse_visible_ticks (ctx w1))) as [Hlt|_];
      [lia|].
    cbn in Hr.
    destruct (loop_guard E w1);
      [destruct (Hs eq_refl) as (A & B) | destruct (Hr eq_refl) as (A & B)];
      repeat split; auto; lia.
Qed.

Lemma total_cons (a : Z) (l : list Z) : total (a :: l) = a + total l.
Proof. reflexivity. Qed.

Lemma ticks_since_frame_nonneg (w : World X) : 0 <= ticks_since_frame w.
Proof.
  unfold ticks_since_frame, uint_of.
  apply Z.mod_pos_bound. lia.
Qed.

Lemma countdown_crossing (fuel frames : nat) (w : World X)
  (ws : list (World X)) :
  main_loop E fuel frames w = Some ws ->
  0 < mouse_visible_ticks (ctx w) <= 1000 ->
  no_mouse_motion (sdl_queue w) = true ->
  Forall (fun wi => loop_guard E wi = false
                    /\ ticks_since_frame wi < 2 ^ 31) (removelast ws) ->
  mouse_visible_ticks (ctx w)
  <= total (map ticks_since_frame (removelast ws)) ->
  exists (k : nat) (wk wk' : World X),
    nth_error ws k = Some wk
    /\ nth_error ws (S k) = Some wk'
    /\ total (map ticks_since_frame (firstn k ws))
       < mouse_visible_ticks (ctx w)
       <= total (map ticks_since_frame (firstn (S k) ws))
    /\ forall i wi,
        nth_error ws i = Some wi ->
        count_calls is_hide_cursor (trace wi)
        = (count_calls is_hide_cursor (trace w)
           + if (i <=? k)%nat then 0 else 1)%nat.
Proof.
  revert w ws. induction frames as [|frames IH];
    intros w ws Hrun Hm Hq Hall Hsum;
    apply main_loop_cases in Hrun;
    destruct Hrun as [-> | (f & w1 & ws' & Hf & _ & H1 & H2 & ->)];
    try discriminate;
    try (cbn in Hsum; change (total []) with 0 in Hsum; lia).
  injection Hf as <-.
  destruct (main_loop_head _ _ _ _ H2) as [ws'' ->].
  change (removelast (w :: w1 :: ws''))
    with (w :: removelast (w1 :: ws'')) in Hall, Hsum.
  inversion Hall as [|? ? (Hg & Hd) Hall']; subst.
  rewrite map_cons, total_cons in Hsum.
  pose proof (ticks_since_frame_nonneg w) as Hd0.
  destruct (engine_loop_countdown _ _ _ H1 Hq) as (Hq1 & _ & Hr).
  destruct (Hr Hg) as (Hm1 & Hc1). clear Hr.
  destruct (Z.ltb_spec 0 (mouse_visible_ticks (ctx w))) as [_|?]; [|lia].
  rewrite int_of_id in Hm1, Hc1 by (unfold int_range; lia).
  cbn [andb] in Hc1.
  destruct (Z.leb_spec (mouse_visible_ticks (ctx w) - ticks_since_frame w) 0)
    as [Hcross|Hnot].
  - exists 0%nat, w, w1. repeat split; auto.
    + cbn. change (total []) with 0. lia.
    + cbn. rewrite total_cons. change (total []) with 0. lia.
    + intros [|i] wi Hi; cbn in Hi.
      * injection Hi as <-. cbn. lia.
      * pose proof (hidden_stays_hidden _ _ _ _ H2 ltac:(lia) Hq1) as Hst.
        rewrite Forall_forall in Hst.
        rewrite (Hst wi (nth_error_In _ _ Hi)), Hc1. reflexivity.
  - destruct (IH w1 (w1 :: ws'') H2 ltac:(lia) Hq1 Hall' ltac:(lia))
      as (k & wk & wk' & Hk & Hk' & Hsums & Hcounts).
    exists (S k), wk, wk'. repeat split; auto.
    + cbn [firstn map]. rewrite total_cons. lia.
    + change (firstn (S (S k)) (w :: w1 :: ws''))
        with (w :: firstn (S k) (w1 :: ws'')).
      rewrite map_cons, total_cons. lia.
    + intros [|i] wi Hi; cbn in Hi.
      * injection Hi as <-. cbn. lia.
      * rewrite (Hcounts i wi Hi), Hc1.
        change (S i <=? S k)%nat with (i <=? k)%nat. lia.
Qed.

(** C7 (amended).  A run whose frames all execute, starting with the
    countdown at 1000 ms and with no mouse-motion event pending, the times
    subtracted each below 2^31 ms and adding up to at least 1000 ms: there
    is one frame [k], the one during which the running total reaches 1000,
    up to whose start [SDL_ShowCursor(0)] has not been called and from
    whose end on it has been called exactly once. *)
Theorem cursor_hidden_once (fuel frames : nat) (w : World X)
  (ws : list (World X)) :
  main_loop E fuel frames w = Some ws ->
  mouse_visible_ticks (ctx w) = 1000 ->
  no_mouse_motion (sdl_queue w) = true ->
  Forall (fun wi => loop_guard E wi = false
                    /\ ticks_since_frame wi < 2 ^ 31) (removelast ws) ->
  1000 <= total (map ticks_since_frame (removelast ws)) ->
  exists (k : nat) (wk wk' : World X),
    nth_error ws k = Some wk
    /\ nth_error ws (S k) = Some wk'
    /\ total (map ticks_since_frame (firstn k ws)) < 1000
    /\ 1000 <= total (map ticks_since_frame (firstn (S k) ws))
    /\ forall i wi,
        nth_error ws i = Some wi ->
        count_calls is_hide_cursor (trace wi)
        = (count_calls is_hide_cursor (trace w)
           + if (i <=? k)%nat then 0 else 1)%nat.
Proof.
  intros Hrun Hm Hq Hall Hsum.
  destruct (countdown_crossing _ _ _ _ Hrun ltac:(lia) Hq Hall ltac:(lia))
    as (k & wk & wk' & Hk & Hk' & Hsums & Hcounts).
  rewrite Hm in Hsums. exists k, wk, wk'. repeat split; auto; lia.
Qed.

(** ** Single steps in the visual debugger *)

Lemma keydown_switch_proceed (w : World X) :
  debugger_proceed (ctx (keydown_switch w))
  = if key_sym (e (ctx w)) =? SDLK_SPACE then 1
    else debugger_proceed (ctx w).
Proof. unfold keydown_switch. split_ifs; cbn; auto. Qed.

Lemma window_switch_ctx (w : World X) :
  ctx (window_switch E w) = ctx w.
Proof. unfold window_switch. split_ifs; cbn; auto. Qed.

Lemma handle_event_proceed (w : World X) :
  debugger_proceed (ctx (handle_event E w))
  = if step_key (e (ctx w)) then 1 else debugger_proceed (ctx w).
Proof.
  unfold handle_event.
  destruct (event_dispatch_same (event_switch E w)) as [-> _].
  unfold event_switch, step_key.
  destruct (Z.eqb_spec (ev_type (e (ctx w))) SDL_QUIT) as [Hq|Hq].
  { rewrite Hq. reflexivity. }
  destruct (ev_type (e (ctx w)) =? SDL_KEYDOWN) eqn:Hk.
  { rewrite keydown_switch_proceed. reflexivity. }
  cbn. split_ifs; cbn; auto. rewrite window_switch_ctx. reflexivity.
Qed.

Lemma poll_events_proceed (q : list (option SDL_Event)) (w : World X) :
  debugger_proceed (ctx (poll_events E q w))
  = if existsb step_key (pending q) then 1 else debugger_proceed (ctx w).
Proof.
  revert w. induction q as [|[ev|] q IH]; intros w; cbn; auto.
  rewrite IH, handle_event_proceed. cbn.
  destruct (step_key ev); cbn; destruct (existsb step_key (pending q));
    reflexivity.
Qed.

(** A step is pending at line 233 when the flag was left set or a space
    key-down is among the events the frame polls, however many. *)
Lemma step_pending_spec (w : World X) :
  step_pending E w
  = nonzero (debugger_proceed (ctx w))
    || existsb step_key (pending (sdl_queue w)).
Proof.
  unfold step_pending.
  destruct (engine_loop_pre_spec w) as (_ & _ & -> & _). cbn.
  unfold engine_loop_events. rewrite poll_events_proceed.
  destruct (existsb step_key (pending (sdl_queue w)));
    [rewrite orb_true_r | rewrite orb_false_r]; reflexivity.
Qed.

Lemma debugger_frame_advance (w : World X) :
  debugger_active E w = true ->
  int_range (static_wait (ctx w) + 20) ->
  int_range (dynamic_wait (ctx w) + 20) ->
  static_advance E w = (if step_pending E w then 20 else 0)
  /\ dynamic_advance E w = (if step_pending E w then 20 else 0)
  /\ debugger_proceed (ctx (engine_loop_front E w)) = 0.
Proof.
  unfold debugger_active, step_pending, static_advance, dynamic_advance,
    engine_loop_front.
  intros Ha Hs Hd. apply nonzero_true, Z.eqb_neq in Ha.
  destruct (engine_loop_pre_waits w) as (Hs1 & Hd1).
  destruct (engine_loop_wait_spec (engine_loop_pre E w))
    as (_ & _ & _ & _ & _ & _ & _ & Hs2 & Hd2 & Hp2).
  rewrite Ha in Hs2, Hd2, Hp2. rewrite Hs2, Hd2, Hp2, Hs1, Hd1.
  destruct (nonzero (debugger_proceed (ctx (engine_loop_pre E w))));
    rewrite ?int_of_id by assumption; repeat split; lia.
Qed.

Lemma total_steps (f : World X -> Z) (g : World X -> bool)
  (l : list (World X)) :
  Forall (fun w => f w = if g w then 20 else 0) l ->
  total (map f l) = 20 * Z.of_nat (List.length (filter g l)).
Proof.
  induction 1 as [|w l Hw _ IH]; [reflexivity|].
  rewrite map_cons, total_cons, IH, Hw. cbn [filter].
  destruct (g w); cbn [List.length]; lia.
Qed.

(** C4 (amended).  Over the frames of a run that execute with the visual
    debugger on (the additions not overflowing): a frame that reaches the
    accumulation step with no single step pending adds nothing to either
    accumulator; one that finds a step pending adds exactly 20 ms to each;
    so both advance in total by 20 ms times the number of frames that
    found a step pending.  A step is pending when the flag was left set or
    a space key-down is among the events the frame polls: the request is a
    flag, and several key-downs polled by one frame make one step.  Every
    such frame ends with the flag reset. *)
Theorem debugger_single_steps (fuel frames : nat) (w : World X)
  (ws : list (World X)) :
  main_loop E fuel frames w = Some ws ->
  Forall (fun wi => debugger_active E wi = true
                    /\ int_range (static_wait (ctx wi) + 20)
                    /\ int_range (dynamic_wait (ctx wi) + 20))
    (frames_run E ws) ->
  total (map (static_advance E) (frames_run E ws))
  = 20 * Z.of_nat (List.length (filter (step_pending E) (frames_run E ws)))
  /\ total (map (dynamic_advance E) (frames_run E ws))
     = 20 * Z.of_nat (List.length (filter (step_pending E) (frames_run E ws)))
  /\ Forall (fun wi => step_pending E wi
                       = nonzero (debugger_proceed (ctx wi))
                         || existsb step_key (pending (sdl_queue wi)))
       (frames_run E ws)
  /\ forall i wi wi',
      nth_error ws i = Some wi ->
      nth_error ws (S i) = Some wi' ->
      loop_guard E wi = false ->
      debugger_active E wi = true ->
      debugger_proceed (ctx wi') = 0.
Proof.
  intros Hrun Hall. split; [|split; [|split]].
  - apply total_steps. eapply Forall_impl; [|exact Hall].
    intros wi (Ha & Hs & Hd). apply debugger_frame_advance; auto.
  - apply total_steps. eapply Forall_impl; [|exact Hall].
    intros wi (Ha & Hs & Hd). apply debugger_frame_advance; auto.
  - apply Forall_forall. intros wi _. apply step_pending_spec.
  - intros i wi wi' Hi Hi' Hg Ha.
    pose proof (main_loop_step _ _ _ _ _ _ _ Hrun Hi Hi') as Hstep.
    destruct (engine_loop_frame _ _ _ Hg Hstep) as ((s & d & -> & _) & _).
    cbn. unfold debugger_active in Ha.
    apply nonzero_true, Z.eqb_neq in Ha.
    destruct (engine_loop_wait_spec (engine_loop_pre E wi))
      as (_ & _ & _ & _ & _ & _ & _ & _ & _ & Hp).
    unfold engine_loop_front. rewrite Hp, Ha. reflexivity.
Qed.

(** * Further properties *)

(** ** Shutdown *)

(** X1.  After a successful [engine_init], [engine_close] closes the seven
    subsystems in the exact reverse of the order they were initialised in,
    so that over both calls every subsystem is initialised once and closed
    once; [engine_close] does not touch [run], which is still 1. *)
Theorem engine_close_mirrors_init (st : settings) (w : World X) :
  fst (engine_init E st w) = 0 ->
  exists t : list (call * Z),
    trace (engine_close E (snd (engine_init E st w))) = trace w ++ t
    /\ lifecycle_trace t
       = map (fun s => Init s 0) init_order ++ map Close (rev init_order)
    /\ run (engine_close E (snd (engine_init E st w))) = 1.
Proof.
  intros Hok.
  destruct (engine_init_run st w) as [(_ & Hrun & t & Ht & Hl) | (H1 & _)];
    [|congruence].
  set (w1 := snd (engine_init E st w)) in *.
  eexists. split; [|split].
  - unfold engine_close. cbn. rewrite Ht, <- !app_assoc. reflexivity.
  - rewrite lifecycle_trace_app, Hl. reflexivity.
  - exact Hrun.
Qed.

(** ** A dynamic period of zero *)

Lemma engine_loop_dynamic_stuck (fuel : nat) (w : World X) :
  (forall x, game_state_ms_per_dyntick E x = 0) ->
  0 < dynamic_wait (ctx w) < 2 ^ 31 ->
  engine_loop_dynamic E fuel w = None.
Proof.
  intros Hp. revert w. induction fuel as [|fuel IH]; intros w Hd; cbn;
    rewrite !Hp;
    destruct (Z.ltb_spec 0 (dynamic_wait (ctx w))) as [_|?]; try lia;
    [reflexivity|].
  apply IH. cbn. rewrite int_of_id; unfold int_range; lia.
Qed.

(** X2.  When the game state reports a dynamic period of 0 and a frame
    reaches the dynamic drain with a positive accumulator, the loop
    subtracts nothing and never ends: the frame does not return, however
    long it is run. *)
Theorem zero_period_never_returns (fuel : nat) (w : World X) :
  loop_guard E w = false ->
  (forall x, game_state_ms_per_dyntick E x = 0) ->
  0 < dynamic_wait (ctx (engine_loop_front E w)) < 2 ^ 31 ->
  engine_loop E fuel w = None.
Proof.
  intros Hg Hp Hd. unfold engine_loop, engine_loop_drain. rewrite Hg.
  destruct (engine_loop_static E fuel (engine_loop_front E w))
    as [w1|] eqn:H1; [|reflexivity].
  apply engine_loop_static_shape in H1.
  destruct H1 as (v & x & t & -> & _).
  rewrite engine_loop_dynamic_stuck; auto.
Qed.

(** ** The order of the ticks *)

Lemma engine_loop_static_calls (fuel : nat) (w w' : World X) :
  engine_loop_static E fuel w = Some w' ->
  exists n : nat,
    calls (trace w') = calls (trace w) ++ List.concat (repeat static_turn n).
Proof.
  revert w w'. induction fuel as [|fuel IH]; intros w w'; cbn;
    destruct (10 <? static_wait (ctx w)); try discriminate;
    try (intros [= <-]; exists 0%nat; cbn; rewrite app_nil_r; reflexivity).
  intros Hrun. apply IH in Hrun. destruct Hrun as (n & Hn).
  exists (S n). rewrite Hn. cbn. rewrite !calls_app, <- !app_assoc.
  reflexivity.
Qed.

Lemma engine_loop_dynamic_calls (fuel : nat) (w w' : World X) :
  engine_loop_dynamic E fuel w = Some w' ->
  exists m : nat,
    calls (trace w') = calls (trace w) ++ repeat game_state_dynamic_tick m.
Proof.
  revert w w'. induction fuel as [|fuel IH]; intros w w'; cbn;
    destruct (game_state_ms_per_dyntick E (ext w) <? dynamic_wait (ctx w));
    try discriminate;
    try (intros [= <-]; exists 0%nat; cbn; rewrite app_nil_r; reflexivity).
  intros Hrun. apply IH in Hrun. destruct Hrun as (m & Hm).
  exists (S m). rewrite Hm. cbn. rewrite !calls_app, <- !app_assoc.
  reflexivity.
Qed.

(** X3.  Within a frame all static turns come before all dynamic ticks,
    and each static turn calls [game_state_static_tick], [console_tick]
    and [video_tick] in that order: the calls of the drain passes are [n]
    such turns followed by [m] dynamic ticks. *)
Theorem static_turns_precede_dynamic_ticks (fuel : nat) (w w' : World X) :
  engine_loop_drain E fuel w = Some w' ->
  exists n m : nat,
    calls (trace w')
    = calls (trace w)
      ++ List.concat (repeat static_turn n)
      ++ repeat game_state_dynamic_tick m.
Proof.
  unfold engine_loop_drain.
  destruct (engine_loop_static E fuel w) as [w1|] eqn:H1; [|discriminate].
  intros H2.
  destruct (engine_loop_static_calls _ _ _ H1) as (n & Hn).
  destruct (engine_loop_dynamic_calls _ _ _ H2) as (m & Hm).
  exists n, m. rewrite Hm, Hn, <- app_assoc. reflexivity.
Qed.

(** ** What a frame adds to the trace *)

Lemma engine_loop_frame_count (p : call -> bool) (fuel : nat)
  (w w' : World X) :
  loop_guard E w = false ->
  engine_loop E fuel w = Some w' ->
  p (SDL_ShowCursor 0) = false ->
  p game_state_tick_controllers = false ->
  (forall c, tick_call c = true -> p c = false) ->
  (forall c, render_call c = true -> p c = false) ->
  count_calls p (trace w') = count_calls p (trace (engine_loop_events E w)).
Proof.
  intros Hg Hrun Hhide Hctl Htick Hrender.
  destruct (engine_loop_ran _ _ _ Hg Hrun)
    as (s & d & x & t & -> & _ & _ & Hall).
  match goal with
  | |- context [engine_loop_render E ?w2] =>
      destruct (engine_loop_render_spec w2)
        as (_ & _ & _ & _ & _ & _ & _ & R & _)
  end.
  rewrite (extends_by_count _ _ _ _ Hrender R). cbn.
  rewrite count_calls_app, (count_calls_none _ _ _ Htick Hall).
  unfold engine_loop_front.
  destruct (engine_loop_wait_spec (engine_loop_pre E w)) as (_ & -> & _).
  unfold engine_loop_pre. cbn.
  destruct (engine_loop_mouse_spec (engine_loop_events E w)) as (_ & _ & ->).
  rewrite !count_calls_app, count_calls_one, Hctl.
  destruct ((0 <? _) && _); rewrite ?count_calls_one, ?Hhide;
    unfold count_calls; cbn; lia.
Qed.

(** ** Every polled event is disposed of once *)

Lemma handle_event_routed (w : World X) :
  count_calls is_routed (trace (handle_event E w))
  = S (count_calls is_routed (trace w)).
Proof.
  rewrite handle_event_last_call.
  destruct (event_switch_same w) as (_ & _ & Hext).
  rewrite count_calls_app, count_calls_one.
  rewrite (extends_by_count switch_call is_routed _ _
             ltac:(disjoint_calls) Hext).
  destruct (console_toggle _ (e (ctx w)));
    destruct (nonzero (console_window_is_open E _));
    destruct (console_close_key (e (ctx w))); cbn; lia.
Qed.

Lemma poll_events_routed (q : list (option SDL_Event)) (w : World X) :
  count_calls is_routed (trace (poll_events E q w))
  = (count_calls is_routed (trace w) + List.length (pending q))%nat.
Proof.
  revert w. induction q as [|[ev|] q IH]; intros w; cbn; try lia.
  rewrite IH, handle_event_routed. cbn. lia.
Qed.

(** ** Window events and screen output *)

Ltac event_kinds :=
  repeat match goal with
         | H : (_ =? _) = true |- _ => apply Z.eqb_eq in H
         | H : (_ =? _) = false |- _ => apply Z.eqb_neq in H
         end;
  unfold SDL_QUIT, SDL_KEYDOWN, SDL_MOUSEMOTION, SDL_WINDOWEVENT,
    SDL_WINDOWEVENT_MINIMIZED, SDL_WINDOWEVENT_HIDDEN,
    SDL_WINDOWEVENT_MAXIMIZED, SDL_WINDOWEVENT_RESTORED,
    SDL_WINDOWEVENT_SHOWN in *;
  try lia.

Lemma handle_event_screen (w : World X) :
  enable_screen_updates (handle_event E w)
  = match screen_event (e (ctx w)) with
    | Some v => v
    | None => enable_screen_updates w
    end.
Proof.
  unfold handle_event.
  assert (Hd : forall v, enable_screen_updates (event_dispatch E v)
                         = enable_screen_updates v)
    by (intros v; unfold event_dispatch; split_ifs; reflexivity).
  rewrite Hd. unfold event_switch, screen_event, window_switch.
  destruct (keydown_switch_globals w) as (Hk & _).
  split_ifs; cbn; rewrite ?Hk; auto; event_kinds.
Qed.

Lemma poll_events_screen (q : list (option SDL_Event)) (w : World X) :
  enable_screen_updates (poll_events E q w)
  = screen_after (pending q) (enable_screen_updates w).
Proof.
  revert w. induction q as [|[ev|] q IH]; intros w; cbn; auto.
  rewrite IH, handle_event_screen. reflexivity.
Qed.

(** X5.  Screen output at the end of an executed frame is decided by the
    last window event the frame polled that is one of minimized, hidden
    (off) and maximized, restored, shown (on); with no such event it is
    what it was. *)
Theorem last_window_event_decides (fuel : nat) (w w' : World X) :
  loop_guard E w = false ->
  engine_loop E fuel w = Some w' ->
  enable_screen_updates w'
  = screen_after (pending (sdl_queue w)) (enable_screen_updates w).
Proof.
  intros Hg Hrun.
  destruct (engine_loop_frame _ _ _ Hg Hrun) as (_ & _ & -> & _).
  apply poll_events_screen.
Qed.

(** ** A screenshot key in the frame that renders *)

(** X6.  A frame never takes more than one screenshot, however many F1
    key-downs it polls; and when it polls at least one and ends with
    screen output on, the screenshot is taken and the request cleared in
    that same frame. *)
Theorem screenshot_key_served_in_frame (fuel : nat) (w w' : World X) :
  loop_guard E w = false ->
  engine_loop E fuel w = Some w' ->
  (count_calls is_screenshot (trace w')
   <= S (count_calls is_screenshot (trace w)))%nat
  /\ (existsb screenshot_key (pending (sdl_queue w)) = true ->
      enable_screen_updates w' <> 0 ->
      take_screenshot w' = 0
      /\ count_calls is_screenshot (trace w')
         = S (count_calls is_screenshot (trace w))).
Proof.
  intros Hg Hrun.
  destruct (engine_loop_frame _ _ _ Hg Hrun)
    as (_ & _ & Hen & _ & _ & Hts & _ & Hc).
  split.
  - rewrite Hc. destruct (_ && _); lia.
  - intros Hkey Hon. rewrite <- Hen in Hts, Hc.
    unfold engine_loop_events in Hts, Hc.
    rewrite poll_events_screenshot, Hkey in Hts, Hc.
    apply nonzero_true in Hon. rewrite Hon in Hts, Hc.
    change (nonzero 1) with true in Hts, Hc.
    cbn in Hts, Hc. split; [exact Hts | lia].
Qed.

(** ** Mouse motion *)

Lemma handle_event_motion (w : World X) :
  mouse_visible_ticks (ctx (handle_event E w))
  = (if is_motion (e (ctx w)) then 1000 else mouse_visible_ticks (ctx w))
  /\ count_calls is_show_cursor (trace (handle_event E w))
     = (count_calls is_show_cursor (trace w)
        + if is_motion (e (ctx w)) then 1 else 0)%nat.
Proof.
  rewrite handle_event_last_call. unfold handle_event.
  destruct (event_dispatch_same (event_switch E w)) as [-> _].
  rewrite count_calls_app, count_calls_one.
  assert (Hr : forall c, is_routed c = true -> is_show_cursor c = false)
    by disjoint_calls.
  rewrite Hr
    by (destruct (console_toggle _ (e (ctx w)));
        destruct (nonzero (console_window_is_open E _));
        destruct (console_close_key (e (ctx w))); reflexivity).
  unfold is_motion, event_switch.
  destruct (Z.eqb_spec (ev_type (e (ctx w))) SDL_QUIT) as [Hq|Hq].
  { rewrite Hq. change (SDL_QUIT =? SDL_QUIT) with true.
    change (SDL_QUIT =? SDL_MOUSEMOTION) with false. cbn.
    split; [reflexivity | lia]. }
  destruct (ev_type (e (ctx w)) =? SDL_KEYDOWN) eqn:Hk.
  { destruct (keydown_switch_same w) as (_ & -> & _ & ->).
    destruct (Z.eqb_spec (ev_type (e (ctx w))) SDL_MOUSEMOTION);
      [event_kinds | split; [reflexivity | lia]]. }
  destruct (ev_type (e (ctx w)) =? SDL_MOUSEMOTION) eqn:Hm.
  { cbn. rewrite count_calls_app, count_calls_one. cbn.
    rewrite Z.eqb_refl. split; [reflexivity | lia]. }
  destruct (ev_type (e (ctx w)) =? SDL_WINDOWEVENT) eqn:Hw.
  { destruct (window_switch_same w) as (_ & -> & _).
    split; [reflexivity|].
    unfold window_switch.
    split_ifs; cbn; rewrite ?count_calls_app, ?count_calls_one; cbn; lia. }
  split; [reflexivity | lia].
Qed.

Lemma poll_events_motion (q : list (option SDL_Event)) (w : World X) :
  mouse_visible_ticks (ctx (poll_events E q w))
  = (if existsb is_motion (pending q) then 1000
     else mouse_visible_ticks (ctx w))
  /\ count_calls is_show_cursor (trace (poll_events E q w))
     = (count_calls is_show_cursor (trace w)
        + List.length (filter is_motion (pending q)))%nat.
Proof.
  revert w. induction q as [|[ev|] q IH]; intros w; cbn;
    try (split; [reflexivity | lia]).
  destruct (IH (handle_event E (set_e ev (set_sdl_queue q w)))) as (-> & ->).
  destruct (handle_event_motion (set_e ev (set_sdl_queue q w))) as (-> & ->).
  cbn. destruct (is_motion ev); cbn;
    destruct (existsb is_motion (pending q)); split; auto; lia.
Qed.

(** X7.  A frame that polls a mouse-motion event shows the cursor (one
    [SDL_ShowCursor(1)] per such event) and restarts the countdown from
    1000 ms whatever it held, also when the cursor had been hidden; the
    time since the last frame is then subtracted at once, so the cursor is
    hidden again in that same frame exactly when that time is 1000 ms or
    more. *)
Theorem mouse_motion_rearms (fuel : nat) (w w' : World X) :
  loop_guard E w = false ->
  engine_loop E fuel w = Some w' ->
  existsb is_motion (pending (sdl_queue w)) = true ->
  mouse_visible_ticks (ctx w') = int_of (1000 - ticks_since_frame w)
  /\ count_calls is_show_cursor (trace w')
     = (count_calls is_show_cursor (trace w)
        + List.length (filter is_motion (pending (sdl_queue w))))%nat
  /\ count_calls is_hide_cursor (trace w')
     = (count_calls is_hide_cursor (trace w)
        + if (int_of (1000 - ticks_since_frame w) <=? 0)%Z then 1 else 0)%nat.
Proof.
  intros Hg Hrun Hm.
  destruct (engine_loop_frame _ _ _ Hg Hrun)
    as ((s & d & Hctx & _) & _ & _ & _ & _ & _ & Hh & _).
  destruct (engine_loop_pre_spec w) as (_ & _ & Hpre & _ & Hh' & _).
  destruct (engine_loop_wait_spec (engine_loop_pre E w))
    as (_ & _ & _ & _ & _ & _ & Hmv & _).
  destruct (poll_events_motion (sdl_queue w) w) as (Hm0 & Hs0).
  rewrite Hm in Hm0.
  unfold engine_loop_events in Hpre, Hh'. rewrite Hm0 in Hpre, Hh'.
  change (0 <? 1000) with true in Hpre, Hh'. cbn [andb] in Hh'.
  split; [|split].
  - rewrite Hctx. cbn. unfold engine_loop_front. rewrite Hmv, Hpre.
    reflexivity.
  - rewrite (engine_loop_frame_count is_show_cursor _ _ _ Hg Hrun);
      try reflexivity; try disjoint_calls.
    exact Hs0.
  - rewrite Hh, Hh'. reflexivity.
Qed.

(** ** What a frame calls, phase by phase *)

(** The state in which an executed frame enters the output phase. *)
Lemma engine_loop_enters_render (fuel : nat) (w w' : World X) :
  loop_guard E w = false ->
  engine_loop E fuel w = Some w' ->
  exists (w2 : World X) (th tt : list (call * Z)) (r : Z),
    w' = engine_loop_render E w2
    /\ trace w2
       = trace (engine_loop_events E w)
         ++ th ++ [(game_state_tick_controllers, r)] ++ tt
    /\ Forall (fun en => is_hide_cursor (fst en) = true) th
    /\ Forall (fun en => tick_call (fst en) = true) tt
    /\ enable_screen_updates w2
       = enable_screen_updates (engine_loop_events E w)
    /\ visual_debugger (ctx w2)
       = visual_debugger (ctx (engine_loop_events E w))
    /\ debugger_render (ctx w2)
       = debugger_render (ctx (engine_loop_events E w)).
Proof.
  intros Hg Hrun.
  destruct (engine_loop_ran _ _ _ Hg Hrun)
    as (s & d & x & t & -> & _ & _ & Hall).
  destruct (engine_loop_pre_spec w) as (_ & Hglob & Hctx & _).
  unfold engine_loop_front in *.
  destruct (engine_loop_wait_spec (engine_loop_pre E w))
    as (Hw & Htr & _ & _ & Hvd & Hdr & _).
  destruct Hglob as (_ & _ & _ & G4 & _).
  destruct Hw as (_ & _ & _ & W4 & _).
  destruct (engine_loop_mouse_spec (engine_loop_events E w))
    as (_ & _ & Hmt).
  eexists.
  exists (if (0 <? mouse_visible_ticks (ctx (engine_loop_events E w)))
             && ((if 0 <? mouse_visible_ticks (ctx (engine_loop_events E w))
                  then int_of (mouse_visible_ticks
                                 (ctx (engine_loop_events E w))
                               - ticks_since_frame (engine_loop_events E w))
                  else mouse_visible_ticks (ctx (engine_loop_events E w)))
                 <=? 0)
          then [(SDL_ShowCursor 0,
                 ret E (SDL_ShowCursor 0) (ext (engine_loop_events E w)))]
          else []), t,
    (ret E game_state_tick_controllers
       (ext (engine_loop_mouse E (engine_loop_events E w)))).
  split; [reflexivity|]. cbn.
  rewrite Htr, W4, G4, Hvd, Hdr, Hctx. cbn.
  unfold engine_loop_pre. cbn. rewrite Hmt.
  split; [rewrite <- !app_assoc; reflexivity|].
  split; [|auto].
  destruct ((0 <? _) && _); repeat constructor.
Qed.

Lemma engine_loop_screenshot_calls (w : World X) :
  extends_by screenshot_call (trace w) (trace (engine_loop_screenshot E w)).
Proof.
  unfold engine_loop_screenshot, call_int, SDL_GetTicks.
  destruct (nonzero (ret E video_screenshot (ext w))); cbn.
  - eexists; split; [rewrite <- ?app_assoc; reflexivity|repeat constructor].
  - destruct (nonzero (image_supports_png E _));
      destruct (sdl_clock w) as [|t l]; cbn;
      match goal with
      | |- context [nonzero ?r] => destruct (nonzero r)
      end; cbn;
      (eexists; split;
       [rewrite <- ?app_assoc; reflexivity|repeat constructor]).
Qed.

Lemma engine_loop_screenshot_count (p : call -> bool) (w : World X) :
  (forall c, screenshot_call c = true -> p c = false) ->
  count_calls p (trace (engine_loop_screenshot E w)) = count_calls p (trace w).
Proof.
  intros Hp.
  exact (extends_by_count screenshot_call p _ _ Hp
           (engine_loop_screenshot_calls w)).
Qed.

(** How often the output phase makes one call that is none of the
    screenshot service's. *)
Lemma engine_loop_output_count (p : call -> bool) (w : World X) :
  (forall c, screenshot_call c = true -> p c = false) ->
  let on := nonzero (enable_screen_updates w) in
  let hit (b : bool) (c : call) : nat :=
    (if b && p c then 1 else 0)%nat in
  count_calls p (trace (engine_loop_render E w))
  = (count_calls p (trace w)
     + hit (visual_debugger (ctx w) =? 0)%Z audio_render
     + hit on video_render_prepare
     + hit on game_state_render
     + hit (on && nonzero (debugger_render (ctx w))) game_state_debug
     + hit on console_render
     + hit on video_render_finish
     + hit (negb on) (SDL_Delay 1))%nat.
Proof.
  intros Hp. cbv zeta. unfold engine_loop_render.
  destruct (nonzero (enable_screen_updates w)) eqn:Hen;
    destruct (visual_debugger (ctx w) =? 0) eqn:Hvd; cbn;
    rewrite ?Hen; cbn.
  3, 4: rewrite ?count_calls_app, ?count_calls_one; cbn;
    destruct (p audio_render), (p video_render_prepare),
      (p game_state_render), (p game_state_debug), (p console_render),
      (p video_render_finish), (p (SDL_Delay 1)); cbn; lia.
  all: destruct (nonzero (debugger_render (ctx w))) eqn:Hdr; cbn;
    destruct (nonzero (take_screenshot w)) eqn:Hts; cbn;
    rewrite ?(engine_loop_screenshot_count p _ Hp); cbn;
    rewrite ?count_calls_app, ?count_calls_one; cbn;
    destruct (p audio_render), (p video_render_prepare),
      (p game_state_render), (p game_state_debug), (p console_render),
      (p video_render_finish), (p (SDL_Delay 1)); cbn; lia.
Qed.

(** How often the output phase makes each of its calls. *)
Lemma engine_loop_render_counts (w : World X) :
  let on := nonzero (enable_screen_updates w) in
  let once (b : bool) (p : call -> bool) :=
    count_calls p (trace (engine_loop_render E w))
    = (count_calls p (trace w) + if b then 1 else 0)%nat in
  once on is_prepare
  /\ once on is_scene
  /\ once (on && nonzero (debugger_render (ctx w))) is_overlay
  /\ once on is_console_render
  /\ once on is_finish
  /\ once (negb on) is_delay
  /\ once (visual_debugger (ctx w) =? 0) is_audio.
Proof.
  cbv zeta.
  repeat split;
    rewrite engine_loop_output_count by disjoint_calls; cbn;
    rewrite ?Bool.andb_false_r, ?Bool.andb_true_r;
    repeat match goal with
           | |- context [if ?b then _ else _] => destruct b
           end; cbn; lia.
Qed.

(** X8.  An executed frame either renders or waits, never both: when it
    ends with screen output on it calls [video_render_prepare],
    [game_state_render], [console_render] and [video_render_finish] once
    each, the debug overlay once when that is switched on, and
    [SDL_Delay] not at all; with screen output off it calls none of them
    and [SDL_Delay] once. *)
Theorem frame_renders_or_waits (fuel : nat) (w w' : World X) :
  loop_guard E w = false ->
  engine_loop E fuel w = Some w' ->
  let on := nonzero (enable_screen_updates w') in
  let once (b : bool) (p : call -> bool) :=
    count_calls p (trace w')
    = (count_calls p (trace w) + if b then 1 else 0)%nat in
  once on is_prepare
  /\ once on is_scene
  /\ once (on && nonzero (debugger_render (ctx w'))) is_overlay
  /\ once on is_console_render
  /\ once on is_finish
  /\ once (negb on) is_delay.
Proof.
  intros Hg Hrun. cbv zeta.
  destruct (engine_loop_enters_render _ _ _ Hg Hrun)
    as (w2 & th & tt & r & -> & Ht & Hth & Htt & Hen & Hvd & Hdr).
  destruct (engine_loop_render_spec w2)
    as (_ & _ & -> & _ & _ & -> & _).
  assert (Hbefore : forall p : call -> bool,
             (forall c, event_call c = true -> p c = false) ->
             (forall c, is_hide_cursor c = true -> p c = false) ->
             (forall c, tick_call c = true -> p c = false) ->
             p game_state_tick_controllers = false ->
             count_calls p (trace w2) = count_calls p (trace w)).
  { intros p He Hh Hk Hc. rewrite Ht, !count_calls_app, count_calls_one, Hc.
    rewrite (count_calls_none _ _ _ Hh Hth), (count_calls_none _ _ _ Hk Htt).
    unfold engine_loop_events.
    destruct (poll_events_frame (sdl_queue w) w)
      as (_ & _ & _ & _ & _ & _ & _ & _ & _ & _ & Hext).
    rewrite (extends_by_count _ _ _ _ He Hext). lia. }
  destruct (engine_loop_render_counts w2) as (A & B & C & D & F & G & _).
  rewrite A, B, C, D, F, G.
  rewrite !Hbefore by (try reflexivity; disjoint_calls).
  repeat split.
Qed.

Lemma engine_loop_controllers_count (fuel : nat) (w w' : World X) :
  loop_guard E w = false ->
  engine_loop E fuel w = Some w' ->
  count_calls is_controllers (trace w')
  = S (count_calls is_controllers (trace w)).
Proof.
  intros Hg Hrun.
  destruct (engine_loop_enters_render _ _ _ Hg Hrun)
    as (w2 & th & tt & r & -> & Ht & Hth & Htt & _).
  destruct (engine_loop_render_spec w2)
    as (_ & _ & _ & _ & _ & _ & _ & Hext & _).
  destruct (poll_events_frame (sdl_queue w) w)
    as (_ & _ & _ & _ & _ & _ & _ & _ & _ & _ & Hev).
  fold (engine_loop_events E w) in Hev.
  rewrite (extends_by_count render_call is_controllers _ _
             ltac:(disjoint_calls) Hext).
  rewrite Ht, !count_calls_app, count_calls_one.
  rewrite (count_calls_none is_controllers is_hide_cursor _
             ltac:(disjoint_calls) Hth).
  rewrite (count_calls_none is_controllers tick_call _
             ltac:(disjoint_calls) Htt).
  rewrite (extends_by_count event_call is_controllers _ _
             ltac:(disjoint_calls) Hev). cbn. lia.
Qed.

(** X9.  An executed frame ticks the controllers exactly once, also while
    the visual debugger holds the simulation, and renders audio once when
    the debugger is off at the end of the frame and not at all when it is
    on. *)
Theorem frame_ticks_controllers_once (fuel : nat) (w w' : World X) :
  loop_guard E w = false ->
  engine_loop E fuel w = Some w' ->
  count_calls is_controllers (trace w')
  = S (count_calls is_controllers (trace w))
  /\ count_calls is_audio (trace w')
     = (count_calls is_audio (trace w)
        + if (visual_debugger (ctx w') =? 0)%Z then 1 else 0)%nat.
Proof.
  intros Hg Hrun.
  split; [exact (engine_loop_controllers_count _ _ _ Hg Hrun)|].
  destruct (engine_loop_enters_render _ _ _ Hg Hrun)
    as (w2 & th & tt & r & -> & Ht & Hth & Htt & Hen & Hvd & Hdr).
  destruct (engine_loop_render_spec w2)
    as (_ & _ & _ & _ & _ & -> & _).
  destruct (engine_loop_render_counts w2) as (_ & _ & _ & _ & _ & _ & Ha).
  destruct (poll_events_frame (sdl_queue w) w)
    as (_ & _ & _ & _ & _ & _ & _ & _ & _ & _ & Hev).
  fold (engine_loop_events E w) in Hev.
  rewrite Ha, Ht, !count_calls_app, count_calls_one.
  rewrite (count_calls_none is_audio is_hide_cursor _
             ltac:(disjoint_calls) Hth).
  rewrite (count_calls_none is_audio tick_call _
             ltac:(disjoint_calls) Htt).
  rewrite (extends_by_count event_call is_audio _ _
             ltac:(disjoint_calls) Hev).
  cbn. lia.
Qed.

(** ** Cancelling the host loop *)

Lemma main_loop_cancelled_stops (fuel frames : nat) (w : World X) :
  main_loop_cancelled w = true ->
  main_loop E fuel frames w = Some [w].
Proof. intros H. destruct frames; cbn; rewrite ?H; reflexivity. Qed.

Lemma main_loop_live (fuel : nat) (i frames : nat) (w wi wi' : World X)
  (ws : list (World X)) :
  main_loop E fuel frames w = Some ws ->
  nth_error ws i = Some wi ->
  nth_error ws (S i) = Some wi' ->
  main_loop_cancelled wi = false.
Proof.
  revert frames w ws. induction i as [|i IH]; intros frames w ws Hrun Hi Hi';
    apply main_loop_cases in Hrun;
    destruct Hrun as [-> | (f & w1 & ws' & _ & Hc & _ & H2 & ->)].
  - discriminate.
  - cbn in Hi. injection Hi as <-. exact Hc.
  - destruct i; discriminate.
  - cbn in Hi, Hi'. exact (IH _ _ _ H2 Hi Hi').
Qed.

(** X10.  Along a run of the host loop [emscripten_cancel_main_loop] is
    called at most once.  Every frame the host runs starts with the loop
    not cancelled.  A frame that executes does not make the call and
    leaves the loop running; a frame stopped at line 129 makes the call as
    the only thing it does, and the host then calls [engine_loop] no
    more.  At every point of the run the call has been made exactly when
    the loop is marked cancelled. *)
Theorem main_loop_cancels_once (fuel frames : nat) (w : World X)
  (ws : list (World X)) :
  main_loop E fuel frames w = Some ws ->
  main_loop_cancelled w = false ->
  Forall (fun wi => count_calls is_cancel (trace wi)
                    = (count_calls is_cancel (trace w)
                       + if main_loop_cancelled wi then 1 else 0)%nat) ws
  /\ forall (i : nat) (wi wi' : World X),
      nth_error ws i = Some wi ->
      nth_error ws (S i) = Some wi' ->
      main_loop_cancelled wi = false
      /\ if loop_guard E wi
         then main_loop_cancelled wi' = true
              /\ calls (trace wi')
                 = calls (trace wi) ++ [emscripten_cancel_main_loop]
              /\ nth_error ws (S (S i)) = None
         else main_loop_cancelled wi' = false
              /\ count_calls is_cancel (trace wi')
                 = count_calls is_cancel (trace wi).
Proof.
  intros Hrun Hc.
  assert (Hframe : forall w1 w2 : World X,
             loop_guard E w1 = false ->
             engine_loop E fuel w1 = Some w2 ->
             main_loop_cancelled w2 = main_loop_cancelled w1
             /\ count_calls is_cancel (trace w2)
                = count_calls is_cancel (trace w1)).
  { intros w1 w2 Hg H1.
    destruct (engine_loop_frame _ _ _ Hg H1) as (_ & _ & _ & Hm & _).
    split; [exact Hm|].
    rewrite (engine_loop_frame_count is_cancel _ _ _ Hg H1);
      try reflexivity; try disjoint_calls.
    unfold engine_loop_events.
    destruct (poll_events_frame (sdl_queue w1) w1)
      as (_ & _ & _ & _ & _ & _ & _ & _ & _ & _ & Hext).
    apply (extends_by_count event_call); [disjoint_calls | exact Hext]. }
  split.
  - clear - Hrun Hc Hframe. revert w ws Hrun Hc.
    induction frames as [|frames IH]; intros w ws Hrun Hc;
      apply main_loop_cases in Hrun;
      destruct Hrun as [-> | (f & w1 & ws' & Hf & _ & H1 & H2 & ->)];
      try discriminate;
      try (constructor; [rewrite Hc; lia | constructor]).
    injection Hf as <-.
    constructor; [rewrite Hc; lia|].
    destruct (loop_guard E w) eqn:Hg.
    + rewrite (engine_loop_skipped _ _ Hg) in H1. injection H1 as <-.
      rewrite main_loop_cancelled_stops in H2 by reflexivity.
      injection H2 as <-. constructor; [|constructor].
      cbn. rewrite count_calls_app, count_calls_one. reflexivity.
    + destruct (Hframe _ _ Hg H1) as (Hc1 & Hn).
      rewrite Hc in Hc1.
      specialize (IH _ _ H2 Hc1). rewrite Hn in IH. exact IH.
  - intros i wi wi' Hi Hi'.
    pose proof (main_loop_live _ _ _ _ _ _ _ Hrun Hi Hi') as Hlive.
    pose proof (main_loop_step _ _ _ _ _ _ _ Hrun Hi Hi') as Hstep.
    split; [exact Hlive|].
    destruct (loop_guard E wi) eqn:Hg.
    + destruct (engine_loop_skipped_frame _ _ _ Hg Hstep)
        as (_ & _ & Hcan & Hcalls).
      split; [exact Hcan|]. split; [exact Hcalls|].
      destruct (nth_error ws (S (S i))) as [wn|] eqn:Hn; [|reflexivity].
      pose proof (main_loop_live _ _ _ _ _ _ _ Hrun Hi' Hn). congruence.
    + destruct (Hframe _ _ Hg Hstep) as (A & B).
      split; [congruence | exact B].
Qed.

(** ** Screenshot file names *)

Lemma string_length_append (s1 s2 : string) :
  String.length (s1 ++ s2) = (String.length s1 + String.length s2)%nat.
Proof. induction s1 as [|c s1 IH]; cbn; [reflexivity | now rewrite IH]. Qed.

Lemma string_append_inj (s1 s2 x y : string) :
  String.length x = String.length y ->
  (s1 ++ x)%string = (s2 ++ y)%string -> s1 = s2 /\ x = y.
Proof.
  intros Hlen. revert s2.
  induction s1 as [|c s1 IH]; intros [|c' s2] H; cbn in H.
  - auto.
  - apply (f_equal String.length) in H. cbn in H.
    rewrite string_length_append in H. lia.
  - apply (f_equal String.length) in H. cbn in H.
    rewrite string_length_append in H. lia.
  - injection H as -> H. destruct (IH _ H) as (-> & ->). auto.
Qed.

Lemma show_ticks_inj (t1 t2 : Z) :
  0 <= t1 -> 0 <= t2 -> show_ticks t1 = show_ticks t2 -> t1 = t2.
Proof.
  unfold show_ticks. intros H1 H2 H.
  apply (f_equal NilZero.uint_of_string) in H.
  assert (Hn : forall n, N.to_uint n <> Decimal.Nil).
  { intros [|p]; [discriminate | apply DecimalPos.Unsigned.to_uint_nonnil]. }
  rewrite !NilZero.usu in H by apply Hn.
  injection H as H. apply DecimalN.Unsigned.to_uint_inj in H. lia.
Qed.

Lemma screenshot_file_eq (p1 p2 : bool) (t1 t2 : Z) :
  0 <= t1 -> 0 <= t2 ->
  screenshot_file p1 t1 = screenshot_file p2 t2 ->
  t1 = t2 /\ p1 = p2.
Proof.
  unfold screenshot_file. intros H1 H2 H.
  assert (Hs : (show_ticks t1 ++ (if p1 then ".png" else ".tga"))%string
               = (show_ticks t2 ++ (if p2 then ".png" else ".tga"))%string).
  { cbn in H. now injection H. }
  apply string_append_inj in Hs; [|destruct p1, p2; reflexivity].
  destruct Hs as (Ht & Hp). split; [apply show_ticks_inj; auto|].
  destruct p1, p2; auto; discriminate.
Qed.

Lemma engine_loop_screenshot_filename (w : World X) :
  nonzero (ret E video_screenshot (ext w)) = false ->
  screenshot_filename (engine_loop_screenshot E w)
  = screenshot_file
      (nonzero (image_supports_png E (exec E video_screenshot (ext w))))
      (next_ticks w).
Proof.
  intros Hok.
  unfold engine_loop_screenshot, call_int, SDL_GetTicks, next_ticks,
    screenshot_file.
  cbn. rewrite Hok.
  destruct (nonzero (image_supports_png E _));
    destruct (sdl_clock w) as [|t l]; cbn;
    match goal with
    | |- context [nonzero ?r] => destruct (nonzero r)
    end; reflexivity.
Qed.

(** X11.  The file name a successful screenshot leaves in
    [screenshot_filename] determines the tick count it was taken at and
    the format: two screenshots taken at different tick counts never
    share a file, and a PNG name is never a TGA name. *)
Theorem screenshot_file_inj (w1 w2 : World X) :
  nonzero (ret E video_screenshot (ext w1)) = false ->
  nonzero (ret E video_screenshot (ext w2)) = false ->
  0 <= next_ticks w1 -> 0 <= next_ticks w2 ->
  screenshot_filename (engine_loop_screenshot E w1)
  = screenshot_filename (engine_loop_screenshot E w2) ->
  next_ticks w1 = next_ticks w2
  /\ nonzero (image_supports_png E (exec E video_screenshot (ext w1)))
     = nonzero (image_supports_png E (exec E video_screenshot (ext w2))).
Proof.
  intros Hok1 Hok2 Ht1 Ht2 Hname.
  rewrite !engine_loop_screenshot_filename in Hname by assumption.
  apply screenshot_file_eq in Hname; assumption.
Qed.

(** ** The start countdown *)

Lemma after_poll_no_quit (q : list (option SDL_Event)) :
  no_quit q = true -> no_quit (after_poll q) = true.
Proof.
  unfold no_quit. induction q as [|[ev|] q IH]; cbn; auto.
  intros H. apply andb_true_iff in H. tauto.
Qed.

Lemma countdown_poll_no_quit (q : list (option SDL_Event)) (w : World X) :
  no_quit q = true ->
  exists ev : SDL_Event,
    countdown_poll q w
    = (false, patch (set_sdl_queue (after_poll q) w)
                (with_event (ctx w) ev) (ext w) (trace w)).
Proof.
  unfold no_quit. revert w.
  induction q as [|[ev|] q IH]; intros w Hq; cbn in *.
  - exists (e (ctx w)). destruct w as [? ? ? ? ? []]; reflexivity.
  - apply andb_true_iff in Hq. destruct Hq as (Hev & Hq).
    apply negb_true_iff in Hev. rewrite Hev.
    destruct (IH (set_e ev (set_sdl_queue q w)) Hq) as (ev' & ->).
    exists ev'. reflexivity.
  - exists (e (ctx w)). destruct w as [? ? ? ? ? []]; reflexivity.
Qed.

Lemma countdown_poll_quit (q : list (option SDL_Event)) (w : World X) :
  quit_pending q = true ->
  fst (countdown_poll q w) = true
  /\ trace (snd (countdown_poll q w)) = trace w
  /\ run (snd (countdown_poll q w)) = run w
  /\ start_timeout (snd (countdown_poll q w)) = start_timeout w.
Proof.
  unfold quit_pending. revert w.
  induction q as [|[ev|] q IH]; intros w Hq; cbn in *; try discriminate.
  destruct (ev_type ev =? SDL_QUIT); cbn in *; [auto|].
  destruct (IH (set_e ev (set_sdl_queue q w)) Hq) as (A & B & C & D).
  auto.
Qed.

Lemma engine_run_countdown_spec (n fuel : nat) (w : World X) :
  Z.to_nat (start_timeout w) = n ->
  start_timeout w < 2 ^ 31 ->
  no_quit (sdl_queue w) = true ->
  (n <= fuel)%nat ->
  exists (w' : World X) (ev : SDL_Event),
    engine_run_countdown E fuel w = Some (Ready w')
    /\ start_timeout w' = Z.min 0 (start_timeout w)
    /\ sdl_queue w' = Nat.iter n after_poll (sdl_queue w)
    /\ ctx w' = with_event (ctx w) ev
    /\ run w' = run w
    /\ calls (trace w')
       = calls (trace w) ++ List.concat (repeat empty_frame n).
Proof.
  revert fuel w. induction n as [|n IH]; intros fuel w Hn Hlt Hq Hfuel.
  - exists w, (e (ctx w)).
    assert (Hle : start_timeout w <= 0) by lia.
    destruct fuel; cbn;
      (destruct (Z.ltb_spec 0 (start_timeout w)); [lia|]);
      rewrite app_nil_r;
      (repeat split; auto; [lia | destruct (ctx w); reflexivity]).
  - destruct fuel as [|fuel]; [lia|]. cbn.
    destruct (Z.ltb_spec 0 (start_timeout w)); [|lia].
    rewrite int_of_id by (unfold int_range; lia).
    destruct (countdown_poll_no_quit (sdl_queue w)
                (set_start_timeout (start_timeout w - 1) w) Hq)
      as (ev & Hpoll).
    cbn in Hpoll. rewrite Hpoll. cbn.
    match goal with
    | |- context [engine_run_countdown E fuel ?w1] =>
        destruct (IH fuel w1) as (w' & ev' & Hrun & Hst & Hqu & Hctx & Hr & Hc)
    end; cbn; try lia.
    { apply after_poll_no_quit. exact Hq. }
    exists w', ev'. cbn in Hst, Hqu, Hctx, Hr, Hc.
    rewrite Hrun, Hst, Hqu, Hctx, Hr, Hc.
    repeat split; auto.
    + lia.
    + rewrite Nat.iter_swap. reflexivity.
    + unfold calls. rewrite !map_app, <- !app_assoc. reflexivity.
Qed.

(** X12.  With no [SDL_QUIT] among the events to come, [engine_run] builds
    a fresh context (accumulators empty, debugger off, mouse countdown at
    1000 ms, frame start at the clock), logs the start, and, unless
    crossfade is off, runs [start_timeout] empty frames
    ([video_render_prepare], [video_render_finish]) whose polled events
    are thrown away without reaching the console or the game state; only
    then does it set the sound volume and create the game state.  It
    returns early exactly when [game_state_create] fails; [start_timeout]
    is left at 0 (or at the negative value it had), so a later run has no
    countdown. *)
Theorem countdown_then_game (fuel : nat) (crossfade_on : Z) (st : settings)
  (w : World X) :
  no_quit (sdl_queue w) = true ->
  start_timeout w < 2 ^ 31 ->
  let n := if crossfade_on =? 0 then 0%nat
           else Z.to_nat (start_timeout w) in
  (n <= fuel)%nat ->
  exists (w' : World X) (r : Z) (ev : SDL_Event),
    engine_run_setup E fuel crossfade_on st w
    = Some (if nonzero r then Returned w' else Ready w')
    /\ (exists t, trace w' = t ++ [(game_state_create, r)])
    /\ calls (trace w')
       = calls (trace w)
         ++ INFO " --- BEGIN GAME LOG ---"
         :: List.concat (repeat empty_frame n)
         ++ [sound_set_volume (sound_vol st); game_state_create]
    /\ sdl_queue w' = Nat.iter n after_poll (sdl_queue w)
    /\ ctx w' = engine_run_context ev (next_ticks w)
    /\ run w' = run w
    /\ start_timeout w'
       = (if crossfade_on =? 0 then 0 else Z.min 0 (start_timeout w)).
Proof.
  intros Hq Hlt n Hfuel. subst n.
  unfold engine_run_setup.
  set (w0 := set_ctx (engine_run_context (e (ctx (snd (SDL_GetTicks w))))
                        (fst (SDL_GetTicks w))) (snd (SDL_GetTicks w))).
  replace (let '(t, w1) := SDL_GetTicks w in _)
    with (match engine_run_countdown E fuel
                  (if crossfade_on =? 0
                   then set_start_timeout 0
                          (invoke E (INFO " --- BEGIN GAME LOG ---") w0)
                   else invoke E (INFO " --- BEGIN GAME LOG ---") w0) with
          | Some (Ready w2) =>
              let w3 := invoke E (sound_set_volume (sound_vol st)) w2 in
              let '(r, w4) := call_int E game_state_create w3 in
              if nonzero r then Some (Returned w4) else Some (Ready w4)
          | other => other
          end)
    by (unfold w0; destruct (SDL_GetTicks w); reflexivity).
  assert (H0 : sdl_queue w0 = sdl_queue w /\ run w0 = run w
               /\ start_timeout w0 = start_timeout w /\ trace w0 = trace w
               /\ ctx w0 = engine_run_context (e (ctx w)) (next_ticks w)).
  { unfold w0, SDL_GetTicks, next_ticks.
    destruct (sdl_clock w); cbn; auto. }
  destruct H0 as (Q0 & R0 & S0 & T0 & C0).
  clearbody w0.
  match goal with
  | |- context [engine_run_countdown E fuel ?w1] =>
      destruct (engine_run_countdown_spec
                  (if crossfade_on =? 0 then 0%nat
                   else Z.to_nat (start_timeout w)) fuel w1)
        as (w2 & ev & Hrun & Hst & Hqu & Hctx & Hr & Hc)
  end.
  { destruct (crossfade_on =? 0); cbn; [reflexivity | now rewrite S0]. }
  { destruct (crossfade_on =? 0); cbn; [reflexivity | now rewrite S0]. }
  { destruct (crossfade_on =? 0); cbn; now rewrite Q0. }
  { exact Hfuel. }
  rewrite Hrun. unfold call_int. cbv zeta.
  exists (invoke E game_state_create
            (invoke E (sound_set_volume (sound_vol st)) w2)),
    (ret E game_state_create
       (ext (invoke E (sound_set_volume (sound_vol st)) w2))), ev.
  split; [destruct (nonzero _); reflexivity|]. cbn.
  split; [eexists; reflexivity|].
  rewrite !calls_app, Hc, Hqu, Hctx, Hr, Hst.
  destruct (crossfade_on =? 0); cbn; rewrite ?calls_app, Q0, R0, ?S0, T0, C0;
    cbn; rewrite <- ?app_assoc; repeat split; reflexivity.
Qed.

(** X13.  When crossfade is on and an [SDL_QUIT] is among the events
    polled by the first turn of the start countdown, [engine_run] returns
    at once: after the start log it creates no game state, sets no volume,
    renders nothing and logs no end; and it leaves [run] as it was. *)
Theorem quit_during_countdown (fuel : nat) (crossfade_on : Z) (st : settings)
  (w : World X) :
  crossfade_on <> 0 ->
  0 < start_timeout w < 2 ^ 31 ->
  quit_pending (sdl_queue w) = true ->
  (1 <= fuel)%nat ->
  exists w' : World X,
    engine_run_setup E fuel crossfade_on st w = Some (Returned w')
    /\ calls (trace w')
       = calls (trace w) ++ [INFO " --- BEGIN GAME LOG ---"]
    /\ run w' = run w
    /\ start_timeout w' = start_timeout w - 1.
Proof.
  intros Hcf Hst Hq Hfuel. apply Z.eqb_neq in Hcf.
  destruct fuel as [|fuel]; [lia|].
  unfold engine_run_setup, SDL_GetTicks.
  destruct (sdl_clock w) as [|t l] eqn:Hclock; cbn; rewrite Hcf; cbn;
    (destruct (Z.ltb_spec 0 (start_timeout w)); [|lia]);
    rewrite int_of_id by (unfold int_range; lia);
    match goal with
    | |- context [countdown_poll (sdl_queue w) ?w1] =>
        destruct (countdown_poll_quit (sdl_queue w) w1 Hq)
          as (A & B & C & D);
        destruct (countdown_poll (sdl_queue w) w1) as [quit w2]
    end;
    cbn in A, B, C, D; subst quit;
    exists w2; rewrite B, C, D, calls_app; auto.
Qed.

(** ** Quitting *)

(** What an executed frame adds of a call that only its output phase can
    make, in terms of the state the frame ends in. *)
Lemma engine_loop_frame_output (p : call -> bool) (fuel : nat)
  (w w' : World X) :
  loop_guard E w = false ->
  engine_loop E fuel w = Some w' ->
  (forall c, event_call c = true -> p c = false) ->
  (forall c, is_hide_cursor c = true -> p c = false) ->
  (forall c, tick_call c = true -> p c = false) ->
  (forall c, screenshot_call c = true -> p c = false) ->
  p game_state_tick_controllers = false ->
  let on := nonzero (enable_screen_updates w') in
  let hit (b : bool) (c : call) : nat :=
    (if b && p c then 1 else 0)%nat in
  count_calls p (trace w')
  = (count_calls p (trace w)
     + hit (visual_debugger (ctx w') =? 0)%Z audio_render
     + hit on video_render_prepare
     + hit on game_state_render
     + hit (on && nonzero (debugger_render (ctx w'))) game_state_debug
     + hit on console_render
     + hit on video_render_finish
     + hit (negb on) (SDL_Delay 1))%nat.
Proof.
  intros Hg Hrun He Hh Hk Hs Hc. cbv zeta.
  destruct (engine_loop_enters_render _ _ _ Hg Hrun)
    as (w2 & th & tt & r & -> & Ht & Hth & Htt & _).
  destruct (engine_loop_render_spec w2)
    as (_ & _ & -> & _ & _ & -> & _).
  pose proof (engine_loop_output_count p w2 Hs) as Hout.
  cbv zeta in Hout. rewrite Hout, Ht, !count_calls_app, count_calls_one, Hc.
  rewrite (count_calls_none p is_hide_cursor th Hh Hth).
  rewrite (count_calls_none p tick_call tt Hk Htt).
  destruct (poll_events_frame (sdl_queue w) w)
    as (_ & _ & _ & _ & _ & _ & _ & _ & _ & _ & Hext).
  fold (engine_loop_events E w) in Hext.
  rewrite (extends_by_count event_call p _ _ He Hext). lia.
Qed.

(** X14.  A frame that polls [SDL_QUIT] is not cut short.  It clears
    [run], but it still ticks the controllers once, runs both drain loops
    to their end (the accumulators it hands to the output phase are at
    most one period), renders audio unless the visual debugger is on, and
    either renders the scene or waits, as any executed frame does; and it
    does not cancel the host loop itself.  The next call of [engine_loop]
    does nothing but cancel the host loop. *)
Theorem quit_ends_the_next_frame (fuel : nat) (w w' w'' : World X) :
  loop_guard E w = false ->
  engine_loop E fuel w = Some w' ->
  quit_pending (sdl_queue w) = true ->
  engine_loop E fuel w' = Some w'' ->
  let on := nonzero (enable_screen_updates w') in
  let added (p : call -> bool) (b : bool) :=
    count_calls p (trace w')
    = (count_calls p (trace w) + if b then 1 else 0)%nat in
  run w' = 0
  /\ main_loop_cancelled w' = main_loop_cancelled w
  /\ added is_cancel false
  /\ added is_controllers true
  /\ (exists wd : World X,
         w' = engine_loop_render E wd
         /\ static_wait (ctx wd) <= 10
         /\ dynamic_wait (ctx wd) <= game_state_ms_per_dyntick E (ext wd))
  /\ added is_audio (visual_debugger (ctx w') =? 0)
  /\ added is_prepare on
  /\ added is_scene on
  /\ added is_console_render on
  /\ added is_finish on
  /\ added is_delay (negb on)
  /\ main_loop_cancelled w'' = true
  /\ ctx w'' = ctx w'
  /\ sdl_queue w'' = sdl_queue w'
  /\ calls (trace w'') = calls (trace w') ++ [emscripten_cancel_main_loop].
Proof.
  intros Hg Hrun Hq Hnext. cbv zeta.
  destruct (engine_loop_run _ _ _ Hrun) as (_ & Hquit & _).
  specialize (Hquit Hg Hq).
  destruct (engine_loop_frame _ _ _ Hg Hrun) as (_ & _ & _ & Hc & _).
  assert (Hg' : loop_guard E w' = true)
    by (unfold loop_guard; rewrite Hquit; reflexivity).
  destruct (engine_loop_skipped_frame _ _ _ Hg' Hnext)
    as (Hctx & Hglob & Hcan & Hcalls).
  destruct Hglob as (_ & _ & _ & _ & _ & Hqueue & _).
  assert (Hout : forall p : call -> bool,
             (forall c, event_call c = true -> p c = false) ->
             (forall c, is_hide_cursor c = true -> p c = false) ->
             (forall c, tick_call c = true -> p c = false) ->
             (forall c, screenshot_call c = true -> p c = false) ->
             p game_state_tick_controllers = false ->
             _)
    by (intros p; exact (engine_loop_frame_output p _ _ _ Hg Hrun)).
  cbv zeta in Hout.
  split; [exact Hquit|]. split; [exact Hc|].
  split; [rewrite Hout by (try reflexivity; disjoint_calls); cbn;
          rewrite ?andb_false_r; cbn; lia|].
  split; [rewrite (engine_loop_controllers_count _ _ _ Hg Hrun); lia|].
  split.
  { destruct (engine_loop_ran _ _ _ Hg Hrun)
      as (s & d & x & t & Hw' & Hs & Hd & _).
    eexists. split; [exact Hw'|]. cbn. split; assumption. }
  repeat split; auto;
    rewrite Hout by (try reflexivity; disjoint_calls); cbn;
    rewrite ?andb_false_r, ?andb_true_r; cbn;
    repeat match goal with
           | |- context [if ?b then _ else _] => destruct b
           end; cbn; lia.
Qed.

(** ** Each polled event and the call that disposes of it *)

Lemma SDL_Event_eqb_refl (ev : SDL_Event) : SDL_Event_eqb ev ev = true.
Proof. unfold SDL_Event_eqb. rewrite !Z.eqb_refl. reflexivity. Qed.

#[local] Arguments routed : simpl never.

Lemma routed_app (t1 t2 : list (call * Z)) :
  routed (t1 ++ t2) = routed t1 ++ routed t2.
Proof. unfold routed, calls. rewrite map_app, filter_app. reflexivity. Qed.

Lemma routed_none (k : call -> bool) (t : list (call * Z)) :
  (forall c, k c = true -> is_routed c = false) ->
  Forall (fun en => k (fst en) = true) t ->
  routed t = [].
Proof.
  intros Hk Hall. unfold routed, calls.
  induction Hall as [|en t Hen _ IH]; cbn; [reflexivity|].
  rewrite (Hk _ Hen). exact IH.
Qed.

Lemma handle_event_disposes (w : World X) :
  exists c : call,
    routed (trace (handle_event E w)) = routed (trace w) ++ [c]
    /\ disposes c (e (ctx w)) = true.
Proof.
  unfold handle_event, event_dispatch.
  destruct (event_switch_same w) as (He & _ & ts & Hts & Hall).
  rewrite He.
  assert (Hn : routed ts = [])
    by (apply (routed_none switch_call); [disjoint_calls | exact Hall]).
  destruct (ev_type (e (ctx w)) =? SDL_KEYDOWN) eqn:Hkd;
    destruct (nonzero (console_window_is_open E (ext (event_switch E w))));
    destruct (console_close_key (e (ctx w))) eqn:Hck;
    destruct (console_open_key (e (ctx w))) eqn:Hok; cbn;
    rewrite Hts, !routed_app, Hn, app_nil_r;
    eexists; (split; [reflexivity|]); cbn;
    rewrite ?Hkd, ?Hck, ?Hok, ?SDL_Event_eqb_refl; reflexivity.
Qed.

Lemma poll_events_disposes (q : list (option SDL_Event)) (w : World X) :
  exists cs : list call,
    routed (trace (poll_events E q w)) = routed (trace w) ++ cs
    /\ Forall2 (fun c ev => disposes c ev = true) cs (pending q).
Proof.
  revert w. induction q as [|[ev|] q IH]; intros w; cbn.
  - exists []. rewrite app_nil_r. split; [reflexivity | constructor].
  - destruct (IH (handle_event E (set_e ev (set_sdl_queue q w))))
      as (cs & Hcs & Hall).
    destruct (handle_event_disposes (set_e ev (set_sdl_queue q w)))
      as (c & Hc & Hd).
    exists (c :: cs). rewrite Hcs, Hc, <- app_assoc. cbn in Hd |- *.
    split; [reflexivity | constructor; assumption].
  - exists []. rewrite app_nil_r. split; [reflexivity | constructor].
Qed.

(** X4.  A frame that executes drains the whole queue up to the first
    empty poll, and disposes of every polled event by exactly one call:
    to the console handler, to the game-state handler, or to open or close
    the console.  The routing calls the frame adds, in order, pair up one
    to one with the polled events, in order: a handler is called with the
    very event it pairs with, and a console toggle pairs with a key-down
    of a toggle key.  No polled event is dropped or handled twice. *)
Theorem every_polled_event_is_routed_once (fuel : nat) (w w' : World X) :
  loop_guard E w = false ->
  engine_loop E fuel w = Some w' ->
  sdl_queue w' = after_poll (sdl_queue w)
  /\ count_calls is_routed (trace w')
     = (count_calls is_routed (trace w)
        + List.length (pending (sdl_queue w)))%nat
  /\ exists cs : list call,
      routed (trace w') = routed (trace w) ++ cs
      /\ Forall2 (fun c ev => disposes c ev = true) cs
           (pending (sdl_queue w)).
Proof.
  intros Hg Hrun. split; [|split].
  - destruct (engine_loop_frame _ _ _ Hg Hrun) as (_ & _ & _ & _ & Hq & _).
    exact Hq.
  - rewrite (engine_loop_frame_count is_routed _ _ _ Hg Hrun);
      try reflexivity; try disjoint_calls.
    apply poll_events_routed.
  - destruct (engine_loop_enters_render _ _ _ Hg Hrun)
      as (w2 & th & tt & r & -> & Ht & Hth & Htt & _).
    destruct (engine_loop_render_spec w2)
      as (_ & _ & _ & _ & _ & _ & _ & (tr & Htr & Hall) & _).
    destruct (poll_events_disposes (sdl_queue w) w) as (cs & Hcs & Hpair).
    fold (engine_loop_events E w) in Hcs.
    exists cs. split; [|exact Hpair].
    rewrite Htr, Ht, !routed_app, Hcs.
    rewrite (routed_none is_hide_cursor th), (routed_none tick_call tt),
      (routed_none render_call tr); auto; try disjoint_calls.
    cbn. rewrite !app_nil_r. reflexivity.
Qed.

End EngineProperties.

(** * The claims on concrete runs *)

(** C1 as stated fails: a frame that measures 10 ms from empty accumulators
    leaves the static accumulator at 10, which is not below the period,
    and makes no static tick although 10 / 10 = 1. *)
Lemma ten_ms_are_kept :
  option_map frame_outcome (engine_loop (quiet 16) 8 (running [] [10; 10; 10]))
  = Some (10, 0%nat, 0%nat, 0%nat)
  /\ ~ 10 < 10
  /\ 10 / 10 = 1.
Proof.
  split; [vm_compute; reflexivity|]. split; [lia | reflexivity].
Qed.

Lemma drain_leaves_at_most_a_period_witness :
  exists w' : World unit,
    engine_loop_drain (quiet 16) 37
      (engine_loop_front (quiet 16) (running [] [37; 37; 37])) = Some w'
    /\ static_wait (ctx w') <= 10
    /\ dynamic_wait (ctx w') = 37 - 16 * whole_periods 37 16.
Proof.
  destruct (drain_leaves_at_most_a_period (quiet 16)
              (running [] [37; 37; 37]))
    as (w' & Hrun & Hs & _ & _ & _ & _ & _ & Hp & _).
  - reflexivity.
  - unfold int_range. cbn. lia.
  - unfold int_range. cbn. lia.
  - intros x. cbn. lia.
  - exists w'. split; [apply Hrun; vm_compute; lia|]. split; [exact Hs|].
    apply (Hp 16). reflexivity.
Defined.

Lemma thirty_seven_ms_witness :
  exists w' : World unit,
    engine_loop (quiet 16) 40 (running [] [37; 37; 37]) = Some w'
    /\ static_wait (ctx w') = 7
    /\ dynamic_wait (ctx w') = 5
    /\ count_calls is_static_tick (trace w') = 3%nat
    /\ count_calls is_dynamic_tick (trace w') = 2%nat.
Proof.
  destruct (thirty_seven_ms (quiet 16) 40 (running [] [37; 37; 37]))
    as (w' & Hrun & Hs & Hd & Hst & _ & _ & Hdt).
  - reflexivity.
  - reflexivity.
  - reflexivity.
  - reflexivity.
  - reflexivity.
  - reflexivity.
  - lia.
  - exists w'. repeat split; assumption.
Defined.

(** C4 as stated fails: with the debugger on, two single-step requests
    polled by the same frame advance the accumulators by 20 ms, not 40,
    over that frame and the next. *)
Lemma two_requests_one_step :
  List.length
    (filter step_key
       (pending [Some (key_down SDLK_SPACE); Some (key_down SDLK_SPACE); None]))
  = 2%nat
  /\ option_map
       (fun ws => (total (map (static_advance (quiet 16))
                            (frames_run (quiet 16) ws)),
                   total (map (dynamic_advance (quiet 16))
                            (frames_run (quiet 16) ws))))
       (main_loop (quiet 16) 8 2
          (debugging [Some (key_down SDLK_SPACE); Some (key_down SDLK_SPACE);
                      None; None] []))
     = Some (20, 20)
  /\ 20 <> 20 * 2.
Proof.
  split; [reflexivity|]. split; [vm_compute; reflexivity | lia].
Qed.

Lemma debugger_single_steps_witness :
  exists ws : list (World unit),
    main_loop (quiet 16) 8 3
      (debugging [Some (key_down SDLK_SPACE); None; None;
                  Some (key_down SDLK_SPACE); None] []) = Some ws
    /\ List.length (filter (step_pending (quiet 16))
                      (frames_run (quiet 16) ws)) = 2%nat
    /\ total (map (static_advance (quiet 16)) (frames_run (quiet 16) ws))
       = 40.
Proof.
  eexists. split; [vm_compute; reflexivity|]. split; [reflexivity|].
  match goal with
  | |- total (map _ (frames_run _ ?ws)) = _ =>
      destruct (debugger_single_steps (quiet 16) 8 3
                  (debugging [Some (key_down SDLK_SPACE); None; None;
                              Some (key_down SDLK_SPACE); None] []) ws)
        as (Hs & _)
  end.
  - vm_compute. reflexivity.
  - repeat constructor; try discriminate.
  - rewrite Hs. reflexivity.
Defined.

(** C5 as stated fails: a tab key-down polled while the console is closed
    opens the console and is handed to neither handler. *)
Lemma tab_reaches_no_handler :
  option_map frame_outcome
    (engine_loop (quiet 16) 8 (running [Some (key_down SDLK_TAB); None] []))
  = Some (0, 0%nat, 0%nat, 0%nat)
  /\ option_map
       (fun w' => count_calls
                    (fun c => match c with
                              | console_window_open => true
                              | _ => false
                              end) (trace w'))
       (engine_loop (quiet 16) 8
          (running [Some (key_down SDLK_TAB); None] []))
     = Some 1%nat.
Proof. split; vm_compute; reflexivity. Qed.

Lemma engine_init_sink_fallback_witness :
  (fst (engine_init (quiet 16) some_settings boot) = 0
   /\ run (snd (engine_init (quiet 16) some_settings boot)) = 1
   /\ In (audio_init (Some "alsa"%string))
        (calls (trace (snd (engine_init (quiet 16) some_settings boot)))))
  /\ (fst (engine_init silent some_settings boot) = 0
      /\ run (snd (engine_init silent some_settings boot)) = 1
      /\ In (audio_init None)
           (calls (trace (snd (engine_init silent some_settings boot))))).
Proof.
  split.
  - destruct (engine_init_sink_fallback (quiet 16) some_settings boot)
      as (Halt & _).
    + reflexivity.
    + reflexivity.
    + repeat split.
    + destruct (Halt "alsa"%string) as (H0 & H1 & Hc).
      * reflexivity.
      * intros x. reflexivity.
      * rewrite Hc. repeat split; auto. cbn. auto.
  - destruct (engine_init_sink_fallback silent some_settings boot)
      as (_ & Hnone).
    + reflexivity.
    + reflexivity.
    + repeat split.
    + destruct Hnone as (H0 & H1 & Hc).
      * reflexivity.
      * intros x. reflexivity.
      * rewrite Hc. repeat split; auto. cbn. auto.
Defined.

(** C7 as stated fails for a frame of 2^31 ms or more: line 218 subtracts
    the [Uint32] difference from the [int] countdown, so a first frame of
    3000000000 ms turns 1000 into 1294968296 instead of crossing zero.
    The deltas add up to far more than 1000 ms, there is no mouse motion,
    and the cursor is not hidden, neither in that frame nor in the next. *)
Lemma long_frame_keeps_cursor :
  exists ws : list (World unit),
    main_loop (quiet 16) 8 2
      (running [] [3000000000; 3000000000; 3000000000;
                   3000000500; 3000000500; 3000000500]) = Some ws
    /\ map (fun wi => no_mouse_motion (sdl_queue wi)) ws = [true; true; true]
    /\ map ticks_since_frame (removelast ws) = [3000000000; 500]
    /\ 1000 <= total (map ticks_since_frame (removelast ws))
    /\ map (fun wi => mouse_visible_ticks (ctx wi)) ws
       = [1000; 1294968296; 1294967796]
    /\ map (fun wi => count_calls is_hide_cursor (trace wi)) ws
       = [0; 0; 0]%nat.
Proof.
  eexists. split; [vm_compute; reflexivity|].
  vm_compute. repeat split; discriminate.
Qed.

Lemma cursor_hidden_once_witness :
  exists ws : list (World unit),
    main_loop (quiet 16) 1000 3
      (running [] [400; 400; 400; 1100; 1100; 1100; 1200; 1200]) = Some ws
    /\ map (fun wi => count_calls is_hide_cursor (trace wi)) ws
       = [0; 0; 1; 1]%nat
    /\ exists k : nat,
        total (map ticks_since_frame (firstn k ws)) < 1000
        /\ 1000 <= total (map ticks_since_frame (firstn (S k) ws)).
Proof.
  eexists. split; [vm_compute; reflexivity|]. split; [vm_compute; reflexivity|].
  match goal with
  | |- exists k, total (map _ (firstn k ?ws)) < _ /\ _ =>
      destruct (cursor_hidden_once (quiet 16) 1000 3
                  (running [] [400; 400; 400; 1100; 1100; 1100; 1200; 1200])
                  ws)
        as (k & _ & _ & _ & _ & Hlt & Hge & _)
  end.
  - vm_compute. reflexivity.
  - reflexivity.
  - reflexivity.
  - repeat constructor.
  - vm_compute. discriminate.
  - exists k. split; assumption.
Defined.

(** C8 as stated fails: when the capture fails the scheduler frees the
    image and clears the request but logs nothing. *)
Lemma failed_capture_is_silent :
  ret capture_fails video_screenshot tt = 1
  /\ option_map
       (fun w' => (count_calls is_screenshot (trace w'),
                   count_calls is_image_free (trace w'),
                   count_calls is_log (trace w'),
                   take_screenshot w', run w'))
       (engine_loop capture_fails 8 (requested 1 [] [5; 5; 5]))
     = Some (1%nat, 1%nat, 0%nat, 0, 1).
Proof. split; [reflexivity | vm_compute; reflexivity]. Qed.

(** C9 as stated fails: when the simulation reports that it has finished,
    the frame cancels the host loop and leaves [run] at 1. *)
Lemma finished_game_leaves_run_set :
  game_state_is_running finished tt = 0
  /\ option_map (fun w' => (run w', main_loop_cancelled w'))
       (engine_loop finished 8 (running [] []))
     = Some (1, true).
Proof. split; [reflexivity | vm_compute; reflexivity]. Qed.

Lemma run_state_lifecycle_witness :
  (exists w' : World unit,
      engine_loop (quiet 16) 8 (running [Some quit_event; None] []) = Some w'
      /\ run w' = 0)
  /\ (exists w' : World unit,
         engine_loop finished 8 (running [] []) = Some w'
         /\ run w' = 1 /\ main_loop_cancelled w' = true)
  /\ (exists ws : list (World unit),
         main_loop (quiet 16) 8 3 (exit_handler 2 (running [] [])) = Some ws
         /\ Forall (fun wi => run wi = 0) ws).
Proof.
  split; [|split].
  - eexists. split; [vm_compute; reflexivity|].
    match goal with
    | |- run ?w' = 0 =>
        destruct (run_state_lifecycle (quiet 16)) as (_ & _ & Hloop & _);
        destruct (Hloop 8%nat (running [Some quit_event; None] []) w')
          as (_ & Hquit & _)
    end.
    + vm_compute. reflexivity.
    + apply Hquit; reflexivity.
  - eexists. split; [vm_compute; reflexivity|].
    match goal with
    | |- run ?w' = 1 /\ _ =>
        destruct (run_state_lifecycle finished) as (_ & _ & Hloop & _);
        destruct (Hloop 8%nat (running [] []) w') as (_ & _ & Hfin)
    end.
    + vm_compute. reflexivity.
    + apply Hfin. reflexivity.
  - eexists. split; [vm_compute; reflexivity|].
    destruct (run_state_lifecycle (quiet 16)) as (_ & Hsig & _ & Hkeep).
    apply (Hkeep 8%nat 3%nat (exit_handler 2 (running [] []))).
    + vm_compute. reflexivity.
    + apply Hsig.
Defined.


(** * The further properties on concrete runs *)

Lemma engine_close_mirrors_init_witness :
  exists t : list (call * Z),
    trace (engine_close (quiet 16)
             (snd (engine_init (quiet 16) some_settings boot)))
    = trace boot ++ t
    /\ lifecycle_trace t
       = map (fun s => Init s 0) init_order ++ map Close (rev init_order)
    /\ run (engine_close (quiet 16)
              (snd (engine_init (quiet 16) some_settings boot))) = 1.
Proof.
  apply (engine_close_mirrors_init (quiet 16) some_settings boot).
  reflexivity.
Defined.

Lemma zero_period_never_returns_witness :
  engine_loop (quiet 0) 50 (running [] [5; 5; 5]) = None.
Proof.
  apply (zero_period_never_returns (quiet 0) 50 (running [] [5; 5; 5])).
  - reflexivity.
  - intros x. reflexivity.
  - vm_compute. split; reflexivity.
Defined.

Lemma static_turns_precede_dynamic_ticks_witness :
  exists (w' : World unit) (n m : nat),
    engine_loop_drain (quiet 16) 8 (accumulated 37 37) = Some w'
    /\ calls (trace w')
       = calls (trace (accumulated 37 37))
         ++ List.concat (repeat static_turn n)
         ++ repeat game_state_dynamic_tick m.
Proof.
  destruct (engine_loop_drain (quiet 16) 8 (accumulated 37 37))
    as [w'|] eqn:Hrun; [|vm_compute in Hrun; discriminate].
  destruct (static_turns_precede_dynamic_ticks (quiet 16) 8
              (accumulated 37 37) w' Hrun) as (n & m & H).
  exists w', n, m. split; [reflexivity | exact H].
Defined.

Lemma every_polled_event_is_routed_once_witness :
  exists w' : World unit,
    engine_loop (quiet 16) 8
      (running [Some (key_down SDLK_TAB); Some (key_down SDLK_SPACE); None;
                Some quit_event; None] []) = Some w'
    /\ sdl_queue w' = [Some quit_event; None]
    /\ count_calls is_routed (trace w') = 2%nat
    /\ exists cs : list call,
        routed (trace w') = cs
        /\ Forall2 (fun c ev => disposes c ev = true) cs
             [key_down SDLK_TAB; key_down SDLK_SPACE].
Proof.
  destruct (engine_loop (quiet 16) 8
              (running [Some (key_down SDLK_TAB); Some (key_down SDLK_SPACE);
                        None; Some quit_event; None] []))
    as [w'|] eqn:Hrun; [|vm_compute in Hrun; discriminate].
  exists w'. split; [reflexivity|].
  match type of Hrun with
  | engine_loop _ _ ?w0 = _ =>
      destruct (every_polled_event_is_routed_once (quiet 16) 8 w0 w'
                  eq_refl Hrun)
        as (Hq & Hc & cs & Hcs & Hpair)
  end.
  rewrite Hq, Hc. split; [reflexivity|]. split; [reflexivity|].
  exists cs. split; [exact Hcs | exact Hpair].
Defined.

Lemma last_window_event_decides_witness :
  exists w' : World unit,
    engine_loop (quiet 16) 8
      (running [Some (window SDL_WINDOWEVENT_SHOWN);
                Some (window SDL_WINDOWEVENT_MINIMIZED);
                Some (key_down SDLK_SPACE); None] []) = Some w'
    /\ enable_screen_updates w' = 0.
Proof.
  destruct (engine_loop (quiet 16) 8
              (running [Some (window SDL_WINDOWEVENT_SHOWN);
                        Some (window SDL_WINDOWEVENT_MINIMIZED);
                        Some (key_down SDLK_SPACE); None] []))
    as [w'|] eqn:Hrun; [|vm_compute in Hrun; discriminate].
  exists w'. split; [reflexivity|].
  match type of Hrun with
  | engine_loop _ _ ?w0 = _ =>
      rewrite (last_window_event_decides (quiet 16) 8 w0 w' eq_refl Hrun)
  end.
  reflexivity.
Defined.

Lemma screenshot_key_served_in_frame_witness :
  exists w' : World unit,
    engine_loop (quiet 16) 8
      (running [Some (key_down SDLK_F1); Some (key_down SDLK_F1); None] [])
    = Some w'
    /\ take_screenshot w' = 0
    /\ count_calls is_screenshot (trace w') = 1%nat.
Proof.
  destruct (engine_loop (quiet 16) 8
              (running [Some (key_down SDLK_F1); Some (key_down SDLK_F1);
                        None] []))
    as [w'|] eqn:Hrun; [|vm_compute in Hrun; discriminate].
  exists w'. split; [reflexivity|].
  match type of Hrun with
  | engine_loop _ _ ?w0 = _ =>
      destruct (screenshot_key_served_in_frame (quiet 16) 8 w0 w' eq_refl Hrun)
        as (_ & Hserved)
  end.
  apply Hserved; [reflexivity|].
  vm_compute in Hrun. injection Hrun as <-. discriminate.
Defined.

Lemma mouse_motion_rearms_witness :
  exists w' : World unit,
    engine_loop (quiet 16) 8 (running [Some motion_event; None] [5; 5; 5])
    = Some w'
    /\ mouse_visible_ticks (ctx w') = 995
    /\ count_calls is_show_cursor (trace w') = 1%nat
    /\ count_calls is_hide_cursor (trace w') = 0%nat.
Proof.
  destruct (engine_loop (quiet 16) 8
              (running [Some motion_event; None] [5; 5; 5]))
    as [w'|] eqn:Hrun; [|vm_compute in Hrun; discriminate].
  exists w'. split; [reflexivity|].
  match type of Hrun with
  | engine_loop _ _ ?w0 = _ =>
      destruct (mouse_motion_rearms (quiet 16) 8 w0 w' eq_refl Hrun eq_refl)
        as (Hm & Hs & Hh)
  end.
  rewrite Hm, Hs, Hh. repeat split; reflexivity.
Defined.

Lemma frame_renders_or_waits_witness :
  exists w' : World unit,
    engine_loop (quiet 16) 8
      (running [Some (window SDL_WINDOWEVENT_HIDDEN); None] []) = Some w'
    /\ count_calls is_prepare (trace w') = 0%nat
    /\ count_calls is_delay (trace w') = 1%nat.
Proof.
  destruct (engine_loop (quiet 16) 8
              (running [Some (window SDL_WINDOWEVENT_HIDDEN); None] []))
    as [w'|] eqn:Hrun; [|vm_compute in Hrun; discriminate].
  exists w'. split; [reflexivity|].
  match type of Hrun with
  | engine_loop _ _ ?w0 = _ =>
      pose proof (frame_renders_or_waits (quiet 16) 8 w0 w' eq_refl Hrun) as H
  end.
  cbv zeta in H. destruct H as (Hp & _ & _ & _ & _ & Hd).
  rewrite Hp, Hd. vm_compute in Hrun. injection Hrun as <-.
  split; reflexivity.
Defined.

Lemma frame_ticks_controllers_once_witness :
  exists w' : World unit,
    engine_loop (quiet 16) 8 (debugging [] []) = Some w'
    /\ count_calls is_controllers (trace w') = 1%nat.
Proof.
  destruct (engine_loop (quiet 16) 8 (debugging [] []))
    as [w'|] eqn:Hrun; [|vm_compute in Hrun; discriminate].
  exists w'. split; [reflexivity|].
  match type of Hrun with
  | engine_loop _ _ ?w0 = _ =>
      destruct (frame_ticks_controllers_once (quiet 16) 8 w0 w' eq_refl Hrun)
        as (Hc & _)
  end.
  rewrite Hc. reflexivity.
Defined.

Lemma main_loop_cancels_once_witness :
  exists ws : list (World unit),
    main_loop (quiet 16) 8 5 (running [Some quit_event; None] []) = Some ws
    /\ map (fun wi => (main_loop_cancelled wi,
                       count_calls is_cancel (trace wi))) ws
       = [(false, 0%nat); (false, 0%nat); (true, 1%nat)]
    /\ Forall (fun wi => count_calls is_cancel (trace wi)
                         = if main_loop_cancelled wi then 1%nat else 0%nat)
         ws
    /\ nth_error ws 3 = None.
Proof.
  eexists. split; [vm_compute; reflexivity|].
  split; [vm_compute; reflexivity|].
  match goal with
  | |- Forall _ ?ws /\ _ =>
      destruct (main_loop_cancels_once (quiet 16) 8 5
                  (running [Some quit_event; None] []) ws)
        as (Hall & Hstep)
  end.
  - vm_compute. reflexivity.
  - reflexivity.
  - split; [exact Hall|].
    match type of Hstep with
    | forall i wi wi', nth_error [?w0; ?w1; ?w2] i = _ -> _ =>
        destruct (Hstep 1%nat w1 w2 eq_refl eq_refl) as (_ & Hlast)
    end.
    change (loop_guard (quiet 16) _) with true in Hlast.
    destruct Hlast as (_ & _ & Hend). exact Hend.
Defined.

Lemma screenshot_file_inj_witness :
  next_ticks (requested 1 [] [1234]) = next_ticks (requested 1 [] [1234; 5])
  /\ nonzero (image_supports_png (quiet 16)
                (exec (quiet 16) video_screenshot
                   (ext (requested 1 [] [1234]))))
     = nonzero (image_supports_png (quiet 16)
                  (exec (quiet 16) video_screenshot
                     (ext (requested 1 [] [1234; 5])))).
Proof.
  apply (screenshot_file_inj (quiet 16) (requested 1 [] [1234])
           (requested 1 [] [1234; 5]));
    try reflexivity; vm_compute; discriminate.
Defined.

Lemma countdown_then_game_witness :
  exists (w' : World unit) (r : Z) (ev : SDL_Event),
    engine_run_setup (quiet 16) 3 1 some_settings
      (waiting 3 [Some (key_down SDLK_SPACE); None; None; None] [7])
    = Some (if nonzero r then Returned w' else Ready w')
    /\ calls (trace w')
       = [INFO " --- BEGIN GAME LOG ---";
          video_render_prepare; video_render_finish;
          video_render_prepare; video_render_finish;
          video_render_prepare; video_render_finish;
          sound_set_volume 10; game_state_create]
    /\ ctx w' = engine_run_context ev 7.
Proof.
  destruct (countdown_then_game (quiet 16) 3 1 some_settings
              (waiting 3 [Some (key_down SDLK_SPACE); None; None; None] [7]))
    as (w' & r & ev & Hrun & _ & Hc & _ & Hctx & _).
  - reflexivity.
  - reflexivity.
  - vm_compute. lia.
  - exists w', r, ev. split; [exact Hrun|]. split; [exact Hc | exact Hctx].
Defined.

Lemma quit_during_countdown_witness :
  exists w' : World unit,
    engine_run_setup (quiet 16) 30 1 some_settings
      (waiting 30 [Some quit_event] []) = Some (Returned w')
    /\ calls (trace w') = [INFO " --- BEGIN GAME LOG ---"]
    /\ run w' = 1.
Proof.
  destruct (quit_during_countdown (quiet 16) 30 1 some_settings
              (waiting 30 [Some quit_event] []))
    as (w' & Hrun & Hc & Hr & _).
  - discriminate.
  - split; reflexivity.
  - reflexivity.
  - lia.
  - exists w'. split; [exact Hrun|]. split; [exact Hc | exact Hr].
Defined.

Lemma quit_ends_the_next_frame_witness :
  exists w' w'' : World unit,
    engine_loop (quiet 16) 8 (running [Some quit_event; None] [37; 37; 37])
    = Some w'
    /\ engine_loop (quiet 16) 8 w' = Some w''
    /\ run w' = 0
    /\ main_loop_cancelled w' = false
    /\ count_calls is_prepare (trace w') = 1%nat
    /\ count_calls is_delay (trace w') = 0%nat
    /\ main_loop_cancelled w'' = true.
Proof.
  eexists. eexists.
  split; [vm_compute; reflexivity|]. split; [vm_compute; reflexivity|].
  match goal with
  | |- run ?a = 0 /\ _ /\ _ /\ _ /\ main_loop_cancelled ?b = true =>
      pose proof (quit_ends_the_next_frame (quiet 16) 8
                    (running [Some quit_event; None] [37; 37; 37]) a b)
        as H
  end.
  cbv zeta in H.
  destruct H as (H1 & H2 & _ & _ & _ & _ & H3 & _ & _ & _ & H4 & H5 & _).
  - reflexivity.
  - vm_compute. reflexivity.
  - reflexivity.
  - vm_compute. reflexivity.
  - split; [exact H1|]. split; [exact H2|].
    split; [exact H3|]. split; [exact H4 | exact H5].
Defined.
